(** * Shardeum Marketplace client (src/App.tsx): wallet, session and ledger
    synchronisation core.

    The component's asynchronous handlers are embedded as interaction
    scripts ([Task]): every [await] is a suspension point answered by the
    wallet or the ledger, every React state setter is a synchronous action.
    Two semantics are given: a sequential one ([run]) in which every await is
    answered at once by an oracle that sees the whole history, and an event
    loop ([step]) in which suspended handlers, user clicks, wallet events and
    timer ticks interleave. *)

From Stdlib Require Import ZArith Ascii String List Bool Lia.
Import ListNotations.
Local Open Scope string_scope.
Local Open Scope list_scope.
Local Open Scope Z_scope.

(** ** Thrown values and settled promises *)

(** A thrown JavaScript value, as far as the component inspects it: the
    numeric [code] property (absent when the value carries none) and the
    [message], which is what the dialogs show of it. *)
Record Err : Type := mkErr { code : option Z; message : string }.

Inductive Result (A : Type) : Type :=
| Resolved (a : A)
| Rejected (e : Err).
Arguments Resolved {A} a.
Arguments Rejected {A} e.

(** ** The ethers v5 helpers the component calls

    [BigNumber] values are integers; [toNumber], [formatEther] and
    [parseEther] follow the library's [BigNumber.toNumber], [formatFixed] and
    [parseFixed] at 18 decimals. *)
Module Ethers.

Definition chars := list ascii.

Definition zeroChar : ascii := "0"%char.
Definition dotChar : ascii := "."%char.
Definition minusChar : ascii := "-"%char.

Definition digitChar (d : Z) : ascii := ascii_of_nat (48 + Z.to_nat d).

Definition isDigit (c : ascii) : bool :=
  let n := nat_of_ascii c in ((48 <=? n) && (n <=? 57))%nat.

Definition digitVal (c : ascii) : Z := Z.of_nat (nat_of_ascii c) - 48.

Definition isZeroChar (c : ascii) : bool := Ascii.eqb c zeroChar.

(** [BigNumber.toNumber()]: throws once the magnitude needs more than 53
    bits. *)
Definition toNumber (x : Z) : Result Z :=
  if Z.abs x <? 2 ^ 53 then Resolved x
  else Rejected (mkErr None "overflow").

(** Decimal digits of a non-negative integer, most significant first. *)
Fixpoint natDigits (fuel : nat) (n : Z) (acc : chars) : chars :=
  match fuel with
  | O => acc
  | S f =>
      let acc' := digitChar (n mod 10) :: acc in
      if n / 10 =? 0 then acc' else natDigits f (n / 10) acc'
  end.

Definition toStringAbs (n : Z) : chars :=
  natDigits (S (Z.to_nat (Z.log2 n))) n [].

(** [BigNumber.toString()]. *)
Definition toString (n : Z) : chars :=
  if n <? 0 then minusChar :: toStringAbs (- n) else toStringAbs n.

Definition digitsValue (s : chars) : Z :=
  fold_left (fun acc c => acc * 10 + digitVal c) s 0.

(** [BigNumber.from(s)] on a string: an optional sign and one or more
    decimal digits, anything else throws. *)
Definition fromString (s : chars) : Result Z :=
  let bad := Rejected (mkErr None "invalid BigNumber string") in
  match s with
  | [] => bad
  | c :: rest =>
      if Ascii.eqb c minusChar then
        match rest with
        | [] => bad
        | _ => if forallb isDigit rest then Resolved (- digitsValue rest) else bad
        end
      else if forallb isDigit s then Resolved (digitsValue s) else bad
  end.

(** [while (s.length < n) s = "0" + s]. *)
Definition padStart (s : chars) (n : nat) : chars :=
  repeat zeroChar (n - length s) ++ s.

(** [while (s.length < n) s += "0"]. *)
Definition padEnd (s : chars) (n : nat) : chars :=
  s ++ repeat zeroChar (n - length s).

Fixpoint dropLeadingZeros (s : chars) : chars :=
  match s with
  | c :: rest => if isZeroChar c then dropLeadingZeros rest else s
  | [] => []
  end.

(** [while (s[s.length - 1] === "0") s = s.substring(0, s.length - 1)]. *)
Definition trimTrailingZeros (s : chars) : chars :=
  rev (dropLeadingZeros (rev s)).

Fixpoint takeDigits (s : chars) : chars :=
  match s with
  | c :: rest => if isDigit c then c :: takeDigits rest else []
  | [] => []
  end.

(** The group that [formatFixed] keeps of the fraction when it strips the
    trailing zeros with its regular expression (any digits then a digit from
    1 to 9, or else one zero): the longest leading run of digits that ends in
    a non-zero digit, else a single leading zero; no match (a [TypeError] in
    the caller) otherwise. *)
Definition matchFraction (s : chars) : Result chars :=
  match trimTrailingZeros (takeDigits s) with
  | [] =>
      match s with
      | c :: _ => if isZeroChar c then Resolved [zeroChar]
                  else Rejected (mkErr None "no match")
      | [] => Rejected (mkErr None "no match")
      end
  | g => Resolved g
  end.

(** [formatFixed(value, decimals)]. *)
Definition formatFixed (value : Z) (decimals : nat) : Result chars :=
  let multiplier := 10 ^ Z.of_nat decimals in
  let negative := value <? 0 in
  let value := if negative then value * -1 else value in
  let fraction := padStart (toString (value mod multiplier)) decimals in
  match matchFraction fraction with
  | Rejected e => Rejected e
  | Resolved fraction =>
      let whole := toString (value / multiplier) in
      let text :=
        match decimals with
        | O => whole
        | _ => whole ++ dotChar :: fraction
        end in
      Resolved (if negative then minusChar :: text else text)
  end.

(** [s.split(".")]. *)
Fixpoint splitDot (s : chars) : list chars :=
  match s with
  | [] => [[]]
  | c :: rest =>
      if Ascii.eqb c dotChar then [] :: splitDot rest
      else match splitDot rest with
           | comp :: comps => (c :: comp) :: comps
           | [] => [[c]]
           end
  end.

(** The shape test of [parseFixed]: an optional minus sign, then one or more
    characters that are digits or dots. *)
Definition decimalShape (s : chars) : bool :=
  let body := match s with
              | c :: rest => if Ascii.eqb c minusChar then rest else s
              | [] => []
              end in
  match body with
  | [] => false
  | _ => forallb (fun c => isDigit c || Ascii.eqb c dotChar) body
  end.

Definition argErr (msg : string) : Err := mkErr None msg.

(** [parseFixed(value, decimals)]. *)
Definition parseFixed (value : chars) (decimals : nat) : Result Z :=
  let multiplier := 10 ^ Z.of_nat decimals in
  if negb (decimalShape value) then Rejected (argErr "invalid decimal value")
  else
    let negative := match value with
                    | c :: _ => Ascii.eqb c minusChar
                    | [] => false
                    end in
    let value := if negative then tl value else value in
    let lone_dot := match value with
                    | [c] => Ascii.eqb c dotChar
                    | _ => false
                    end in
    if lone_dot then Rejected (argErr "missing value")
    else
        let comps := splitDot value in
        if (2 <? length comps)%nat then Rejected (argErr "too many decimal points")
        else
          let whole := nth 0 comps [] in
          let fraction := nth 1 comps [] in
          let whole := match whole with [] => [zeroChar] | _ => whole end in
          let fraction := match fraction with [] => [zeroChar] | _ => fraction end in
          let fraction := trimTrailingZeros fraction in
          if (decimals <? length fraction)%nat
          then Rejected (argErr "fractional component exceeds decimals")
          else
            let fraction := match fraction with [] => [zeroChar] | _ => fraction end in
            let fraction := padEnd fraction decimals in
            match fromString whole, fromString fraction with
            | Resolved wholeValue, Resolved fractionValue =>
                let wei := wholeValue * multiplier + fractionValue in
                Resolved (if negative then wei * -1 else wei)
            | Rejected e, _ => Rejected e
            | _, Rejected e => Rejected e
            end.

Definition formatEther (wei : Z) : Result string :=
  match formatFixed wei 18 with
  | Resolved s => Resolved (string_of_list_ascii s)
  | Rejected e => Rejected e
  end.

Definition parseEther (ether : string) : Result Z :=
  parseFixed (list_ascii_of_string ether) 18.

(** The ABI coder on a [uint256] argument of a contract method
    ([NumberCoder.encode]): a value below zero or above 2^256 - 1 is refused
    when the call is built, before anything is sent. *)
Definition encodeUint256 (v : Z) : Result Z :=
  if (v <? 0) || (2 ^ 256 <=? v) then Rejected (argErr "value out-of-bounds")
  else Resolved v.

End Ethers.

(** ** Data model *)

(** Object identities of the [Web3Provider], [Contract] and transaction
    response instances the component holds. *)
Definition Provider := nat.
Definition Contract := nat.
Definition Tx := nat.

(** The tuple the ledger returns for [items(index)]. *)
Record RawItem : Type := mkRaw {
  raw_id : Z;
  raw_seller : string;
  raw_name : string;
  raw_price : Z;
  raw_sold : bool }.

Record Item : Type := mkItem {
  id : Z;
  seller : string;
  name : string;
  price : string;
  sold : bool }.

(** The [useState] cells of [App]. *)
Record State : Type := mkState {
  account : option string;
  provider : option Provider;
  contract : option Contract;
  items : list Item;
  loading : bool;
  itemName : string;
  itemPrice : string;
  contractBalance : string }.

Definition initialState : State :=
  mkState None None None [] false "" "" "0.0".

Record NativeCurrency : Type := mkCurrency {
  currencyName : string;
  symbol : string;
  decimals : Z }.

Record ChainParams : Type := mkChain {
  chainId : string;
  chainName : string;
  nativeCurrency : NativeCurrency;
  rpcUrls : list string;
  blockExplorerUrls : list string }.

Definition contractAddress : string :=
  "0x8b53744F48E8FD46773E646c0AF093dd1d02898b".

Definition libertyChainId : string := "0x1f90".

Definition libertyParams : ChainParams :=
  mkChain libertyChainId "Shardeum Liberty 1.X" (mkCurrency "SHM" "SHM" 18)
          ["https://liberty10.shardeum.org/"]
          ["https://explorer-liberty10.shardeum.org/"].

(** [e.code === n]. *)
Definition hasCode (e : Err) (n : Z) : bool :=
  match code e with
  | Some k => k =? n
  | None => false
  end.

(** ** Interaction scripts *)

(** Requests whose answer the component awaits: wallet requests, ledger
    reads and writes, settlement of a transaction. *)
Inductive Call : Type -> Type :=
| eth_chainId : Call string
| wallet_switchEthereumChain (chain : string) : Call unit
| wallet_addEthereumChain (params : ChainParams) : Call unit
| eth_requestAccounts : Call (list string)
| eth_accounts : Call (list string)
| getBalance (p : Provider) (address : string) : Call Z
| call_itemCount (c : Contract) : Call Z
| call_items (c : Contract) (i : Z) : Call RawItem
| call_listItem (c : Contract) (itemName : string) (priceInWei : Z) : Call Tx
| call_buyItem (c : Contract) (item : Z) (value : Z) : Call Tx
| tx_wait (tx : Tx) : Call unit.

(** Synchronous effects: the state setters, the dialogs and the console,
    and the deferred refresh that [handleAccountsChanged] schedules with the
    closures of its own render. *)
Inductive Action : Type :=
| setAccount (a : option string)
| setProvider (p : option Provider)
| setContract (c : option Contract)
| setItems (l : list Item)
| setLoading (b : bool)
| setItemName (s : string)
| setItemPrice (s : string)
| setContractBalance (s : string)
| alert (msg : string)
| console_error (msg : string) (e : Err)
| setTimeout_refresh (closure : State) (ms : Z).

Inductive Task (A : Type) : Type :=
| Ret (a : A)
| Throw (e : Err)
| Do (a : Action) (k : Task A)
| New (k : nat -> Task A)
| Await (R : Type) (c : Call R) (k : Result R -> Task A).
Arguments Ret {A} a.
Arguments Throw {A} e.
Arguments Do {A} a k.
Arguments New {A} k.
Arguments Await {A R} c k.

Fixpoint bind {A B : Type} (t : Task A) (f : A -> Task B) : Task B :=
  match t with
  | Ret a => f a
  | Throw e => Throw e
  | Do a k => Do a (bind k f)
  | New k => New (fun n => bind (k n) f)
  | Await c k => Await c (fun r => bind (k r) f)
  end.

Notation "x <- t ;; k" := (bind t (fun x => k))
  (at level 61, t at next level, right associativity).
Notation "t ;;; k" := (bind t (fun _ => k))
  (at level 61, right associativity).

(** [try { t } catch (err) { handler err }]. *)
Fixpoint try_catch {A : Type} (t : Task A) (handler : Err -> Task A) : Task A :=
  match t with
  | Ret a => Ret a
  | Throw e => handler e
  | Do a k => Do a (try_catch k handler)
  | New k => New (fun n => try_catch (k n) handler)
  | Await c k => Await c (fun r => try_catch (k r) handler)
  end.

(** [try { t } finally { cleanup }]. *)
Fixpoint finally {A : Type} (t : Task A) (cleanup : Task unit) : Task A :=
  match t with
  | Ret a => cleanup ;;; Ret a
  | Throw e => cleanup ;;; Throw e
  | Do a k => Do a (finally k cleanup)
  | New k => New (fun n => finally (k n) cleanup)
  | Await c k => Await c (fun r => finally (k r) cleanup)
  end.

(** [await] of a request: the resolved value, or the rejection thrown. *)
Definition await {R : Type} (c : Call R) : Task R :=
  Await c (fun r => match r with
                    | Resolved v => Ret v
                    | Rejected e => Throw e
                    end).

(** A library call that returns or throws. *)
Definition lift {A : Type} (r : Result A) : Task A :=
  match r with
  | Resolved v => Ret v
  | Rejected e => Throw e
  end.

Definition do (a : Action) : Task unit := Do a (Ret tt).

(** JavaScript truthiness of a [string | null] and of an object handle. *)
Definition truthy (o : option string) : bool :=
  match o with
  | Some s => negb (s =? "")%string
  | None => false
  end.

Definition bound {A : Type} (o : option A) : bool :=
  match o with
  | Some _ => true
  | None => false
  end.

(** [a || b] on handles. *)
Definition orElse {A : Type} (a b : option A) : option A :=
  match a with
  | Some _ => a
  | None => b
  end.

(** ** The component

    [toFixed6] stands for [Number(text).toFixed(6)], the floating-point
    rendering of the balance; [ethereum] tells whether a wallet is injected
    as [window.ethereum]; [r] is the render whose closures run: the handlers
    read the state cells of [r] and write through the setters. *)
Section App.

Variable toFixed6 : string -> string.
Variable ethereum : bool.

Section Render.

Variable r : State.

Definition fetchContractBalance (prov : option Provider) : Task unit :=
  try_catch
    (match orElse prov (provider r) with
     | None => Ret tt
     | Some p =>
         balanceBN <- await (getBalance p contractAddress) ;;
         text <- lift (Ethers.formatEther balanceBN) ;;
         do (setContractBalance (toFixed6 text))
     end)
    (fun err => do (console_error "fetchContractBalance error:" err)).

Definition setupProviderAndContract (selectedAccount : option string) : Task unit :=
  if negb ethereum then Ret tt
  else
    New (fun prov =>
    Do (setProvider (Some prov)) (
    New (fun contractInstance =>
    Do (setContract (Some contractInstance)) (
    (if truthy selectedAccount then do (setAccount selectedAccount) else Ret tt) ;;;
    fetchContractBalance (Some prov))))).

Definition connectWallet : Task unit :=
  if negb ethereum then
    do (alert "MetaMask not detected. Please install MetaMask.")
  else
    try_catch
      (currentChainId <- await eth_chainId ;;
       (if negb (currentChainId =? libertyChainId)%string then
          try_catch
            (await (wallet_switchEthereumChain libertyChainId))
            (fun switchError =>
               if hasCode switchError 4902
               then await (wallet_addEthereumChain libertyParams)
               else Throw switchError)
        else Ret tt) ;;;
       accounts <- await eth_requestAccounts ;;
       match accounts with
       | first :: _ =>
           setupProviderAndContract (Some first) ;;;
           do (setAccount (Some first))
       | [] => Ret tt
       end)
      (fun err =>
         Do (console_error "connectWallet error:" err) (
         do (alert "Connection rejected or failed."))).

(** The object literal pushed for one ledger tuple; its conversions may
    throw. *)
Definition toItem (raw : RawItem) : Result Item :=
  match Ethers.toNumber (raw_id raw) with
  | Rejected e => Rejected e
  | Resolved n =>
      match Ethers.formatEther (raw_price raw) with
      | Rejected e => Rejected e
      | Resolved text =>
          Resolved (mkItem n (raw_seller raw) (raw_name raw) text (raw_sold raw))
      end
  end.

(** [for (let i = 1; i <= count; i++)], by the number of iterations left. *)
Fixpoint loadLoop (c : Contract) (remaining : nat) (i : Z) (loaded : list Item)
  : Task (list Item) :=
  match remaining with
  | O => Ret loaded
  | S remaining' =>
      raw <- await (call_items c i) ;;
      item <- lift (toItem raw) ;;
      loadLoop c remaining' (i + 1) (loaded ++ [item])
  end.

Definition loadItems (contractInstance : option Contract) : Task unit :=
  match orElse contractInstance (contract r) with
  | None => Ret tt
  | Some c =>
      Do (setLoading true) (
      finally
        (try_catch
           (countBN <- await (call_itemCount c) ;;
            count <- lift (Ethers.toNumber countBN) ;;
            loaded <- loadLoop c (Z.to_nat count) 1 [] ;;
            do (setItems (rev loaded)))
           (fun err => do (console_error "loadItems error:" err)))
        (do (setLoading false)))
  end.

(** [contract.listItem(itemName, priceInWei)] first encodes its arguments
    for the ABI, in which [_price] is a [uint256]; a name always encodes. *)
Definition listNewItem : Task unit :=
  match (if truthy (account r) then contract r else None) with
  | None => do (alert "Connect your wallet first")
  | Some c =>
      if (itemName r =? "")%string || (itemPrice r =? "")%string then
        do (alert "Please enter item name and price")
      else
        finally
          (try_catch
             (Do (setLoading true) (
              priceInWei <- lift (Ethers.parseEther (itemPrice r)) ;;
              lift (Ethers.encodeUint256 priceInWei) ;;;
              tx <- await (call_listItem c (itemName r) priceInWei) ;;
              await (tx_wait tx) ;;;
              Do (setItemName "") (
              Do (setItemPrice "") (
              loadItems (Some c) ;;;
              fetchContractBalance None ;;;
              do (alert "Item listed successfully!")))))
             (fun err =>
                Do (console_error "Error listing item:" err) (
                do (alert ("Error listing item: " ++ message err)%string))))
          (do (setLoading false))
  end.

(** The Buy button passes the id and the price text of a cached listing;
    the id is one the ledger returned for a [uint256], and the value is an
    override of the transaction, not an argument of the ABI. *)
Definition buyItem (item : Z) (itemPriceText : string) : Task unit :=
  match (if truthy (account r) then contract r else None) with
  | None => do (alert "Connect your wallet first")
  | Some c =>
      finally
        (try_catch
           (Do (setLoading true) (
            value <- lift (Ethers.parseEther itemPriceText) ;;
            tx <- await (call_buyItem c item value) ;;
            await (tx_wait tx) ;;;
            loadItems (Some c) ;;;
            fetchContractBalance None ;;;
            do (alert "Purchase completed!")))
           (fun err =>
              Do (console_error "Error buying item:" err) (
              do (alert ("Error buying item: " ++ message err)%string))))
        (do (setLoading false))
  end.

(** [init] of the mount effect; the component stays mounted. *)
Definition init : Task unit :=
  if negb ethereum then Ret tt
  else
    try_catch
      (accounts <- await eth_accounts ;;
       match accounts with
       | first :: _ =>
           setupProviderAndContract (Some first) ;;;
           do (setAccount (Some first))
       | [] => Ret tt
       end)
      (fun err => do (console_error "init eth_accounts error:" err)).

(** The [accountsChanged] listener; [None] is a missing account list. *)
Definition handleAccountsChanged (accounts : option (list string)) : Task unit :=
  match accounts with
  | None | Some [] =>
      Do (setAccount None) (
      Do (setContract None) (
      Do (setItems []) (
      do (setContractBalance "0.0"))))
  | Some (first :: _) =>
      setupProviderAndContract (Some first) ;;;
      Do (setAccount (Some first)) (
      do (setTimeout_refresh r 500))
  end.

(** The handlers that the effect on [contract] starts, and those that the
    deferred refresh and the 12 second interval start. *)
Definition contractEffect : list (Task unit) :=
  match contract r with
  | Some c => [loadItems (Some c); fetchContractBalance None]
  | None => []
  end.

Definition refreshCallback : list (Task unit) :=
  [loadItems None; fetchContractBalance None].

Definition pollCallback : list (Task unit) :=
  [fetchContractBalance None].

End Render.

End App.

(** ** Sequential semantics *)

(** What has happened: actions performed, requests issued (recorded by the
    event loop, where a request and its answer are apart) and requests
    answered. *)
Inductive Event : Type :=
| EDo (a : Action)
| EIssue (R : Type) (c : Call R)
| EAwait (R : Type) (c : Call R) (r : Result R).
Arguments EIssue {R} c.
Arguments EAwait {R} c r.

(** The wallet and the ledger: the answer to a request may depend on
    everything that happened before it. *)
Definition World : Type := forall R : Type, list Event -> Call R -> Result R.

Record Machine : Type := mkMachine {
  ui : State;
  fresh : nat;
  past : list Event }.

Definition perform (a : Action) (s : State) : State :=
  match a with
  | setAccount v =>
      mkState v (provider s) (contract s) (items s) (loading s)
              (itemName s) (itemPrice s) (contractBalance s)
  | setProvider v =>
      mkState (account s) v (contract s) (items s) (loading s)
              (itemName s) (itemPrice s) (contractBalance s)
  | setContract v =>
      mkState (account s) (provider s) v (items s) (loading s)
              (itemName s) (itemPrice s) (contractBalance s)
  | setItems v =>
      mkState (account s) (provider s) (contract s) v (loading s)
              (itemName s) (itemPrice s) (contractBalance s)
  | setLoading v =>
      mkState (account s) (provider s) (contract s) (items s) v
              (itemName s) (itemPrice s) (contractBalance s)
  | setItemName v =>
      mkState (account s) (provider s) (contract s) (items s) (loading s)
              v (itemPrice s) (contractBalance s)
  | setItemPrice v =>
      mkState (account s) (provider s) (contract s) (items s) (loading s)
              (itemName s) v (contractBalance s)
  | setContractBalance v =>
      mkState (account s) (provider s) (contract s) (items s) (loading s)
              (itemName s) (itemPrice s) v
  | alert _ | console_error _ _ | setTimeout_refresh _ _ => s
  end.

Definition record (e : Event) (m : Machine) : Machine :=
  mkMachine (ui m) (fresh m) (past m ++ [e]).

Definition act (a : Action) (m : Machine) : Machine :=
  mkMachine (perform a (ui m)) (fresh m) (past m ++ [EDo a]).

Definition allocate (m : Machine) : Machine :=
  mkMachine (ui m) (S (fresh m)) (past m).

(** Runs a handler to its end, every request answered at once by the world:
    the way the promise settles, the machine reached and the events of this
    run, oldest first. *)
Fixpoint run {A : Type} (w : World) (t : Task A) (m : Machine)
  : Result A * Machine * list Event :=
  match t with
  | Ret a => (Resolved a, m, [])
  | Throw e => (Rejected e, m, [])
  | Do a k =>
      match run w k (act a m) with
      | (o, m', tr) => (o, m', EDo a :: tr)
      end
  | New k => run w (k (fresh m)) (allocate m)
  | Await c k =>
      let r := w _ (past m) c in
      match run w (k r) (record (EAwait c r) m) with
      | (o, m', tr) => (o, m', EAwait c r :: tr)
      end
  end.

Definition outcome {A : Type} (x : Result A * Machine * list Event) : Result A :=
  fst (fst x).
Definition final {A : Type} (x : Result A * Machine * list Event) : Machine :=
  snd (fst x).
Definition trace {A : Type} (x : Result A * Machine * list Event) : list Event :=
  snd x.

(** ** The event loop *)

(** A handler suspended at an [await]. *)
Inductive Suspended : Type :=
| Susp (R : Type) (c : Call R) (k : Result R -> Task unit).
Arguments Susp {R} c k.

(** The mounted component: its machine; the handlers in flight, oldest
    first; the render whose [handleAccountsChanged] is subscribed (the first
    one: the mount effect has no dependencies); the render whose
    [fetchContractBalance] the armed interval calls; the renders of the
    deferred refreshes that are scheduled. *)
Record Sys : Type := mkSys {
  machine : Machine;
  pending : list Suspended;
  listener : option State;
  interval : option State;
  timers : list State }.

(** What the environment does to the mounted component: the [n]-th request
    in flight is answered, the user clicks or types, the wallet emits
    [accountsChanged], the interval ticks, a deferred refresh fires. A click
    on a button that is not rendered or is disabled does nothing. The form is
    submitted with the fields as they are; the checks the browser itself runs
    on them are outside the component. *)
Inductive Input : Type :=
| Settle (n : nat)
| ClickConnect
| TypeItemName (v : string)
| TypeItemPrice (v : string)
| SubmitList
| ClickBuy (n : nat)
| AccountsChanged (accounts : option (list string))
| PollTick
| TimerFire.

Definition lowerChar (c : ascii) : ascii :=
  let n := nat_of_ascii c in
  if ((65 <=? n) && (n <=? 90))%nat then ascii_of_nat (n + 32) else c.

Fixpoint toLowerCase (s : string) : string :=
  match s with
  | EmptyString => EmptyString
  | String c rest => String (lowerChar c) (toLowerCase rest)
  end.

Definition normalizedAccount (s : State) : string :=
  match account s with
  | Some a => toLowerCase a
  | None => ""
  end.

(** [disabled={loading || !account || !contract}]. *)
Definition disabled (s : State) : bool :=
  loading s || negb (truthy (account s)) || negb (bound (contract s)).

(** The branch of the list that renders the Buy button. *)
Definition buyOffered (s : State) (item : Item) : bool :=
  negb (sold item) &&
  negb (toLowerCase (seller item) =? normalizedAccount s)%string.

Definition sameHandle (a b : option nat) : bool :=
  match a, b with
  | Some x, Some y => Nat.eqb x y
  | None, None => true
  | _, _ => false
  end.

Definition isMutation (p : Suspended) : bool :=
  match p with
  | Susp c _ =>
      match c with
      | call_listItem _ _ _ | call_buyItem _ _ _ | tx_wait _ => true
      | _ => false
      end
  end.

(** Mutating operations submitted and not yet settled or failed. *)
Definition mutationsInFlight (s : Sys) : nat :=
  List.length (filter isMutation (pending s)).

Fixpoint replaceAt {A : Type} (n : nat) (x : option A) (l : list A) : list A :=
  match l, n with
  | [], _ => []
  | _ :: rest, O => match x with Some y => y :: rest | None => rest end
  | y :: rest, S n' => y :: replaceAt n' x rest
  end.

Section Loop.

Variable toFixed6 : string -> string.
Variable ethereum : bool.
Variable w : World.

Definition onMachine (f : Machine -> Machine) (s : Sys) : Sys :=
  mkSys (f (machine s)) (pending s) (listener s) (interval s) (timers s).

Definition sysDo (a : Action) (s : Sys) : Sys :=
  let s' := onMachine (act a) s in
  match a with
  | setTimeout_refresh closure _ =>
      mkSys (machine s') (pending s') (listener s') (interval s')
            (timers s' ++ [closure])
  | _ => s'
  end.

(** Runs a handler up to its next [await]. *)
Fixpoint advance (t : Task unit) (s : Sys) : Sys * option Suspended :=
  match t with
  | Ret _ => (s, None)
  | Throw _ => (s, None)
  | Do a k => advance k (sysDo a s)
  | New k => advance (k (fresh (machine s))) (onMachine allocate s)
  | Await c k => (onMachine (record (EIssue c)) s, Some (Susp c k))
  end.

Definition spawn (s : Sys) (t : Task unit) : Sys :=
  match advance t s with
  | (s', Some p) =>
      mkSys (machine s') (pending s' ++ [p]) (listener s') (interval s') (timers s')
  | (s', None) => s'
  end.

Definition resume (n : nat) (s : Sys) : Sys :=
  match nth_error (pending s) n with
  | Some (Susp c k) =>
      let r := w _ (past (machine s)) c in
      match advance (k r) (onMachine (record (EAwait c r)) s) with
      | (s', p) =>
          mkSys (machine s') (replaceAt n p (pending s')) (listener s')
                (interval s') (timers s')
      end
  | None => s
  end.

(** The effects of a commit: the one on [contract] starts its handlers when
    the handle changed, the one on [provider] re-arms the interval with the
    closures of the committed render. *)
Definition commit (old : State) (s : Sys) : Sys :=
  let now := ui (machine s) in
  let s1 :=
    if sameHandle (contract old) (contract now) then s
    else fold_left spawn (contractEffect toFixed6 now) s in
  if sameHandle (provider old) (provider now) then s1
  else mkSys (machine s1) (pending s1) (listener s1) (Some now) (timers s1).

(** The first render and its effects: [init] starts, the listener is
    subscribed when a wallet is injected, the interval is armed. *)
Definition mount : Sys :=
  let s0 := mkSys (mkMachine initialState 0 []) [] None None [] in
  let s1 := spawn s0 (init toFixed6 ethereum initialState) in
  mkSys (machine s1) (pending s1)
        (if ethereum then Some initialState else None)
        (Some initialState) (timers s1).

Definition step (s : Sys) (i : Input) : Sys :=
  let old := ui (machine s) in
  commit old
    match i with
    | Settle n => resume n s
    | ClickConnect =>
        if truthy (account old) then s
        else spawn s (connectWallet toFixed6 ethereum old)
    | TypeItemName v => sysDo (setItemName v) s
    | TypeItemPrice v => sysDo (setItemPrice v) s
    | SubmitList =>
        if disabled old then s else spawn s (listNewItem toFixed6 old)
    | ClickBuy n =>
        match nth_error (items old) n with
        | Some item =>
            if buyOffered old item && negb (disabled old)
            then spawn s (buyItem toFixed6 old (id item) (price item))
            else s
        | None => s
        end
    | AccountsChanged accounts =>
        match listener s with
        | Some closure =>
            spawn s (handleAccountsChanged toFixed6 ethereum closure accounts)
        | None => s
        end
    | PollTick =>
        match interval s with
        | Some closure => fold_left spawn (pollCallback toFixed6 closure) s
        | None => s
        end
    | TimerFire =>
        match timers s with
        | closure :: rest =>
            fold_left spawn (refreshCallback toFixed6 closure)
              (mkSys (machine s) (pending s) (listener s) (interval s) rest)
        | [] => s
        end
    end.

Definition exec (s : Sys) (inputs : list Input) : Sys :=
  fold_left step inputs s.

End Loop.

(** ** Vocabulary of the statements *)

(** The answered reads of [items(i)], [items(i + 1)], ... that returned the
    given tuples. *)
Fixpoint readEvents (c : Contract) (i : Z) (raws : list RawItem) : list Event :=
  match raws with
  | [] => []
  | raw :: rest =>
      EAwait (call_items c i) (Resolved raw) :: readEvents c (i + 1) rest
  end.

(** The event a [catch] block of the component leaves on the console. *)
Definition caught (e : Event) : bool :=
  match e with
  | EDo (console_error _ _) => true
  | _ => false
  end.

Definition isRead {R : Type} (c : Call R) : bool :=
  match c with
  | call_itemCount _ | call_items _ _ => true
  | _ => false
  end.

(** A ledger read of the listings that was rejected. *)
Definition readFailed (e : Event) : bool :=
  match e with
  | EAwait c (Rejected _) => isRead c
  | _ => false
  end.


(** A write to the listing cache or to the holding balance. *)
Definition cacheWrite (e : Event) : bool :=
  match e with
  | EDo (setItems _) | EDo (setContractBalance _) => true
  | _ => false
  end.

(** The settlement of a transaction was confirmed. *)
Definition settled (e : Event) : bool :=
  match e with
  | EAwait (tx_wait _) (Resolved _) => true
  | _ => false
  end.

Definition isSwitch (e : Event) : bool :=
  match e with
  | EAwait (wallet_switchEthereumChain _) _ => true
  | _ => false
  end.

Definition isAdd (e : Event) : bool :=
  match e with
  | EAwait (wallet_addEthereumChain _) _ => true
  | _ => false
  end.

Definition isAccountRequest (e : Event) : bool :=
  match e with
  | EAwait eth_requestAccounts _ => true
  | _ => false
  end.

(** [connectWallet] gave up: no wallet, or its [catch] block ran. *)
Definition connectFailed (e : Event) : bool :=
  match e with
  | EDo (alert msg) =>
      (msg =? "MetaMask not detected. Please install MetaMask.")%string ||
      (msg =? "Connection rejected or failed.")%string
  | _ => false
  end.

(** The wallet answered the authorization request with no account. *)
Definition zeroAccounts (e : Event) : bool :=
  match e with
  | EAwait c (Resolved v) =>
      match c in Call R return R -> bool with
      | eth_requestAccounts =>
          fun accounts => match accounts with [] => true | _ => false end
      | _ => fun _ => false
      end v
  | _ => false
  end.

(** What binding a session leaves in the history: the handles and the
    account set, the balance read and its outcome. *)
Definition bindingEvent (e : Event) : bool :=
  match e with
  | EDo (setProvider _) | EDo (setContract _) | EDo (setAccount _)
  | EDo (setContractBalance _) => true
  | EDo (console_error msg _) => (msg =? "fetchContractBalance error:")%string
  | EAwait (getBalance _ _) _ => true
  | _ => false
  end.

(** The part of [connectWallet] that follows the network check: the
    authorization request and the binding to the first account. *)
Definition authorize (toFixed6 : string -> string) (r : State) : Task unit :=
  accounts <- await eth_requestAccounts ;;
  match accounts with
  | first :: _ =>
      setupProviderAndContract toFixed6 true r (Some first) ;;;
      do (setAccount (Some first))
  | [] => Ret tt
  end.

(** What [connectWallet] leaves when it gives up on a thrown value. *)
Definition aborted (e : Err) : list Event :=
  [EDo (console_error "connectWallet error:" e);
   EDo (alert "Connection rejected or failed.")].

(** The two mutating operations of the orchestrator. *)
Inductive Mutation : Type :=
| ListItem
| BuyItem (item : Z) (itemPriceText : string).

Definition mutate (toFixed6 : string -> string) (r : State) (op : Mutation)
  : Task unit :=
  match op with
  | ListItem => listNewItem toFixed6 r
  | BuyItem item itemPriceText => buyItem toFixed6 r item itemPriceText
  end.

(** The invariant of the session: a bound contract handle comes with a bound
    provider. *)
Definition sessionInv (s : State) : Prop :=
  bound (contract s) = true -> bound (provider s) = true.

(** What a handler must respect for that invariant, [pb] telling whether the
    provider is bound where the handler stands: it never clears the provider
    and sets a contract handle only where the provider is bound. *)
Fixpoint keepsProvider {A : Type} (pb : bool) (t : Task A) : Prop :=
  match t with
  | Ret _ | Throw _ => True
  | Do a k =>
      match a with
      | setProvider None => False
      | setProvider (Some _) => keepsProvider true k
      | setContract (Some _) => pb = true /\ keepsProvider pb k
      | _ => keepsProvider pb k
      end
  | New k => forall n, keepsProvider pb (k n)
  | Await c k => forall r, keepsProvider pb (k r)
  end.

Definition pendingSafe (pb : bool) (p : Suspended) : Prop :=
  match p with
  | Susp c k => forall r, keepsProvider pb (k r)
  end.

Definition Inv (s : Sys) : Prop :=
  sessionInv (ui (machine s)) /\
  Forall (pendingSafe (bound (provider (ui (machine s))))) (pending s).

(** ** Sample worlds and renders *)

(** A wallet on the target network with one authorized account, and a ledger
    holding two unsold listings of another seller. *)
Definition sampleLedger : World := fun R _ c =>
  match c in Call R return Result R with
  | eth_chainId => Resolved libertyChainId
  | wallet_switchEthereumChain _ => Resolved tt
  | wallet_addEthereumChain _ => Resolved tt
  | eth_requestAccounts => Resolved ["0xa11ce"]
  | eth_accounts => Resolved ["0xa11ce"]
  | getBalance _ _ => Resolved 1500000000000000000
  | call_itemCount _ => Resolved 2
  | call_items _ i => Resolved (mkRaw i "0x5e11e4" "lamp" (i * 10 ^ 17) false)
  | call_listItem _ _ _ => Resolved 7%nat
  | call_buyItem _ _ _ => Resolved 8%nat
  | tx_wait _ => Resolved tt
  end.

(** The same wallet on another network that it does not know, and a ledger
    whose second listing cannot be read. *)
Definition strangeLedger : World := fun R _ c =>
  match c in Call R return Result R with
  | eth_chainId => Resolved "0x999"
  | wallet_switchEthereumChain _ => Rejected (mkErr (Some 4902) "Unrecognized chain ID")
  | wallet_addEthereumChain _ => Resolved tt
  | eth_requestAccounts => Resolved []
  | eth_accounts => Resolved []
  | getBalance _ _ => Resolved 0
  | call_itemCount _ => Resolved 2
  | call_items _ i =>
      if i =? 1 then Resolved (mkRaw i "0x5e11e4" "lamp" (10 ^ 17) false)
      else Rejected (mkErr None "call revert exception")
  | call_listItem _ _ _ => Rejected (mkErr (Some 4001) "User denied transaction signature")
  | call_buyItem _ _ _ => Rejected (mkErr (Some 4001) "User denied transaction signature")
  | tx_wait _ => Resolved tt
  end.

Definition startMachine : Machine := mkMachine initialState 0 [].

(** A render of a connected session with the listing form filled in, the
    price being zero. *)
Definition zeroPriceRender : State :=
  mkState (Some "0xa11ce") (Some 0%nat) (Some 1%nat) [] false "lamp" "0" "0.0".

Definition plainText (text : string) : string := text.

(** A machine whose cache already holds a listing. *)
Definition stockedMachine : Machine :=
  mkMachine
    (mkState (Some "0xa11ce") (Some 0%nat) (Some 1%nat)
             [mkItem 1 "0x5e11e4" "lamp" "0.1" false] false "" "" "1.500000")
    2 [].

Definition sampleRaw : RawItem :=
  mkRaw 2 "0x5e11e4" "lamp" 123456789000000000000 false.

Definition sampleItem : Item :=
  mkItem 2 "0x5e11e4" "lamp" "123.456789" false.

(** The requests in flight, oldest handler first. *)
Definition pendingCalls (s : Sys) : list Event :=
  map (fun p => match p with Susp c _ => EIssue c end) (pending s).

(** A purchase is submitted; while it waits for its settlement the wallet
    switches to another account, the listings are reloaded for the new
    contract handle, and the user clicks Buy on another listing. *)
Definition raceSchedule : list Input :=
  [ Settle 0;            (* eth_accounts: the session is bound *)
    Settle 1; Settle 1; Settle 1;   (* the listings are loaded *)
    Settle 0; Settle 0;  (* both balance reads *)
    ClickBuy 0;          (* first purchase: listing 2 *)
    Settle 0;            (* it is submitted and waits for settlement *)
    AccountsChanged (Some ["0xb0b"]);
    Settle 2; Settle 2; Settle 2;   (* the reload for the new handle ends *)
    ClickBuy 1 ]%nat.    (* second purchase: listing 1 *)

(** The component once the session of the sample wallet is bound, the
    listings are loaded and the balance is read; and the render whose
    closure its interval calls. *)
Definition connectedSys : Sys :=
  exec plainText true sampleLedger (mount plainText true)
       (firstn 6 raceSchedule).

Definition connectedPolling : State :=
  match interval connectedSys with
  | Some closure => closure
  | None => initialState
  end.

(** ** What is rendered *)

(** [addr.slice(0, 6)] and [addr.slice(-4)] on the characters of the
    address. *)
Definition sliceFirst6 (l : list ascii) : list ascii := firstn 6 l.

Definition sliceLast4 (l : list ascii) : list ascii :=
  skipn (List.length l - 4) l.

Definition ellipsis : list ascii := list_ascii_of_string "...".

Definition shortenAddress (addr : string) : string :=
  if (addr =? "")%string then ""
  else
    let l := list_ascii_of_string addr in
    string_of_list_ascii (sliceFirst6 l ++ ellipsis ++ sliceLast4 l).

(** The seller line of a listing. *)
Definition sellerLabel (s : State) (item : Item) : string :=
  if (seller item =? normalizedAccount s)%string then "You"
  else shortenAddress (seller item).

(** The caption of the button of a listing: the Buy button, or the button
    that is always disabled. *)
Definition buttonLabel (s : State) (item : Item) : string :=
  if buyOffered s item then "Buy"
  else if sold item then "Sold"
  else if (toLowerCase (seller item) =? normalizedAccount s)%string
       then "Your Item"
       else "Unavailable".

(** ** More vocabulary *)

(** Every event a handler can produce, whatever the answers to its
    requests, satisfies [P]. *)
Fixpoint always {A : Type} (P : Event -> Prop) (t : Task A) : Prop :=
  match t with
  | Ret _ | Throw _ => True
  | Do a k => P (EDo a) /\ always P k
  | New k => forall n, always P (k n)
  | Await c k => forall r, P (EAwait c r) /\ always P (k r)
  end.

(** The events of a refresh of the listings on the contract [c]. *)
Definition loadEvent (c : Contract) (e : Event) : Prop :=
  match e with
  | EDo (setLoading _) | EDo (setItems _) => True
  | EDo (console_error msg _) => msg = "loadItems error:"
  | EAwait q _ =>
      match q with
      | call_itemCount c' | call_items c' _ => c' = c
      | _ => False
      end
  | _ => False
  end.

(** The events of a refresh of the balance. *)
Definition balanceEvent (e : Event) : Prop :=
  match e with
  | EDo (setContractBalance _) => True
  | EDo (console_error msg _) => msg = "fetchContractBalance error:"
  | EAwait q _ =>
      match q with
      | getBalance _ address => address = contractAddress
      | _ => False
      end
  | _ => False
  end.

(** The events of the passive initialisation: the non-prompting account
    read, the binding and its balance read, the console. *)
Definition passiveEvent (e : Event) : Prop :=
  match e with
  | EDo (setProvider _) | EDo (setContract _) | EDo (setAccount _)
  | EDo (setContractBalance _) | EDo (console_error _ _) => True
  | EAwait q _ =>
      match q with
      | eth_accounts | getBalance _ _ => True
      | _ => False
      end
  | _ => False
  end.

(** A deferred refresh, if scheduled at all, is scheduled with the closures
    of the render [r0]. *)
Definition schedulesFrom (r0 : State) (e : Event) : Prop :=
  match e with
  | EDo (setTimeout_refresh closure _) => closure = r0
  | _ => True
  end.

Definition timersSafe (p : Suspended) : Prop :=
  match p with
  | Susp c k => forall r, always (schedulesFrom initialState) (k r)
  end.

(** The listener and every scheduled refresh hold the closures of the first
    render, and so will whatever the suspended handlers schedule. *)
Definition TimerInv (s : Sys) : Prop :=
  (listener s = None \/ listener s = Some initialState) /\
  Forall (eq initialState) (timers s) /\
  Forall timersSafe (pending s).

(** A read of the listings or of the balance. *)
Definition refreshRequest (e : Event) : bool :=
  match e with
  | EAwait q _ =>
      match q with
      | call_itemCount _ | call_items _ _ | getBalance _ _ => true
      | _ => false
      end
  | _ => false
  end.

(** The report of a failed listing or purchase. *)
Definition failureReport (e : Event) : bool :=
  match e with
  | EDo (console_error msg _) =>
      (msg =? "Error listing item:")%string ||
      (msg =? "Error buying item:")%string
  | _ => false
  end.

(** The operation gets as far as its [try] block. *)
Definition ready (r : State) (op : Mutation) : bool :=
  match op with
  | ListItem => negb ((itemName r =? "")%string || (itemPrice r =? "")%string)
  | BuyItem _ _ => true
  end.

Definition successText (op : Mutation) : string :=
  match op with
  | ListItem => "Item listed successfully!"
  | BuyItem _ _ => "Purchase completed!"
  end.

(** The amount an operation carries: the price of a listing, which the ABI
    coder has to accept, or the value attached to a purchase. *)
Definition amount (r : State) (op : Mutation) : Result Z :=
  match op with
  | ListItem =>
      match Ethers.parseEther (itemPrice r) with
      | Resolved priceInWei => Ethers.encodeUint256 priceInWei
      | Rejected e => Rejected e
      end
  | BuyItem _ itemPriceText => Ethers.parseEther itemPriceText
  end.

(** The request that submits the operation. *)
Definition submission (r : State) (c : Contract) (op : Mutation) (value : Z)
  : Call Tx :=
  match op with
  | ListItem => call_listItem c (itemName r) value
  | BuyItem item _ => call_buyItem c item value
  end.

(** What the operation does between the settlement and the refresh. *)
Definition formReset (op : Mutation) : list Event :=
  match op with
  | ListItem => [EDo (setItemName ""); EDo (setItemPrice "")]
  | BuyItem _ _ => []
  end.

(** The events of an operation up to the refresh, when it is submitted with
    [value] as the transaction [tx] and settled. *)
Definition untilRefresh (r : State) (c : Contract) (op : Mutation)
    (value : Z) (tx : Tx) : list Event :=
  [EDo (setLoading true);
   EAwait (submission r c op value) (Resolved tx);
   EAwait (tx_wait tx) (Resolved tt)] ++ formReset op.

(** The operation gets through: it enters its [try] block with a valid
    amount, the wallet answers its submission with the transaction [tx], and
    the wait for [tx] is answered. *)
Definition accepted (w : World) (r : State) (m : Machine) (c : Contract)
    (op : Mutation) (value : Z) (tx : Tx) : Prop :=
  ready r op = true /\
  amount r op = Resolved value /\
  w Tx (past m ++ [EDo (setLoading true)]) (submission r c op value) =
    Resolved tx /\
  w unit (past m ++ [EDo (setLoading true);
                     EAwait (submission r c op value) (Resolved tx)])
    (tx_wait tx) = Resolved tt.

(** The first account of an answered authorization request. *)
Definition grantedBy (e : Event) : option string :=
  match e with
  | EAwait q (Resolved v) =>
      match q in Call R return R -> option string with
      | eth_requestAccounts => fun accounts => hd_error accounts
      | _ => fun _ => None
      end v
  | _ => None
  end.

Fixpoint firstGranted (tr : list Event) : option string :=
  match tr with
  | [] => None
  | e :: rest =>
      match grantedBy e with
      | Some a => Some a
      | None => firstGranted rest
      end
  end.

(** The event is no write of the provider cell. *)
Definition noProviderWrite (e : Event) : Prop :=
  match e with
  | EDo (setProvider _) => False
  | _ => True
  end.

(** The interval polls through the provider that is bound now. *)
Definition PollInv (s : Sys) : Prop :=
  exists closure,
    interval s = Some closure /\
    provider closure = provider (ui (machine s)).

(** A ledger that reports more listings than a JavaScript number counts. *)
Definition hugeLedger : World := fun R h c =>
  match c in Call R return Result R with
  | call_itemCount _ => Resolved (2 ^ 53)
  | other => sampleLedger _ h other
  end.

(** A connected render of the account 0xa11ce showing a listing of its own,
    stored with the mixed-case address a contract read returns. *)
Definition ownListing : Item :=
  mkItem 3 "0xA11CE" "vase" "0.5" false.


(** The component of the sample wallet while its first purchase waits for
    settlement. *)
Definition purchasePending : Sys :=
  exec plainText true sampleLedger (mount plainText true)
       (firstn 8 raceSchedule).

(** ** Facts about the decimal conversions *)
Module EthersFacts.
Import Ethers.

Ltac digit_cases d H :=
  let E := fresh "E" in
  assert (E : d = 0 \/ d = 1 \/ d = 2 \/ d = 3 \/ d = 4 \/ d = 5 \/
              d = 6 \/ d = 7 \/ d = 8 \/ d = 9) by lia;
  clear H; repeat (destruct E as [E | E]; [subst d | ]); [.. | subst d].

Lemma isDigit_digitChar d : 0 <= d < 10 -> isDigit (digitChar d) = true.
Proof. intros H. digit_cases d H; reflexivity. Qed.

Lemma digitVal_digitChar d : 0 <= d < 10 -> digitVal (digitChar d) = d.
Proof. intros H. digit_cases d H; reflexivity. Qed.

Lemma isDigit_not_minus c : isDigit c = true -> Ascii.eqb c minusChar = false.
Proof.
  intros H. destruct (Ascii.eqb_spec c minusChar) as [-> | ]; [discriminate | reflexivity].
Qed.

Lemma isDigit_not_dot c : isDigit c = true -> Ascii.eqb c dotChar = false.
Proof.
  intros H. destruct (Ascii.eqb_spec c dotChar) as [-> | ]; [discriminate | reflexivity].
Qed.

Lemma isDigit_zeroChar : isDigit zeroChar = true.
Proof. reflexivity. Qed.

Lemma natDigits_app fuel : forall n acc,
  natDigits fuel n acc = natDigits fuel n [] ++ acc.
Proof.
  induction fuel as [| f IH]; intros n acc; simpl; [reflexivity |].
  destruct (n / 10 =? 0); [reflexivity |].
  rewrite IH, (IH _ [_]), <- app_assoc. reflexivity.
Qed.

Lemma natDigits_step f n :
  natDigits (S f) n [] =
  if n / 10 =? 0 then [digitChar (n mod 10)]
  else natDigits f (n / 10) [] ++ [digitChar (n mod 10)].
Proof. simpl. destruct (n / 10 =? 0); [reflexivity | apply natDigits_app]. Qed.

Lemma natDigits_digits fuel : forall n,
  forallb isDigit (natDigits fuel n []) = true.
Proof.
  induction fuel as [| f IH]; intros n; [reflexivity |].
  rewrite natDigits_step.
  assert (D : isDigit (digitChar (n mod 10)) = true)
    by (apply isDigit_digitChar, Z.mod_pos_bound; lia).
  destruct (n / 10 =? 0); [cbn [forallb]; rewrite D; reflexivity |].
  rewrite forallb_app, IH. cbn [forallb]. rewrite D. reflexivity.
Qed.

Lemma digitsValue_snoc s c :
  digitsValue (s ++ [c]) = digitsValue s * 10 + digitVal c.
Proof. unfold digitsValue. rewrite fold_left_app. reflexivity. Qed.

Lemma natDigits_value fuel : forall n,
  0 <= n < 2 ^ Z.of_nat fuel -> digitsValue (natDigits fuel n []) = n.
Proof.
  induction fuel as [| f IH]; intros n H.
  - change (2 ^ Z.of_nat 0) with 1 in H. change (digitsValue (natDigits 0 n [])) with 0. lia.
  - rewrite natDigits_step.
    assert (D : digitVal (digitChar (n mod 10)) = n mod 10)
      by (apply digitVal_digitChar, Z.mod_pos_bound; lia).
    pose proof (Z.div_mod n 10 ltac:(lia)) as E.
    destruct (Z.eqb_spec (n / 10) 0) as [Z0 | NZ].
    + change (digitsValue [digitChar (n mod 10)])
        with (0 * 10 + digitVal (digitChar (n mod 10))). lia.
    + rewrite digitsValue_snoc, D, IH; [lia |].
      rewrite Nat2Z.inj_succ, Z.pow_succ_r in H by lia.
      split; [apply Z.div_pos; lia |].
      apply Z.div_lt_upper_bound; lia.
Qed.

Lemma natDigits_length fuel : forall n k,
  0 <= n < 10 ^ Z.of_nat (S k) ->
  (length (natDigits fuel n []) <= S k)%nat.
Proof.
  induction fuel as [| f IH]; intros n k H; [cbn [natDigits length]; lia |].
  rewrite natDigits_step.
  destruct (Z.eqb_spec (n / 10) 0) as [Z0 | NZ]; [cbn [length]; lia |].
  rewrite length_app. cbn [length].
  destruct k as [| k].
  - exfalso. apply NZ. apply Z.div_small. change (10 ^ Z.of_nat 1) with 10 in H. lia.
  - specialize (IH (n / 10) k).
    rewrite (Nat2Z.inj_succ (S k)), Z.pow_succ_r in H by lia.
    assert (0 <= n / 10 < 10 ^ Z.of_nat (S k)).
    { split; [apply Z.div_pos; lia | apply Z.div_lt_upper_bound; lia]. }
    specialize (IH ltac:(assumption)). lia.
Qed.

Lemma natDigits_nonempty f n : natDigits (S f) n [] <> [].
Proof.
  rewrite natDigits_step. destruct (n / 10 =? 0); [discriminate |].
  intros E. apply app_eq_nil in E. destruct E; discriminate.
Qed.

Lemma toStringAbs_fuel n :
  0 <= n -> 0 <= n < 2 ^ Z.of_nat (S (Z.to_nat (Z.log2 n))).
Proof.
  intros H. split; [assumption |].
  rewrite Nat2Z.inj_succ, Z2Nat.id by apply Z.log2_nonneg.
  destruct (Z.eq_dec n 0) as [-> | NZ]; [reflexivity |].
  apply Z.log2_spec. lia.
Qed.

Lemma toString_nonneg n : 0 <= n -> toString n = toStringAbs n.
Proof.
  intros H. unfold toString. destruct (Z.ltb_spec n 0); [lia | reflexivity].
Qed.

Lemma toStringAbs_digits n : forallb isDigit (toStringAbs n) = true.
Proof. apply natDigits_digits. Qed.

Lemma toStringAbs_nonempty n : toStringAbs n <> [].
Proof. apply natDigits_nonempty. Qed.

Lemma toStringAbs_value n : 0 <= n -> digitsValue (toStringAbs n) = n.
Proof. intros H. apply natDigits_value, toStringAbs_fuel, H. Qed.

Lemma toStringAbs_length n k :
  0 <= n < 10 ^ Z.of_nat (S k) -> (length (toStringAbs n) <= S k)%nat.
Proof. apply natDigits_length. Qed.

(** [BigNumber.from] reads back what [toString] wrote, also behind leading
    zeros. *)
Lemma fromString_digits s :
  s <> [] -> forallb isDigit s = true -> fromString s = Resolved (digitsValue s).
Proof.
  intros NE D. destruct s as [| c rest]; [congruence |].
  unfold fromString. rewrite D.
  simpl in D. apply andb_prop in D. destruct D as [Dc _].
  rewrite (isDigit_not_minus _ Dc). reflexivity.
Qed.

Lemma fold_zeros k : forall a,
  fold_left (fun acc c => acc * 10 + digitVal c) (repeat zeroChar k) a = a * 10 ^ Z.of_nat k.
Proof.
  induction k as [| k IH]; intros a; [cbn [repeat fold_left]; change (10 ^ Z.of_nat 0) with 1; lia |].
  cbn [repeat fold_left]. rewrite IH.
  change (digitVal zeroChar) with 0.
  rewrite Nat2Z.inj_succ, Z.pow_succ_r by lia. lia.
Qed.

Lemma digitsValue_padStart s k :
  digitsValue (padStart s k) = digitsValue s.
Proof.
  unfold padStart, digitsValue. rewrite fold_left_app, fold_zeros. reflexivity.
Qed.

Lemma forallb_repeat_zero k : forallb isDigit (repeat zeroChar k) = true.
Proof. induction k; [reflexivity | assumption]. Qed.

Lemma dropLeadingZeros_length s : (length (dropLeadingZeros s) <= length s)%nat.
Proof.
  induction s as [| c s IH]; cbn [dropLeadingZeros length]; [lia |].
  destruct (isZeroChar c); cbn [length]; lia.
Qed.

Lemma dropLeadingZeros_split s :
  s = repeat zeroChar (length s - length (dropLeadingZeros s)) ++ dropLeadingZeros s.
Proof.
  induction s as [| c s IH]; [reflexivity |].
  cbn [dropLeadingZeros]. destruct (isZeroChar c) eqn:Zc.
  - apply Ascii.eqb_eq in Zc. subst c.
    pose proof (dropLeadingZeros_length s).
    replace (length (zeroChar :: s) - length (dropLeadingZeros s))%nat
      with (S (length s - length (dropLeadingZeros s))) by (cbn [length]; lia).
    cbn [repeat app]. f_equal. exact IH.
  - rewrite Nat.sub_diag. reflexivity.
Qed.

Lemma dropLeadingZeros_idem s :
  dropLeadingZeros (dropLeadingZeros s) = dropLeadingZeros s.
Proof.
  induction s as [| c s IH]; [reflexivity |].
  cbn [dropLeadingZeros]. destruct (isZeroChar c) eqn:Zc; [exact IH |].
  cbn [dropLeadingZeros]. rewrite Zc. reflexivity.
Qed.

Lemma dropLeadingZeros_digits s :
  forallb isDigit s = true -> forallb isDigit (dropLeadingZeros s) = true.
Proof.
  induction s as [| c s IH]; [reflexivity |].
  intros D. cbn [dropLeadingZeros]. destruct (isZeroChar c); [| exact D].
  cbn [forallb] in D. apply andb_prop in D. apply IH, D.
Qed.

Lemma forallb_rev (P : ascii -> bool) s : forallb P (rev s) = forallb P s.
Proof.
  induction s as [| c s IH]; [reflexivity |].
  cbn [rev forallb]. rewrite forallb_app, IH. cbn [forallb].
  rewrite andb_true_r. apply andb_comm.
Qed.

Lemma rev_repeat_zero k : rev (repeat zeroChar k) = repeat zeroChar k.
Proof.
  induction k as [| k IH]; [reflexivity |].
  cbn [repeat rev]. rewrite IH. symmetry. apply repeat_cons.
Qed.

Lemma trimTrailingZeros_length s :
  (length (trimTrailingZeros s) <= length s)%nat.
Proof.
  unfold trimTrailingZeros. rewrite length_rev, <- (length_rev s).
  apply dropLeadingZeros_length.
Qed.

Lemma trimTrailingZeros_split s :
  s = trimTrailingZeros s ++
      repeat zeroChar (length s - length (trimTrailingZeros s)).
Proof.
  unfold trimTrailingZeros. rewrite length_rev, <- (length_rev s).
  rewrite <- rev_repeat_zero, <- rev_app_distr, <- dropLeadingZeros_split.
  symmetry. apply rev_involutive.
Qed.

Lemma trimTrailingZeros_idem s :
  trimTrailingZeros (trimTrailingZeros s) = trimTrailingZeros s.
Proof.
  unfold trimTrailingZeros. rewrite rev_involutive, dropLeadingZeros_idem.
  reflexivity.
Qed.

Lemma trimTrailingZeros_digits s :
  forallb isDigit s = true -> forallb isDigit (trimTrailingZeros s) = true.
Proof.
  intros D. unfold trimTrailingZeros. rewrite forallb_rev.
  apply dropLeadingZeros_digits. rewrite forallb_rev. exact D.
Qed.

Lemma takeDigits_digits s : forallb isDigit s = true -> takeDigits s = s.
Proof.
  induction s as [| c s IH]; [reflexivity |].
  cbn [forallb takeDigits]. intros D. apply andb_prop in D.
  destruct D as [Dc Ds]. rewrite Dc, (IH Ds). reflexivity.
Qed.

Lemma or_zero_nonempty (s : chars) :
  s <> [] -> match s with [] => [zeroChar] | _ => s end = s.
Proof. destruct s; [congruence | reflexivity]. Qed.

(** What [formatFixed] keeps of a fraction is what [parseFixed] pads back to
    the full width. *)
Lemma matchFraction_padEnd F :
  forallb isDigit F = true -> F <> [] ->
  exists G,
    matchFraction F = Resolved G /\ G <> [] /\ forallb isDigit G = true /\
    (length (trimTrailingZeros G) <= length F)%nat /\
    padEnd (match trimTrailingZeros G with
            | [] => [zeroChar]
            | _ => trimTrailingZeros G
            end) (length F) = F.
Proof.
  intros D NE. unfold matchFraction. rewrite (takeDigits_digits _ D).
  pose proof (trimTrailingZeros_split F) as Split.
  pose proof (trimTrailingZeros_length F) as Len.
  destruct (trimTrailingZeros F) as [| t T] eqn:ET.
  - destruct F as [| c F']; [congruence |].
    cbn [app length] in Split. rewrite Nat.sub_0_r in Split.
    cbn [repeat] in Split. injection Split as Ec EF.
    unfold isZeroChar. rewrite Ec, Ascii.eqb_refl.
    exists [zeroChar]. repeat split; try discriminate.
    + cbn; lia.
    + change (trimTrailingZeros [zeroChar]) with (@nil ascii).
      unfold padEnd.
      replace (length (zeroChar :: F') - length [zeroChar])%nat with (length F')
        by (cbn [length]; lia).
      cbn [app]. f_equal. symmetry. exact EF.
  - rewrite <- ET in Split, Len.
    exists (trimTrailingZeros F). rewrite trimTrailingZeros_idem.
    repeat split.
    + rewrite ET. reflexivity.
    + rewrite ET. discriminate.
    + apply trimTrailingZeros_digits, D.
    + exact Len.
    + rewrite ET. cbv iota. rewrite <- ET. unfold padEnd. symmetry. exact Split.
Qed.

Lemma splitDot_app W G :
  forallb isDigit W = true -> splitDot (W ++ dotChar :: G) = W :: splitDot G.
Proof.
  induction W as [| c W IH]; intros D.
  - cbn [app splitDot]. rewrite Ascii.eqb_refl. reflexivity.
  - cbn [forallb] in D. apply andb_prop in D. destruct D as [Dc DW].
    cbn [app splitDot]. rewrite (isDigit_not_dot _ Dc), (IH DW). reflexivity.
Qed.

Lemma splitDot_digits s : forallb isDigit s = true -> splitDot s = [s].
Proof.
  induction s as [| c s IH]; intros D; [reflexivity |].
  cbn [forallb] in D. apply andb_prop in D. destruct D as [Dc Ds].
  cbn [splitDot]. rewrite (isDigit_not_dot _ Dc), (IH Ds). reflexivity.
Qed.

Lemma decimalShape_whole_fraction W G :
  W <> [] -> forallb isDigit W = true -> forallb isDigit G = true ->
  decimalShape (W ++ dotChar :: G) = true.
Proof.
  intros NE DW DG. destruct W as [| c W]; [congruence |].
  assert (Dc : isDigit c = true)
    by (cbn [forallb] in DW; apply andb_prop in DW; apply DW).
  unfold decimalShape. cbn [app]. rewrite (isDigit_not_minus _ Dc).
  rewrite app_comm_cons, forallb_app.
  apply andb_true_intro. split.
  - apply forallb_forall. intros a Ha.
    rewrite forallb_forall in DW. rewrite (DW a Ha). reflexivity.
  - cbn [forallb]. rewrite Ascii.eqb_refl, orb_true_r. cbn [andb].
    apply forallb_forall. intros a Ha.
    rewrite forallb_forall in DG. rewrite (DG a Ha). reflexivity.
Qed.

Lemma fraction_padStart m d :
  0 <= m < 10 ^ Z.of_nat (S d) ->
  let F := padStart (toString m) (S d) in
  length F = S d /\ forallb isDigit F = true /\ digitsValue F = m.
Proof.
  intros H F. subst F. rewrite toString_nonneg by lia.
  pose proof (toStringAbs_length m d H) as L.
  repeat split.
  - unfold padStart. rewrite length_app, repeat_length. lia.
  - unfold padStart. rewrite forallb_app, forallb_repeat_zero, toStringAbs_digits.
    reflexivity.
  - rewrite digitsValue_padStart. apply toStringAbs_value. lia.
Qed.

(** Writing a non-negative amount with [formatFixed] and reading the text
    back with [parseFixed] gives the amount again. *)
Lemma parseFixed_formatFixed x d :
  0 <= x ->
  exists s, formatFixed x (S d) = Resolved s /\ parseFixed s (S d) = Resolved x.
Proof.
  intros Hx.
  set (M := 10 ^ Z.of_nat (S d)).
  assert (HM : 0 < M) by (apply Z.pow_pos_nonneg; lia).
  pose proof (Z.mod_pos_bound x M HM) as Hm.
  assert (Hw : 0 <= x / M) by (apply Z.div_pos; lia).
  destruct (fraction_padStart (x mod M) d Hm) as (LF & DF & VF).
  set (F := padStart (toString (x mod M)) (S d)) in *.
  assert (NF : F <> []) by (intros E; rewrite E in LF; discriminate).
  destruct (matchFraction_padEnd F DF NF) as (G & MG & NG & DG & LG & PG).
  set (W := toString (x / M)).
  assert (EW : W = toStringAbs (x / M)) by (apply toString_nonneg, Hw).
  assert (DW : forallb isDigit W = true) by (rewrite EW; apply toStringAbs_digits).
  assert (NW : W <> []) by (rewrite EW; apply toStringAbs_nonempty).
  assert (VW : digitsValue W = x / M) by (rewrite EW; apply toStringAbs_value, Hw).
  exists (W ++ dotChar :: G). split.
  - unfold formatFixed. fold M.
    destruct (Z.ltb_spec x 0) as [? | _]; [lia |].
    fold F. rewrite MG. reflexivity.
  - unfold parseFixed. fold M.
    rewrite (decimalShape_whole_fraction W G NW DW DG). cbn [negb].
    destruct W as [| c W'] eqn:EWc; [congruence |].
    assert (Dc : isDigit c = true)
      by (cbn [forallb] in DW; apply andb_prop in DW; apply DW).
    cbn [app]. rewrite (isDigit_not_minus _ Dc).
    destruct (W' ++ dotChar :: G) as [| c' tl'] eqn:Etl.
    { destruct W'; discriminate. }
    rewrite <- Etl, app_comm_cons, <- EWc. clear Etl c' tl'.
    rewrite <- EWc in DW, NW, VW.
    rewrite (splitDot_app _ _ DW), (splitDot_digits _ DG).
    cbn [length nth]. change (2 <? 2)%nat with false. cbv iota.
    rewrite (or_zero_nonempty W NW), (or_zero_nonempty G NG).
    rewrite LF in LG, PG.
    destruct (Nat.ltb_spec (S d) (length (trimTrailingZeros G))) as [? | _]; [lia |].
    match goal with
    | |- context [fromString (padEnd ?t (S d))] =>
        replace (padEnd t (S d)) with F by (symmetry; exact PG)
    end.
    rewrite (fromString_digits _ NW DW), (fromString_digits _ NF DF).
    rewrite VW, VF. f_equal.
    pose proof (Z.div_mod x M ltac:(lia)). lia.
Qed.

Lemma parseEther_formatEther x :
  0 <= x ->
  exists s, formatEther x = Resolved s /\ parseEther s = Resolved x.
Proof.
  intros Hx. destruct (parseFixed_formatFixed x 17 Hx) as (s & Fs & Ps).
  exists (string_of_list_ascii s). unfold formatEther, parseEther.
  rewrite Fs, list_ascii_of_string_of_list_ascii. split; [reflexivity | exact Ps].
Qed.

End EthersFacts.

(** ** Facts about the sequential semantics *)
Section RunFacts.

Variable w : World.

Lemma run_bind {A B : Type} (t : Task A) (f : A -> Task B) : forall m,
  run w (bind t f) m =
  match run w t m with
  | (Resolved a, m1, tr1) =>
      match run w (f a) m1 with
      | (o, m2, tr2) => (o, m2, tr1 ++ tr2)
      end
  | (Rejected e, m1, tr1) => (Rejected e, m1, tr1)
  end.
Proof.
  induction t as [a | e | a k IH | k IH | R c k IH]; intros m; cbn [bind run].
  - destruct (run w (f a) m) as [[o m2] tr2]. reflexivity.
  - reflexivity.
  - rewrite IH. destruct (run w k (act a m)) as [[[v | e] m1] tr1].
    + destruct (run w (f v) m1) as [[o m2] tr2]. reflexivity.
    + reflexivity.
  - apply IH.
  - rewrite IH.
    destruct (run w (k (w R (past m) c)) _) as [[[v | e] m1] tr1].
    + destruct (run w (f v) m1) as [[o m2] tr2]. reflexivity.
    + reflexivity.
Qed.

Lemma run_try_catch {A : Type} (t : Task A) (h : Err -> Task A) : forall m,
  run w (try_catch t h) m =
  match run w t m with
  | (Resolved a, m1, tr1) => (Resolved a, m1, tr1)
  | (Rejected e, m1, tr1) =>
      match run w (h e) m1 with
      | (o, m2, tr2) => (o, m2, tr1 ++ tr2)
      end
  end.
Proof.
  induction t as [a | e | a k IH | k IH | R c k IH]; intros m; cbn [try_catch run].
  - reflexivity.
  - destruct (run w (h e) m) as [[o m2] tr2]. reflexivity.
  - rewrite IH. destruct (run w k (act a m)) as [[[v | e] m1] tr1].
    + reflexivity.
    + destruct (run w (h e) m1) as [[o m2] tr2]. reflexivity.
  - apply IH.
  - rewrite IH.
    destruct (run w (k (w R (past m) c)) _) as [[[v | e] m1] tr1].
    + reflexivity.
    + destruct (run w (h e) m1) as [[o m2] tr2]. reflexivity.
Qed.

Lemma run_finally {A : Type} (t : Task A) (cleanup : Task unit) : forall m,
  run w (finally t cleanup) m =
  match run w t m with
  | (o, m1, tr1) =>
      match run w cleanup m1 with
      | (Resolved _, m2, tr2) => (o, m2, tr1 ++ tr2)
      | (Rejected e, m2, tr2) => (Rejected e, m2, tr1 ++ tr2)
      end
  end.
Proof.
  induction t as [a | e | a k IH | k IH | R c k IH]; intros m; cbn [finally run].
  - rewrite run_bind. destruct (run w cleanup m) as [[[v | e] m2] tr2];
      cbn [run]; rewrite ?app_nil_r; reflexivity.
  - rewrite run_bind. destruct (run w cleanup m) as [[[v | e'] m2] tr2];
      cbn [run]; rewrite ?app_nil_r; reflexivity.
  - rewrite IH. destruct (run w k (act a m)) as [[o m1] tr1].
    destruct (run w cleanup m1) as [[[v | e] m2] tr2]; reflexivity.
  - apply IH.
  - rewrite IH.
    destruct (run w (k (w R (past m) c)) _) as [[o m1] tr1].
    destruct (run w cleanup m1) as [[[v | e] m2] tr2]; reflexivity.
Qed.

Lemma run_await {R : Type} (c : Call R) m :
  run w (await c) m =
  (w R (past m) c, record (EAwait c (w R (past m) c)) m,
   [EAwait c (w R (past m) c)]).
Proof.
  unfold await. cbn [run]. destruct (w R (past m) c); reflexivity.
Qed.

Lemma run_lift {A : Type} (x : Result A) m : run w (lift x) m = (x, m, []).
Proof. destruct x; reflexivity. Qed.

Lemma run_do a m : run w (do a) m = (Resolved tt, act a m, [EDo a]).
Proof. reflexivity. Qed.

Lemma run_Do {A : Type} a (k : Task A) m :
  run w (Do a k) m =
  match run w k (act a m) with
  | (o, m', tr) => (o, m', EDo a :: tr)
  end.
Proof. reflexivity. Qed.

End RunFacts.

(** ** The ledger reader *)
Section LedgerReader.

Variable w : World.

Lemma toNumber_resolved x y : Ethers.toNumber x = Resolved y -> y = x.
Proof.
  unfold Ethers.toNumber. destruct (Z.abs x <? 2 ^ 53); congruence.
Qed.

Lemma toItem_resolved raw item :
  toItem raw = Resolved item ->
  id item = raw_id raw /\
  Ethers.formatEther (raw_price raw) = Resolved (price item).
Proof.
  unfold toItem. destruct (Ethers.toNumber (raw_id raw)) as [n | e] eqn:En;
    [| discriminate].
  destruct (Ethers.formatEther (raw_price raw)) as [text | e]; [| discriminate].
  intros E. injection E as <-. apply toNumber_resolved in En. subst n.
  split; reflexivity.
Qed.

Lemma ids_by_index raws : forall i,
  (forall k raw, nth_error raws k = Some raw -> raw_id raw = Z.of_nat (i + k)) ->
  map raw_id raws = map Z.of_nat (seq i (length raws)).
Proof.
  induction raws as [| raw rest IH]; intros i H; [reflexivity |].
  cbn [map length seq]. f_equal.
  - rewrite (H 0%nat raw eq_refl). f_equal. lia.
  - apply IH. intros k raw' Hk. rewrite (H (S k) raw' Hk). f_equal. lia.
Qed.

Lemma readEvents_no_catch c raws : forall i,
  existsb caught (readEvents c i raws) = false.
Proof. induction raws as [| raw rest IH]; intros i; [reflexivity | apply IH]. Qed.

Lemma readEvents_no_failure c raws : forall i,
  existsb readFailed (readEvents c i raws) = false.
Proof. induction raws as [| raw rest IH]; intros i; [reflexivity | apply IH]. Qed.

(** The loop never writes a state cell; when it completes, it has read one
    tuple per iteration, at consecutive indices, and pushed their items in
    that order. *)
Lemma run_loadLoop c : forall n i loaded m,
  (exists raws pushed m',
     run w (loadLoop c n i loaded) m =
       (Resolved (loaded ++ pushed), m', readEvents c i raws) /\
     length raws = n /\
     Forall2 (fun raw item => toItem raw = Resolved item) raws pushed /\
     ui m' = ui m) \/
  (exists e m' tr,
     run w (loadLoop c n i loaded) m = (Rejected e, m', tr) /\ ui m' = ui m).
Proof.
  induction n as [| n IH]; intros i loaded m.
  - left. exists [], [], m. rewrite app_nil_r. repeat split. constructor.
  - cbn [loadLoop]. rewrite run_bind, run_await.
    destruct (w RawItem (past m) (call_items c i)) as [raw | e].
    + rewrite run_bind, run_lift.
      destruct (toItem raw) as [item | e] eqn:Eitem.
      * destruct (IH (i + 1) (loaded ++ [item])
                     (record (EAwait (call_items c i) (Resolved raw)) m))
          as [(raws & pushed & m' & Hrun & Hlen & Hall & Hui)
             | (e & m' & tr & Hrun & Hui)].
        -- left. exists (raw :: raws), (item :: pushed), m'.
           rewrite Hrun, <- app_assoc. cbn [app readEvents length].
           repeat split; [congruence | constructor; assumption | exact Hui].
        -- right. rewrite Hrun. do 3 eexists. split; [reflexivity | exact Hui].
      * right. do 3 eexists. split; reflexivity.
    + right. do 3 eexists. split; reflexivity.
Qed.

(** The two ways [loadItems] ends on a bound contract: the whole listing was
    read and replaces the cache, or something was thrown, the [catch] block
    logged it and the cache was not written. *)
Lemma run_loadItems r c m :
  let x := run w (loadItems r (Some c)) m in
  (exists n raws loaded,
     trace x =
       EDo (setLoading true) :: EAwait (call_itemCount c) (Resolved n)
       :: readEvents c 1 raws
       ++ [EDo (setItems (rev loaded)); EDo (setLoading false)] /\
     length raws = Z.to_nat n /\
     Forall2 (fun raw item => toItem raw = Resolved item) raws loaded /\
     ui (final x) =
       perform (setLoading false)
         (perform (setItems (rev loaded)) (perform (setLoading true) (ui m)))) \/
  (exists e tr,
     trace x =
       EDo (setLoading true) :: tr
       ++ [EDo (console_error "loadItems error:" e); EDo (setLoading false)] /\
     ui (final x) = perform (setLoading false) (perform (setLoading true) (ui m))).
Proof.
  unfold loadItems. cbn [orElse]. rewrite run_Do, run_finally, run_try_catch.
  rewrite run_bind, run_await.
  set (m1 := act (setLoading true) m).
  destruct (w Z (past m1) (call_itemCount c)) as [n | e].
  - rewrite run_bind, run_lift.
    destruct (Ethers.toNumber n) as [count | e] eqn:En.
    + apply toNumber_resolved in En. subst count. rewrite run_bind.
      destruct (run_loadLoop c (Z.to_nat n) 1 []
                  (record (EAwait (call_itemCount c) (Resolved n)) m1))
        as [(raws & pushed & m' & Hrun & Hlen & Hall & Hui)
           | (e & m' & tr & Hrun & Hui)]; rewrite Hrun.
      * left. exists n, raws, pushed. cbn [run do act app trace final fst snd ui].
        rewrite Hui. repeat split; try assumption.
        rewrite <- app_assoc. reflexivity.
      * right. exists e, (EAwait (call_itemCount c) (Resolved n) :: tr).
        cbn [run do act app trace final fst snd ui]. rewrite Hui.
        split; [| reflexivity].
        rewrite <- app_assoc. reflexivity.
    + right. exists e, [EAwait (call_itemCount c) (Resolved n)].
      split; reflexivity.
  - right. exists e, [EAwait (call_itemCount c) (Rejected e)].
    split; reflexivity.
Qed.

End LedgerReader.

(** ** Properties of the synchronisation core *)

(** C1: for every prior state, when [accountsChanged] delivers an empty
    account list, the listener sets the account to absent, clears the
    contract handle, empties the listing cache and resets the balance to its
    initial text "0.0"; a missing list is handled alike. *)
Theorem accountsChanged_empty_resets
  (toFixed6 : string -> string) (ethereum : bool) (w : World)
  (r : State) (m : Machine) :
  let after accounts :=
    ui (final (run w (handleAccountsChanged toFixed6 ethereum r accounts) m)) in
  (account (after (Some [])) = None /\ contract (after (Some [])) = None /\
   items (after (Some [])) = [] /\ contractBalance (after (Some [])) = "0.0") /\
  after None = after (Some []).
Proof. cbn. repeat split. Qed.

(** C2: a refresh of the listings that is not caught reads the item count
    [n], then the listings at the indices 1 to [n] in that order, converts
    each tuple (the price with [formatEther]) and stores the items in the
    reverse of the order read: the cache has [n] entries and its ids are the
    ledger's ids of the indices [n] down to 1, that is [n], ..., 2, 1 on a
    ledger whose listing at index [i] carries the id [i]. *)
Theorem loadItems_success (w : World) (r : State) (c : Contract) (m : Machine) :
  existsb caught (trace (run w (loadItems r (Some c)) m)) = false ->
  exists (n : Z) (raws : list RawItem) (loaded : list Item),
    trace (run w (loadItems r (Some c)) m) =
      EDo (setLoading true) :: EAwait (call_itemCount c) (Resolved n)
      :: readEvents c 1 raws
      ++ [EDo (setItems (rev loaded)); EDo (setLoading false)] /\
    length raws = Z.to_nat n /\
    Forall2 (fun raw item =>
               toItem raw = Resolved item /\
               Ethers.formatEther (raw_price raw) = Resolved (price item))
            raws loaded /\
    items (ui (final (run w (loadItems r (Some c)) m))) = rev loaded /\
    length (items (ui (final (run w (loadItems r (Some c)) m)))) = Z.to_nat n /\
    map id (items (ui (final (run w (loadItems r (Some c)) m)))) =
      rev (map raw_id raws) /\
    ((forall k raw, nth_error raws k = Some raw ->
                    raw_id raw = Z.of_nat (1 + k)) ->
     map id (items (ui (final (run w (loadItems r (Some c)) m)))) =
       rev (map Z.of_nat (seq 1 (Z.to_nat n)))).
Proof.
  intros Hok.
  destruct (run_loadItems w r c m) as [(n & raws & loaded & Htr & Hlen & Hall & Hui)
                                      | (e & tr & Htr & _)].
  - exists n, raws, loaded. rewrite Hui. cbn [perform items].
    assert (Hlen' : length loaded = length raws).
    { clear -Hall. induction Hall; cbn [length]; congruence. }
    repeat split; try assumption.
    + clear -Hall. induction Hall as [| raw item raws loaded H _ IH];
        constructor; [| exact IH].
      split; [exact H | apply (toItem_resolved _ _ H)].
    + rewrite length_rev. congruence.
    + rewrite map_rev. f_equal.
      clear -Hall. induction Hall as [| raw item raws loaded H _ IH];
        [reflexivity |].
      cbn [map]. rewrite IH. f_equal. apply (toItem_resolved _ _ H).
    + intros Hids. rewrite map_rev, <- Hlen, <- (ids_by_index raws 1%nat Hids).
      f_equal.
      clear -Hall. induction Hall as [| raw item raws loaded H _ IH];
        [reflexivity |].
      cbn [map]. rewrite IH. f_equal. apply (toItem_resolved _ _ H).
  - exfalso. rewrite Htr in Hok. cbn [existsb caught orb] in Hok.
    rewrite existsb_app in Hok. cbn [existsb caught orb] in Hok.
    rewrite orb_true_r in Hok. discriminate.
Qed.

(** C5: for every prior cache, when a read of the refresh is rejected (the
    item count or a listing), the cached sequence is left as it was and the
    loading flag ends up false. *)
Theorem loadItems_failure_keeps_cache
  (w : World) (r : State) (contractInstance : option Contract) (m : Machine) :
  existsb readFailed (trace (run w (loadItems r contractInstance) m)) = true ->
  items (ui (final (run w (loadItems r contractInstance) m))) = items (ui m) /\
  loading (ui (final (run w (loadItems r contractInstance) m))) = false.
Proof.
  intros Hfail.
  assert (Cases : (exists c, loadItems r contractInstance = loadItems r (Some c)) \/
                  loadItems r contractInstance = Ret tt).
  { unfold loadItems.
    destruct (orElse contractInstance (contract r)) as [c |];
      [left; exists c; reflexivity | right; reflexivity]. }
  destruct Cases as [(c & E) | E]; rewrite E in *; [| discriminate].
  destruct (run_loadItems w r c m) as [(n & raws & loaded & Htr & _ & _ & _)
                                      | (e & tr & _ & Hui)].
  - exfalso. rewrite Htr in Hfail. cbn [existsb readFailed isRead orb] in Hfail.
    rewrite existsb_app, readEvents_no_failure in Hfail. discriminate.
  - rewrite Hui. split; reflexivity.
Qed.

(** ** The session manager *)
Section SessionManager.

Variable toFixed6 : string -> string.
Variable w : World.

Lemma run_fetchContractBalance r prov p m :
  orElse prov (provider r) = Some p ->
  exists a,
    run w (fetchContractBalance toFixed6 r prov) m =
      (Resolved tt,
       act a (record (EAwait (getBalance p contractAddress)
                             (w Z (past m) (getBalance p contractAddress))) m),
       [EAwait (getBalance p contractAddress)
               (w Z (past m) (getBalance p contractAddress)); EDo a]) /\
    ((exists text, a = setContractBalance text) \/
     (exists e, a = console_error "fetchContractBalance error:" e)).
Proof.
  intros Hp. unfold fetchContractBalance. rewrite Hp.
  rewrite run_try_catch, run_bind, run_await.
  destruct (w Z (past m) (getBalance p contractAddress)) as [b | e].
  - rewrite run_bind, run_lift.
    destruct (Ethers.formatEther b) as [text | e].
    + rewrite run_do. eexists. split; [reflexivity |]. left. eexists. reflexivity.
    + rewrite run_do. eexists. split; [reflexivity |]. right. eexists. reflexivity.
  - rewrite run_do. eexists. split; [reflexivity |]. right. eexists. reflexivity.
Qed.

(** Binding never throws, and leaves only binding events. *)
Lemma run_setupProviderAndContract r selected m :
  exists m' tr,
    run w (setupProviderAndContract toFixed6 true r selected) m =
      (Resolved tt, m', tr) /\
    forallb bindingEvent tr = true.
Proof.
  unfold setupProviderAndContract. cbn [negb run]. rewrite run_bind.
  destruct (truthy selected); cbn [run do];
    match goal with
    | |- context [run w (fetchContractBalance toFixed6 r (Some ?p)) ?mm] =>
        destruct (run_fetchContractBalance r (Some p) p mm eq_refl)
          as (a & Hrun & Ha); rewrite Hrun
    end;
    do 2 eexists; (split; [reflexivity |]);
    destruct Ha as [(text & ->) | (e & ->)]; reflexivity.
Qed.

Lemma connectWallet_unfold r :
  connectWallet toFixed6 true r =
  try_catch
    (currentChainId <- await eth_chainId ;;
     (if negb (currentChainId =? libertyChainId)%string then
        try_catch
          (await (wallet_switchEthereumChain libertyChainId))
          (fun switchError =>
             if hasCode switchError 4902
             then await (wallet_addEthereumChain libertyParams)
             else Throw switchError)
      else Ret tt) ;;;
     authorize toFixed6 r)
    (fun err =>
       Do (console_error "connectWallet error:" err) (
       do (alert "Connection rejected or failed."))).
Proof. reflexivity. Qed.

Lemma run_authorize r m :
  exists o m' tr,
    run w (authorize toFixed6 r) m =
      (o, m', EAwait eth_requestAccounts (w _ (past m) eth_requestAccounts) :: tr) /\
    forallb bindingEvent tr = true /\
    match w _ (past m) eth_requestAccounts with
    | Rejected e => o = Rejected e /\ tr = [] /\ ui m' = ui m
    | Resolved [] => o = Resolved tt /\ tr = [] /\ ui m' = ui m
    | Resolved (_ :: _) => o = Resolved tt
    end.
Proof.
  unfold authorize. rewrite run_bind, run_await.
  destruct (w (list string) (past m) eth_requestAccounts) as [[| first rest] | e].
  - do 3 eexists. repeat split.
  - rewrite run_bind.
    destruct (run_setupProviderAndContract r (Some first)
                (record (EAwait eth_requestAccounts (Resolved (first :: rest))) m))
      as (m' & tr & Hrun & Hb).
    rewrite Hrun, run_do. do 3 eexists. repeat split.
    rewrite forallb_app, Hb. reflexivity.
  - do 3 eexists. repeat split.
Qed.

Lemma existsb_binding (P : Event -> bool) tr :
  (forall e, bindingEvent e = true -> P e = false) ->
  forallb bindingEvent tr = true -> existsb P tr = false.
Proof.
  intros HP. induction tr as [| e tr IH]; [reflexivity |].
  cbn [forallb existsb]. intros H. apply andb_prop in H. destruct H as [He Htr].
  rewrite (HP e He), (IH Htr). reflexivity.
Qed.

Lemma binding_not_switch e : bindingEvent e = true -> isSwitch e = false.
Proof. destruct e as [a | R c | R c r0]; [reflexivity .. |]. destruct c; reflexivity || discriminate. Qed.

Lemma binding_not_add e : bindingEvent e = true -> isAdd e = false.
Proof. destruct e as [a | R c | R c r0]; [reflexivity .. |]. destruct c; reflexivity || discriminate. Qed.

Lemma binding_not_failed e : bindingEvent e = true -> connectFailed e = false.
Proof. destruct e as [a | R c | R c r0]; [| reflexivity ..]. destruct a; reflexivity || discriminate. Qed.

Lemma binding_not_zero e : bindingEvent e = true -> zeroAccounts e = false.
Proof.
  destruct e as [a | R c | R c r0]; [reflexivity .. |].
  destruct c; try discriminate. destruct r0; reflexivity.
Qed.

End SessionManager.

(** C3: [connectWallet] reads the chain id first. When it is the target id,
    no switch and no registration is requested and the flow goes on to the
    authorization request. Otherwise a switch to the target is requested; the
    registration of the target network, with its fixed descriptor, is
    requested exactly when the switch was rejected with code 4902; a switch
    rejected with any other value ends the flow there: the value is logged,
    the failure reported, no account is requested and no state cell
    changes. *)
Theorem connectWallet_ensures_network
  (toFixed6 : string -> string) (w : World) (r : State) (m : Machine) :
  let current := w _ (past m) eth_chainId in
  let m1 := record (EAwait eth_chainId current) m in
  let switchCall := wallet_switchEthereumChain libertyChainId in
  let switch := w _ (past m1) switchCall in
  let m2 := record (EAwait switchCall switch) m1 in
  let addCall := wallet_addEthereumChain libertyParams in
  let add := w _ (past m2) addCall in
  let x := run w (connectWallet toFixed6 true r) m in
  match current with
  | Rejected e =>
      trace x = EAwait eth_chainId current :: aborted e /\ ui (final x) = ui m
  | Resolved cid =>
      if (cid =? libertyChainId)%string then
        existsb isSwitch (trace x) = false /\
        existsb isAdd (trace x) = false /\
        exists ans rest,
          trace x =
            EAwait eth_chainId current :: EAwait eth_requestAccounts ans :: rest
      else
        match switch with
        | Resolved _ =>
            existsb isAdd (trace x) = false /\
            exists ans rest,
              trace x =
                EAwait eth_chainId current :: EAwait switchCall switch
                :: EAwait eth_requestAccounts ans :: rest
        | Rejected e =>
            if hasCode e 4902 then
              exists rest,
                trace x =
                  EAwait eth_chainId current :: EAwait switchCall switch
                  :: EAwait addCall add :: rest /\
                match add with
                | Resolved _ =>
                    exists ans rest',
                      rest = EAwait eth_requestAccounts ans :: rest'
                | Rejected e' => rest = aborted e' /\ ui (final x) = ui m
                end
            else
              trace x =
                EAwait eth_chainId current :: EAwait switchCall switch
                :: aborted e /\
              ui (final x) = ui m
        end
  end.
Proof.
  cbv zeta. rewrite connectWallet_unfold, run_try_catch, run_bind, run_await.
  destruct (w string (past m) eth_chainId) as [cid | e]; cbv iota.
  2: { split; reflexivity. }
  rewrite run_bind.
  destruct (cid =? libertyChainId)%string; cbn [negb].
  - cbn [run].
    destruct (run_authorize toFixed6 w r
                (record (EAwait eth_chainId (Resolved cid)) m))
      as (o & m' & tr & Hrun & Hb & _).
    rewrite Hrun.
    pose proof (existsb_binding isSwitch tr binding_not_switch Hb) as Hs.
    pose proof (existsb_binding isAdd tr binding_not_add Hb) as Ha.
    destruct o as [u | e]; cbn [run do trace snd app existsb isSwitch isAdd orb];
      rewrite ?existsb_app, ?Hs, ?Ha; repeat split; do 2 eexists; reflexivity.
  - rewrite run_try_catch, run_await.
    set (m1 := record (EAwait eth_chainId (Resolved cid)) m).
    destruct (w unit (past m1) (wallet_switchEthereumChain libertyChainId))
      as [u | e]; cbv iota.
    + destruct (run_authorize toFixed6 w r
                  (record (EAwait (wallet_switchEthereumChain libertyChainId)
                                  (Resolved u)) m1))
        as (o & m' & tr & Hrun & Hb & _).
      rewrite Hrun.
      pose proof (existsb_binding isAdd tr binding_not_add Hb) as Ha.
      destruct o as [u' | e]; cbn [run do trace snd app existsb isAdd orb];
        rewrite ?existsb_app, ?Ha; repeat split; do 2 eexists; reflexivity.
    + destruct (hasCode e 4902).
      * rewrite run_await.
        set (m2 := record (EAwait (wallet_switchEthereumChain libertyChainId)
                                  (Rejected e)) m1).
        destruct (w unit (past m2) (wallet_addEthereumChain libertyParams))
          as [u | e']; cbv iota.
        -- destruct (run_authorize toFixed6 w r
                       (record (EAwait (wallet_addEthereumChain libertyParams)
                                       (Resolved u)) m2))
             as (o & m' & tr & Hrun & Hb & _).
           rewrite Hrun.
           destruct o as [u' | e']; cbn [run do trace snd app];
             eexists; (split; [reflexivity |]); do 2 eexists; reflexivity.
        -- eexists. split; [reflexivity |]. split; reflexivity.
      * split; reflexivity.
Qed.

(** C10: when [connectWallet] gives up (no wallet is injected, or a request
    before the binding was rejected: the chain id read, the switch, the
    registration, the authorization) or the wallet authorizes no account,
    every state cell (account, contract handle, provider, listing cache and
    the others) is what it was before the call. *)
Theorem connectWallet_failure_atomic
  (toFixed6 : string -> string) (ethereum : bool) (w : World)
  (r : State) (m : Machine) :
  existsb connectFailed (trace (run w (connectWallet toFixed6 ethereum r) m)) = true \/
  existsb zeroAccounts (trace (run w (connectWallet toFixed6 ethereum r) m)) = true ->
  ui (final (run w (connectWallet toFixed6 ethereum r) m)) = ui m.
Proof.
  destruct ethereum; [| reflexivity].
  rewrite connectWallet_unfold, run_try_catch, run_bind, run_await.
  assert (Tail : forall m1 pre,
    ui m1 = ui m ->
    existsb connectFailed pre = false -> existsb zeroAccounts pre = false ->
    forall o m' tr,
      run w (authorize toFixed6 r) m1 = (o, m', tr) ->
      let x := match o with
               | Resolved a => (Resolved a, m', pre ++ tr)
               | Rejected e =>
                   match run w (Do (console_error "connectWallet error:" e)
                                   (do (alert "Connection rejected or failed."))) m'
                   with (o', m2, tr2) => (o', m2, (pre ++ tr) ++ tr2) end
               end in
      existsb connectFailed (trace x) = true \/
      existsb zeroAccounts (trace x) = true ->
      ui (final x) = ui m).
  { intros m1 pre Hui Hf Hz o m' tr Hrun.
    destruct (run_authorize toFixed6 w r m1) as (o' & m'' & tr' & Hrun' & Hb & Hans).
    rewrite Hrun in Hrun'. injection Hrun' as Eo Em Et. subst o m' tr.
    pose proof (existsb_binding _ tr' binding_not_failed Hb) as Hf'.
    pose proof (existsb_binding _ tr' binding_not_zero Hb) as Hz'.
    destruct (w (list string) (past m1) eth_requestAccounts) as [[| first rest] | e].
    - destruct Hans as (-> & -> & Hm). cbv zeta. intros _. cbn. congruence.
    - subst o'. cbv zeta. cbn [trace final fst snd].
      rewrite !existsb_app. cbn [existsb connectFailed zeroAccounts].
      rewrite Hf, Hz, Hf', Hz'. intros [H | H]; discriminate.
    - destruct Hans as (-> & -> & Hm). cbv zeta. intros _. cbn. congruence. }
  destruct (w string (past m) eth_chainId) as [cid | e]; cbv iota;
    [| reflexivity].
  rewrite run_bind.
  destruct (cid =? libertyChainId)%string; cbn [negb].
  - cbn [run app].
    destruct (run w (authorize toFixed6 r) _) as [[o m'] tr] eqn:Hrun.
    apply (Tail (record (EAwait eth_chainId (Resolved cid)) m)
                [EAwait eth_chainId (Resolved cid)] eq_refl eq_refl eq_refl
                _ _ _ Hrun).
  - rewrite run_try_catch, run_await.
    set (m1 := record (EAwait eth_chainId (Resolved cid)) m).
    destruct (w unit (past m1) (wallet_switchEthereumChain libertyChainId))
      as [u | e]; cbv iota.
    + destruct (run w (authorize toFixed6 r) _) as [[o m'] tr] eqn:Hrun.
      apply (Tail (record (EAwait (wallet_switchEthereumChain libertyChainId)
                                  (Resolved u)) m1)
                  [EAwait eth_chainId (Resolved cid);
                   EAwait (wallet_switchEthereumChain libertyChainId) (Resolved u)]
                  eq_refl eq_refl eq_refl _ _ _ Hrun).
    + destruct (hasCode e 4902); [| reflexivity].
      rewrite run_await.
      set (m2 := record (EAwait (wallet_switchEthereumChain libertyChainId)
                                (Rejected e)) m1).
      destruct (w unit (past m2) (wallet_addEthereumChain libertyParams))
        as [u | e']; cbv iota; [| reflexivity].
      destruct (run w (authorize toFixed6 r) _) as [[o m'] tr] eqn:Hrun.
      apply (Tail (record (EAwait (wallet_addEthereumChain libertyParams)
                                  (Resolved u)) m2)
                  [EAwait eth_chainId (Resolved cid);
                   EAwait (wallet_switchEthereumChain libertyChainId) (Rejected e);
                   EAwait (wallet_addEthereumChain libertyParams) (Resolved u)]
                  eq_refl eq_refl eq_refl _ _ _ Hrun).
Qed.

(** ** The transaction orchestrator *)
Section Orchestrator.

Variable toFixed6 : string -> string.
Variable w : World.

Lemma loadItems_head r c m :
  exists u m' rest,
    run w (loadItems r (Some c)) m =
      (Resolved u, m',
       EDo (setLoading true)
       :: EAwait (call_itemCount c)
                 (w Z (past (act (setLoading true) m)) (call_itemCount c))
       :: rest).
Proof.
  unfold loadItems. cbn [orElse].
  rewrite run_Do, run_finally, run_try_catch, run_bind, run_await.
  destruct (w Z (past (act (setLoading true) m)) (call_itemCount c)) as [n | e];
    cbv iota.
  - destruct (run w (count <- lift (Ethers.toNumber n) ;; _) _)
      as [[[u | e] m1] tr1]; cbn [run do]; do 3 eexists; reflexivity.
  - cbn [run do]. do 3 eexists. reflexivity.
Qed.

Lemma fetchContractBalance_head r p m :
  provider r = Some p ->
  exists u m' ans a,
    run w (fetchContractBalance toFixed6 r None) m =
      (Resolved u, m', [EAwait (getBalance p contractAddress) ans; EDo a]).
Proof.
  intros Hp.
  destruct (run_fetchContractBalance toFixed6 w r None p m Hp) as (a & Hrun & _).
  rewrite Hrun. do 4 eexists. reflexivity.
Qed.

(** The refresh that both mutating handlers run once the transaction is
    settled. *)
Lemma run_refresh r c p m msg :
  provider r = Some p ->
  exists m',
    run w (loadItems r (Some c) ;;;
           fetchContractBalance toFixed6 r None ;;; do (alert msg)) m =
      (Resolved tt, m',
       trace (run w (loadItems r (Some c)) m)
       ++ trace (run w (fetchContractBalance toFixed6 r None)
                       (final (run w (loadItems r (Some c)) m)))
       ++ [EDo (alert msg)]).
Proof.
  intros Hp. rewrite run_bind.
  destruct (loadItems_head r c m) as (u & m1 & rest & Hload). rewrite Hload.
  rewrite run_bind. cbn [trace final fst snd].
  destruct (fetchContractBalance_head r p m1 Hp) as (u' & m2 & ans & a & Hbal).
  rewrite Hbal, run_do. cbn [trace snd]. eexists. reflexivity.
Qed.

End Orchestrator.

Lemma encodeUint256_resolved (v v' : Z) :
  Ethers.encodeUint256 v = Resolved v' -> v' = v /\ 0 <= v < 2 ^ 256.
Proof.
  unfold Ethers.encodeUint256.
  destruct (Z.ltb_spec v 0); destruct (Z.leb_spec (2 ^ 256) v);
    cbn [orb]; try discriminate.
  intros E. injection E as <-. lia.
Qed.


(** C4: a mutating operation (listing or purchase) reaches the settlement of
    its transaction exactly when it gets through (valid amount, submission
    and wait answered), and every run in which the settlement was confirmed
    is: the loading flag, the submission, the confirmed settlement, for a
    listing the reset of the form, and only then the full refresh of the
    listings on its contract (which opens with the item count read) followed
    by the refresh of the balance (the balance read on the provider), the
    success dialog and the loading flag. Nothing before the refresh reads the
    listings or the balance or writes the listing cache or the balance: both
    are, when the refresh starts, what they were when the operation
    started. *)
Theorem mutation_settled_refreshes
  (toFixed6 : string -> string) (w : World) (r : State) (m : Machine)
  (op : Mutation) (c : Contract) (p : Provider) :
  truthy (account r) = true -> contract r = Some c -> provider r = Some p ->
  (forall value tx,
     accepted w r m c op value tx ->
     existsb settled (trace (run w (mutate toFixed6 r op) m)) = true) /\
  (existsb settled (trace (run w (mutate toFixed6 r op) m)) = true ->
   exists value tx m1,
     accepted w r m c op value tx /\
     trace (run w (mutate toFixed6 r op) m) =
       untilRefresh r c op value tx
       ++ trace (run w (loadItems r (Some c)) m1)
       ++ trace (run w (fetchContractBalance toFixed6 r None)
                       (final (run w (loadItems r (Some c)) m1)))
       ++ [EDo (alert (successText op)); EDo (setLoading false)] /\
     past m1 = past m ++ untilRefresh r c op value tx /\
     existsb cacheWrite (untilRefresh r c op value tx) = false /\
     existsb refreshRequest (untilRefresh r c op value tx) = false /\
     items (ui m1) = items (ui m) /\
     contractBalance (ui m1) = contractBalance (ui m) /\
     (exists count rest,
        trace (run w (loadItems r (Some c)) m1) =
          EDo (setLoading true) :: EAwait (call_itemCount c) count :: rest) /\
     (exists balance a,
        trace (run w (fetchContractBalance toFixed6 r None)
                     (final (run w (loadItems r (Some c)) m1))) =
          [EAwait (getBalance p contractAddress) balance; EDo a])).
Proof.
  intros Ha Hc Hp.
  assert (Heads : forall m1,
    (exists count rest,
       trace (run w (loadItems r (Some c)) m1) =
         EDo (setLoading true) :: EAwait (call_itemCount c) count :: rest) /\
    (exists balance a,
       trace (run w (fetchContractBalance toFixed6 r None)
                    (final (run w (loadItems r (Some c)) m1))) =
         [EAwait (getBalance p contractAddress) balance; EDo a])).
  { intros m1. split.
    - destruct (loadItems_head w r c m1) as (u & m' & rest & H).
      rewrite H. do 2 eexists. reflexivity.
    - destruct (fetchContractBalance_head toFixed6 w r p
                  (final (run w (loadItems r (Some c)) m1)) Hp)
        as (u & m' & ans & a & H).
      rewrite H. do 2 eexists. reflexivity. }
  destruct op as [| item itemPriceText]; unfold mutate, accepted;
    cbn [ready amount submission successText].
  - unfold listNewItem. rewrite Ha, Hc.
    destruct ((itemName r =? "")%string || (itemPrice r =? "")%string).
    { split; [intros value tx (Hready & _) | intros Hs]; discriminate. }
    rewrite run_finally, run_try_catch, run_Do, run_bind, run_lift.
    destruct (Ethers.parseEther (itemPrice r)) as [wei | e].
    2: { split; [intros value tx (_ & Hv & _) | intros Hs]; discriminate. }
    rewrite run_bind, run_lift.
    destruct (Ethers.encodeUint256 wei) as [wei' | e] eqn:Hrange.
    2: { split; [intros value tx (_ & Hv & _) | intros Hs]; discriminate. }
    destruct (encodeUint256_resolved wei wei' Hrange) as [-> _].
    rewrite run_bind, run_await.
    set (m0 := act (setLoading true) m).
    change (past m ++ [EDo (setLoading true)]) with (past m0).
    destruct (w Tx (past m0) (call_listItem c (itemName r) wei)) as [tx | e]
      eqn:Hsubmit.
    2: { split; [intros value tx (_ & Hv & Htx & _) | intros Hs];
           [injection Hv as <-; rewrite Hsubmit in Htx |]; discriminate. }
    rewrite run_bind, run_await.
    set (m1 := record (EAwait (call_listItem c (itemName r) wei) (Resolved tx)) m0).
    destruct (w unit (past m1) (tx_wait tx)) as [[] | e] eqn:Hwait.
    2: { split; [intros value tx' (_ & Hv & Htx & Hw) | intros Hs];
           [| discriminate].
         injection Hv as <-. rewrite Hsubmit in Htx. injection Htx as <-.
         unfold m1, m0 in Hwait. cbn [record act past] in Hwait.
         rewrite <- app_assoc in Hwait. cbn [app] in Hwait.
         rewrite Hwait in Hw. discriminate. }
    rewrite !run_Do.
    set (m2 := act (setItemPrice "") (act (setItemName "")
                 (record (EAwait (tx_wait tx) (Resolved tt)) m1))).
    destruct (run_refresh toFixed6 w r c p m2 "Item listed successfully!" Hp)
      as (m' & Hrun).
    rewrite Hrun. split; [intros value tx' _; reflexivity | intros _].
    exists wei, tx, m2.
    split.
    { split; [reflexivity |]. split; [reflexivity |].
      split; [exact Hsubmit |].
      unfold m1, m0 in Hwait. cbn [record act past] in Hwait.
      rewrite <- app_assoc in Hwait. exact Hwait. }
    split.
    { cbn [run do trace snd app untilRefresh formReset submission].
      rewrite <- !app_assoc. reflexivity. }
    split.
    { unfold m2, m1, m0, untilRefresh.
      cbn [record act past formReset submission app].
      rewrite <- !app_assoc. reflexivity. }
    repeat split; try apply Heads.
  - unfold buyItem. rewrite Ha, Hc.
    rewrite run_finally, run_try_catch, run_Do, run_bind, run_lift.
    destruct (Ethers.parseEther itemPriceText) as [value | e].
    2: { split; [intros value tx (_ & Hv & _) | intros Hs]; discriminate. }
    rewrite run_bind, run_await.
    set (m0 := act (setLoading true) m).
    change (past m ++ [EDo (setLoading true)]) with (past m0).
    destruct (w Tx (past m0) (call_buyItem c item value)) as [tx | e]
      eqn:Hsubmit.
    2: { split; [intros value' tx (_ & Hv & Htx & _) | intros Hs];
           [injection Hv as <-; rewrite Hsubmit in Htx |]; discriminate. }
    rewrite run_bind, run_await.
    set (m1 := record (EAwait (call_buyItem c item value) (Resolved tx)) m0).
    destruct (w unit (past m1) (tx_wait tx)) as [[] | e] eqn:Hwait.
    2: { split; [intros value' tx' (_ & Hv & Htx & Hw) | intros Hs];
           [| discriminate].
         injection Hv as <-. rewrite Hsubmit in Htx. injection Htx as <-.
         unfold m1, m0 in Hwait. cbn [record act past] in Hwait.
         rewrite <- app_assoc in Hwait. cbn [app] in Hwait.
         rewrite Hwait in Hw. discriminate. }
    set (m2 := record (EAwait (tx_wait tx) (Resolved tt)) m1).
    destruct (run_refresh toFixed6 w r c p m2 "Purchase completed!" Hp)
      as (m' & Hrun).
    rewrite Hrun. split; [intros value' tx' _; reflexivity | intros _].
    exists value, tx, m2.
    split.
    { split; [reflexivity |]. split; [reflexivity |].
      split; [exact Hsubmit |].
      unfold m1, m0 in Hwait. cbn [record act past] in Hwait.
      rewrite <- app_assoc in Hwait. exact Hwait. }
    split.
    { cbn [run do trace snd app untilRefresh formReset submission].
      rewrite <- !app_assoc. reflexivity. }
    split.
    { unfold m2, m1, m0, untilRefresh.
      cbn [record act past formReset submission app].
      rewrite <- !app_assoc. reflexivity. }
    repeat split; try apply Heads.
Qed.

Section Submission.

Variable toFixed6 : string -> string.
Variable w : World.

Ltac settle_runs :=
  repeat match goal with
         | |- context [match run w ?t ?mm with _ => _ end] =>
             destruct (run w t mm) as [[[? | ?] ?] ?]
         end.


Lemma buyItem_head r c m item itemPriceText value :
  truthy (account r) = true -> contract r = Some c ->
  Ethers.parseEther itemPriceText = Resolved value ->
  exists ans rest,
    trace (run w (buyItem toFixed6 r item itemPriceText) m) =
      EDo (setLoading true) :: EAwait (call_buyItem c item value) ans :: rest.
Proof.
  intros Ha Hc Hparse. unfold buyItem.
  rewrite Ha, Hc.
  rewrite run_finally, run_try_catch, run_Do, run_bind, run_lift, Hparse.
  rewrite run_bind, run_await.
  destruct (w Tx _ (call_buyItem c item value)) as [tx | e];
    settle_runs; cbn [run do trace snd app]; do 2 eexists; reflexivity.
Qed.

End Submission.



(** C8: for every non-negative native-unit price on the ledger, the text
    that the refresh stores as the item's price converts back with
    [parseEther] to exactly that price, and [buyItem] called with the cached
    item attaches exactly that price as the value of its [buyItem]
    transaction. *)
Theorem price_round_trip
  (toFixed6 : string -> string) (w : World) (r : State) (m : Machine)
  (c : Contract) (raw : RawItem) (item : Item) :
  0 <= raw_price raw ->
  toItem raw = Resolved item ->
  truthy (account r) = true -> contract r = Some c ->
  Ethers.parseEther (price item) = Resolved (raw_price raw) /\
  exists ans rest,
    trace (run w (buyItem toFixed6 r (id item) (price item)) m) =
      EDo (setLoading true)
      :: EAwait (call_buyItem c (id item) (raw_price raw)) ans :: rest.
Proof.
  intros Hpos Hitem Ha Hc.
  destruct (toItem_resolved raw item Hitem) as [_ Hformat].
  destruct (EthersFacts.parseEther_formatEther (raw_price raw) Hpos)
    as (text & Hf & Hparse).
  rewrite Hformat in Hf. injection Hf as <-.
  split; [exact Hparse |].
  apply (buyItem_head toFixed6 w r c m (id item) (price item) _ Ha Hc Hparse).
Qed.

(** ** Interleavings *)

Lemma sameHandle_refl (a : option nat) : sameHandle a a = true.
Proof. destruct a; [apply Nat.eqb_refl | reflexivity]. Qed.

Lemma commit_unchanged toFixed6 (s : Sys) :
  commit toFixed6 (ui (machine s)) s = s.
Proof. unfold commit. rewrite !sameHandle_refl. reflexivity. Qed.

(** X20: the guard the component has: while the loading flag is up, the form
    and every Buy button are disabled, and a click starts nothing. *)
Lemma loading_blocks_mutations toFixed6 ethereum w (s : Sys) :
  loading (ui (machine s)) = true ->
  step toFixed6 ethereum w s SubmitList = s /\
  forall n, step toFixed6 ethereum w s (ClickBuy n) = s.
Proof.
  intros Hl. unfold step, disabled. rewrite Hl. cbn [orb negb andb]. split.
  - apply commit_unchanged.
  - intros n. destruct (nth_error (items (ui (machine s))) n);
      rewrite ?andb_false_r; apply commit_unchanged.
Qed.

(** C7 does not hold of the component: the loading flag that disables the
    buttons is shared with the refresh of the listings, whose [finally]
    lowers it. On [raceSchedule] the first purchase is still waiting for its
    settlement when the reload ends and lowers the flag; the second click is
    accepted and both purchases are in flight together. *)
Lemma second_purchase_while_first_in_flight :
  let run_to n :=
    exec plainText true sampleLedger (mount plainText true)
         (firstn n raceSchedule) in
  pendingCalls (run_to 8%nat) = [EIssue (tx_wait 8%nat)] /\
  loading (ui (machine (run_to 8%nat))) = true /\
  mutationsInFlight (run_to 12%nat) = 1%nat /\
  loading (ui (machine (run_to 12%nat))) = false /\
  mutationsInFlight (run_to 13%nat) = 2%nat /\
  pendingCalls (run_to 13%nat) =
    [EIssue (tx_wait 8%nat);
     EIssue (getBalance 2%nat contractAddress);
     EIssue (getBalance 2%nat contractAddress);
     EIssue (call_buyItem 3%nat 1 100000000000000000)].
Proof. vm_compute. repeat split. Qed.

(** C9: when [accountsChanged] delivers an empty account list, the account,
    the contract handle, the listing cache and the balance are reset and no
    other cell is touched: the provider stays bound and the interval stays
    armed with the closure it had. The next tick of the interval therefore
    reads the balance through that provider, and once the read is answered
    the balance shows the ledger's amount again although no session is
    bound. *)
Theorem disconnect_keeps_provider_and_poll
  (toFixed6 : string -> string) (ethereum : bool) (w : World) (s : Sys)
  (listening polling : State) (p : Provider) (balance : Z) :
  listener s = Some listening ->
  interval s = Some polling ->
  provider polling = Some p ->
  provider (ui (machine s)) = Some p ->
  0 <= balance ->
  (forall h, w Z h (getBalance p contractAddress) = Resolved balance) ->
  let s1 := step toFixed6 ethereum w s (AccountsChanged (Some [])) in
  let s2 := exec toFixed6 ethereum w s1
                 [PollTick; Settle (length (pending s1))] in
  (account (ui (machine s1)) = None /\
   contract (ui (machine s1)) = None /\
   items (ui (machine s1)) = [] /\
   contractBalance (ui (machine s1)) = "0.0") /\
  (provider (ui (machine s1)) = Some p /\
   interval s1 = Some polling /\
   loading (ui (machine s1)) = loading (ui (machine s)) /\
   itemName (ui (machine s1)) = itemName (ui (machine s)) /\
   itemPrice (ui (machine s1)) = itemPrice (ui (machine s)) /\
   pending s1 = pending s) /\
  (account (ui (machine s2)) = None /\
   contract (ui (machine s2)) = None /\
   exists text,
     Ethers.formatEther balance = Resolved text /\
     contractBalance (ui (machine s2)) = toFixed6 text).
Proof.
  intros Hlis Hint Hpoll Hprov Hpos Hw.
  destruct (EthersFacts.parseEther_formatEther balance Hpos) as (text & Hf & _).
  destruct s as [[u f h] pend lis int tim].
  cbn [listener interval machine ui] in Hlis, Hint, Hprov. subst lis int.
  assert (E1 : step toFixed6 ethereum w
                 (mkSys (mkMachine u f h) pend (Some listening) (Some polling) tim)
                 (AccountsChanged (Some [])) =
               mkSys (mkMachine
                        (mkState None (provider u) None [] (loading u)
                                 (itemName u) (itemPrice u) "0.0")
                        f
                        ((((h ++ [EDo (setAccount None)])
                           ++ [EDo (setContract None)])
                          ++ [EDo (setItems [])])
                         ++ [EDo (setContractBalance "0.0")]))
                     pend (Some listening) (Some polling) tim).
  { unfold step, commit, spawn. cbn.
    rewrite sameHandle_refl. destruct (contract u); reflexivity. }
  cbv zeta. rewrite E1. cbn [machine ui account contract items contractBalance
                              provider loading itemName itemPrice interval pending].
  set (s1 := mkSys _ pend _ _ tim).
  assert (Etick : exists k,
    step toFixed6 ethereum w s1 PollTick =
      mkSys (record (EIssue (getBalance p contractAddress)) (machine s1))
            (pend ++ [Susp (getBalance p contractAddress) k])
            (Some listening) (Some polling) tim /\
    k (Resolved balance) = do (setContractBalance (toFixed6 text))).
  { eexists. split.
    - unfold step. subst s1. cbn [interval pollCallback fold_left].
      unfold spawn at 1. unfold fetchContractBalance. rewrite Hpoll.
      cbn [orElse bind await try_catch advance].
      unfold commit. cbn [machine ui onMachine record contract provider].
      rewrite !sameHandle_refl. reflexivity.
    - cbn [bind try_catch]. rewrite Hf. reflexivity. }
  destruct Etick as (k & Etick & Hk).
  assert (E2 : ui (machine (exec toFixed6 ethereum w s1
                              [PollTick; Settle (length pend)])) =
               mkState None (provider u) None [] (loading u)
                       (itemName u) (itemPrice u) (toFixed6 text)).
  { unfold exec. cbn [fold_left]. rewrite Etick.
    unfold step, resume. cbn [pending machine].
    rewrite nth_error_app2, Nat.sub_diag by lia. cbn [nth_error].
    rewrite Hw, Hk. subst s1. cbn [advance do sysDo onMachine machine act record
                                    ui perform pending listener interval timers].
    unfold commit. cbn [machine ui contract provider account items loading
                         itemName itemPrice contractBalance].
    rewrite !sameHandle_refl. reflexivity. }
  subst s1. rewrite E2. cbn [account contract contractBalance].
  repeat split; try assumption. exists text. split; [exact Hf | reflexivity].
Qed.

(** ** The session invariant along every interleaving *)
Section SessionInvariant.

Variable toFixed6 : string -> string.
Variable ethereum : bool.
Variable w : World.

Lemma keeps_weaken {A : Type} (t : Task A) : forall pb pb',
  (pb = true -> pb' = true) -> keepsProvider pb t -> keepsProvider pb' t.
Proof.
  induction t as [a | e | a k IH | k IH | R c k IH]; intros pb pb' Hle;
    cbn [keepsProvider]; try exact (fun H => H).
  - destruct a as [v | [v |] | [v |] | | | | | | | |]; try apply (IH _ _ Hle).
    + exact (fun H => H).
    + exact (fun H => H).
    + intros [Hpb Hk]. split; [apply Hle, Hpb | apply (IH _ _ Hle), Hk].
  - intros H n. apply (IH n _ _ Hle), H.
  - intros H r. apply (IH r _ _ Hle), H.
Qed.

Lemma keeps_any {A : Type} (t : Task A) pb :
  keepsProvider false t -> keepsProvider pb t.
Proof. apply keeps_weaken. discriminate. Qed.

Lemma keeps_bind {A B : Type} (t : Task A) (f : A -> Task B) : forall pb,
  keepsProvider pb t -> (forall a, keepsProvider false (f a)) ->
  keepsProvider pb (bind t f).
Proof.
  induction t as [a | e | a k IH | k IH | R c k IH]; intros pb Ht Hf;
    cbn [bind keepsProvider] in *.
  - apply keeps_any, Hf.
  - exact I.
  - destruct a as [v | [v |] | [v |] | | | | | | | |]; try (apply IH; assumption).
    + contradiction.
    + destruct Ht as [Hpb Hk]. split; [exact Hpb | apply IH; assumption].
  - intros n. apply IH; [apply Ht | exact Hf].
  - intros r. apply IH; [apply Ht | exact Hf].
Qed.

Lemma keeps_try_catch {A : Type} (t : Task A) (h : Err -> Task A) : forall pb,
  keepsProvider pb t -> (forall e, keepsProvider false (h e)) ->
  keepsProvider pb (try_catch t h).
Proof.
  induction t as [a | e | a k IH | k IH | R c k IH]; intros pb Ht Hh;
    cbn [try_catch keepsProvider] in *.
  - exact I.
  - apply keeps_any, Hh.
  - destruct a as [v | [v |] | [v |] | | | | | | | |]; try (apply IH; assumption).
    + contradiction.
    + destruct Ht as [Hpb Hk]. split; [exact Hpb | apply IH; assumption].
  - intros n. apply IH; [apply Ht | exact Hh].
  - intros r. apply IH; [apply Ht | exact Hh].
Qed.

Lemma keeps_finally {A : Type} (t : Task A) (cleanup : Task unit) : forall pb,
  keepsProvider pb t -> keepsProvider false cleanup ->
  keepsProvider pb (finally t cleanup).
Proof.
  induction t as [a | e | a k IH | k IH | R c k IH]; intros pb Ht Hc;
    cbn [finally keepsProvider] in *.
  - apply keeps_bind; [apply keeps_any, Hc | intros _; exact I].
  - apply keeps_bind; [apply keeps_any, Hc | intros _; exact I].
  - destruct a as [v | [v |] | [v |] | | | | | | | |]; try (apply IH; assumption).
    + contradiction.
    + destruct Ht as [Hpb Hk]. split; [exact Hpb | apply IH; assumption].
  - intros n. apply IH; [apply Ht | exact Hc].
  - intros r. apply IH; [apply Ht | exact Hc].
Qed.

Lemma keeps_await {R : Type} (c : Call R) pb : keepsProvider pb (await c).
Proof. intros [v | e]; exact I. Qed.

Lemma keeps_lift {A : Type} (x : Result A) pb : keepsProvider pb (lift x).
Proof. destruct x; exact I. Qed.

Ltac keeps_step :=
  first
    [ exact I
    | simple apply keeps_bind
    | simple apply keeps_try_catch
    | simple apply keeps_finally
    | simple apply keeps_lift
    | simple apply keeps_await
    | match goal with |- forall _, _ => intro end
    | progress cbn [keepsProvider do] ].

Ltac keeps := repeat keeps_step.

Lemma keeps_fetchContractBalance r prov pb :
  keepsProvider pb (fetchContractBalance toFixed6 r prov).
Proof.
  apply keeps_any. unfold fetchContractBalance.
  destruct (orElse prov (provider r)); keeps.
Qed.

Lemma keeps_setupProviderAndContract r selected pb :
  keepsProvider pb (setupProviderAndContract toFixed6 ethereum r selected).
Proof.
  unfold setupProviderAndContract. destruct ethereum; cbn [negb keepsProvider];
    [| exact I].
  intros prov contractInstance. split; [reflexivity |].
  apply keeps_bind; [destruct (truthy selected); keeps |].
  intros _. apply keeps_fetchContractBalance.
Qed.

Lemma keeps_loadLoop c : forall remaining i loaded pb,
  keepsProvider pb (loadLoop c remaining i loaded).
Proof.
  induction remaining as [| n IH]; intros i loaded pb; cbn [loadLoop]; keeps.
  apply IH.
Qed.

Lemma keeps_loadItems r contractInstance pb :
  keepsProvider pb (loadItems r contractInstance).
Proof.
  unfold loadItems. destruct (orElse contractInstance (contract r)); keeps.
  apply keeps_loadLoop.
Qed.

Ltac keeps_handlers :=
  repeat first
    [ simple apply keeps_loadItems
    | simple apply keeps_fetchContractBalance
    | simple apply keeps_setupProviderAndContract
    | keeps_step ].

Lemma keeps_bindAccount r (accounts : list string) pb :
  keepsProvider pb
    match accounts with
    | first :: _ =>
        setupProviderAndContract toFixed6 ethereum r (Some first) ;;;
        do (setAccount (Some first))
    | [] => Ret tt
    end.
Proof.
  destruct accounts as [| first rest]; keeps_handlers.
Qed.

Lemma keeps_connectWallet r pb :
  keepsProvider pb (connectWallet toFixed6 ethereum r).
Proof.
  apply keeps_any. unfold connectWallet. destruct ethereum eqn:He; cbn [negb]; keeps.
  - destruct (negb (a =? libertyChainId)%string); keeps.
    destruct (hasCode e 4902); keeps.
  - rewrite <- He. apply keeps_bindAccount.
Qed.

Lemma keeps_init r pb : keepsProvider pb (init toFixed6 ethereum r).
Proof.
  apply keeps_any. unfold init. destruct ethereum eqn:He; cbn [negb]; keeps.
  rewrite <- He. apply keeps_bindAccount.
Qed.

Lemma keeps_listNewItem r pb : keepsProvider pb (listNewItem toFixed6 r).
Proof.
  apply keeps_any. unfold listNewItem.
  destruct (if truthy (account r) then contract r else None); [| keeps].
  destruct ((itemName r =? "")%string || (itemPrice r =? "")%string);
    keeps_handlers.
Qed.

Lemma keeps_buyItem r item itemPriceText pb :
  keepsProvider pb (buyItem toFixed6 r item itemPriceText).
Proof.
  apply keeps_any. unfold buyItem.
  destruct (if truthy (account r) then contract r else None); keeps_handlers.
Qed.

Lemma keeps_handleAccountsChanged r accounts pb :
  keepsProvider pb (handleAccountsChanged toFixed6 ethereum r accounts).
Proof.
  apply keeps_any. unfold handleAccountsChanged.
  destruct accounts as [[| first rest] |]; keeps_handlers.
Qed.

Lemma keeps_started r :
  Forall (keepsProvider false) (contractEffect toFixed6 r) /\
  Forall (keepsProvider false) (refreshCallback toFixed6 r) /\
  Forall (keepsProvider false) (pollCallback toFixed6 r).
Proof.
  unfold contractEffect, refreshCallback, pollCallback.
  repeat split; [destruct (contract r) |..];
    repeat constructor;
    apply keeps_loadItems || apply keeps_fetchContractBalance.
Qed.

(** One synchronous stretch of a handler keeps the invariant and the
    provider, and what it leaves suspended is safe to resume. *)
Lemma advance_inv (t : Task unit) : forall s,
  sessionInv (ui (machine s)) ->
  keepsProvider (bound (provider (ui (machine s)))) t ->
  sessionInv (ui (machine (fst (advance t s)))) /\
  (bound (provider (ui (machine s))) = true ->
   bound (provider (ui (machine (fst (advance t s))))) = true) /\
  pending (fst (advance t s)) = pending s /\
  match snd (advance t s) with
  | Some p =>
      pendingSafe (bound (provider (ui (machine (fst (advance t s)))))) p
  | None => True
  end.
Proof.
  induction t as [a | e | a k IH | k IH | R c k IH]; intros s Hs Ht;
    cbn [advance fst snd].
  - repeat split; assumption || exact (fun H => H).
  - repeat split; assumption || exact (fun H => H).
  - assert (Hstep :
      sessionInv (ui (machine (sysDo a s))) /\
      (bound (provider (ui (machine s))) = true ->
       bound (provider (ui (machine (sysDo a s)))) = true) /\
      pending (sysDo a s) = pending s /\
      keepsProvider (bound (provider (ui (machine (sysDo a s))))) k).
    { unfold sessionInv in *. cbn [keepsProvider] in Ht.
      destruct a as [v | [v |] | [v |] | | | | | | | |];
        cbn [sysDo onMachine machine act ui perform pending
             account provider contract bound] in *;
        try (repeat split; assumption || exact (fun H => H)).
      - contradiction.
      - destruct Ht as [Hpb Hk]. repeat split; auto.
      - repeat split; auto. discriminate. }
    destruct Hstep as (Hs' & Hp' & Hpend & Hk).
    destruct (IH _ Hs' Hk) as (H1 & H2 & H3 & H4).
    repeat split; [exact H1 | auto | congruence | exact H4].
  - apply (IH (fresh (machine s)) (onMachine allocate s) Hs (Ht _)).
  - repeat split; try assumption; try exact (fun H => H).
Qed.

Lemma pendingSafe_weaken pb pb' l :
  (pb = true -> pb' = true) ->
  Forall (pendingSafe pb) l -> Forall (pendingSafe pb') l.
Proof.
  intros Hle. apply Forall_impl. intros [R c k] H r.
  apply (keeps_weaken _ pb pb' Hle), H.
Qed.

Lemma Forall_replaceAt {A : Type} (P : A -> Prop) (x : option A) : forall l n,
  Forall P l -> match x with Some y => P y | None => True end ->
  Forall P (replaceAt n x l).
Proof.
  induction l as [| y l IH]; intros n Hl Hx; [destruct n; constructor |].
  inversion Hl as [| ? ? Hy Hl']; subst.
  destruct n as [| n]; cbn [replaceAt].
  - destruct x; [constructor |]; assumption.
  - constructor; [exact Hy | apply IH; assumption].
Qed.

Lemma spawn_inv s t :
  Inv s -> keepsProvider false t ->
  Inv (spawn s t) /\
  (bound (provider (ui (machine s))) = true ->
   bound (provider (ui (machine (spawn s t)))) = true).
Proof.
  intros [Hs Hp] Ht.
  destruct (advance_inv t s Hs (keeps_any _ _ Ht)) as (H1 & H2 & H3 & H4).
  unfold spawn. destruct (advance t s) as [s' [p |]]; cbn [fst snd] in *.
  - split; [| exact H2]. split; [exact H1 |].
    cbn [pending machine]. rewrite H3. apply Forall_app. split.
    + apply (pendingSafe_weaken _ _ _ H2 Hp).
    + constructor; [exact H4 | constructor].
  - split; [| exact H2]. split; [exact H1 |].
    rewrite H3. apply (pendingSafe_weaken _ _ _ H2 Hp).
Qed.

Lemma fold_spawn_inv ts : forall s,
  Forall (keepsProvider false) ts -> Inv s ->
  Inv (fold_left spawn ts s) /\
  (bound (provider (ui (machine s))) = true ->
   bound (provider (ui (machine (fold_left spawn ts s)))) = true).
Proof.
  induction ts as [| t ts IH]; intros s Hts Hs; cbn [fold_left].
  - split; [exact Hs | exact (fun H => H)].
  - inversion Hts as [| ? ? Ht Hts']; subst.
    destruct (spawn_inv s t Hs Ht) as [Hs' Hm].
    destruct (IH _ Hts' Hs') as [Hs'' Hm'].
    split; [exact Hs'' | auto].
Qed.

Lemma resume_inv n s : Inv s -> Inv (resume w n s).
Proof.
  intros [Hs Hp]. unfold resume.
  destruct (nth_error (pending s) n) as [[R c k] |] eqn:Hn; [| split; assumption].
  pose proof (proj1 (Forall_forall _ _) Hp _ (nth_error_In _ _ Hn)) as Hk.
  cbn [pendingSafe] in Hk.
  set (s0 := onMachine (record (EAwait c (w R (past (machine s)) c))) s).
  destruct (advance_inv (k (w R (past (machine s)) c)) s0 Hs (Hk _))
    as (H1 & H2 & H3 & H4).
  destruct (advance _ s0) as [s' p]; cbn [fst snd] in *.
  split; [exact H1 |]. cbn [pending machine]. rewrite H3.
  apply Forall_replaceAt.
  - apply (pendingSafe_weaken _ _ _ H2 Hp).
  - destruct p; [exact H4 | exact I].
Qed.

Lemma commit_inv old s : Inv s -> Inv (commit toFixed6 old s).
Proof.
  intros Hs. unfold commit.
  assert (H1 : Inv (if sameHandle (contract old) (contract (ui (machine s)))
                    then s
                    else fold_left spawn
                           (contractEffect toFixed6 (ui (machine s))) s)).
  { destruct (sameHandle _ _); [exact Hs |].
    apply fold_spawn_inv; [apply keeps_started | exact Hs]. }
  destruct (sameHandle (provider old) _); [exact H1 |].
  destruct H1 as [Ha Hb]. split; assumption.
Qed.

Lemma sysDo_inv a s :
  Inv s -> keepsProvider false (do a) -> Inv (sysDo a s).
Proof.
  intros Hs Ha.
  destruct (spawn_inv s (do a) Hs Ha) as [H _]. exact H.
Qed.

Lemma step_inv s i : Inv s -> Inv (step toFixed6 ethereum w s i).
Proof.
  intros Hs. unfold step. apply commit_inv.
  destruct i as [n | | v | v | | n | accounts | |].
  - apply resume_inv, Hs.
  - destruct (truthy _); [exact Hs |].
    apply spawn_inv; [exact Hs | apply keeps_connectWallet].
  - apply sysDo_inv; [exact Hs | exact I].
  - apply sysDo_inv; [exact Hs | exact I].
  - destruct (disabled _); [exact Hs |].
    apply spawn_inv; [exact Hs | apply keeps_listNewItem].
  - destruct (nth_error _ n) as [item |]; [| exact Hs].
    destruct (buyOffered _ item && negb (disabled _)); [| exact Hs].
    apply spawn_inv; [exact Hs | apply keeps_buyItem].
  - destruct (listener s) as [closure |]; [| exact Hs].
    apply spawn_inv; [exact Hs | apply keeps_handleAccountsChanged].
  - destruct (interval s) as [closure |]; [| exact Hs].
    apply fold_spawn_inv; [apply keeps_started | exact Hs].
  - destruct (timers s) as [| closure rest]; [exact Hs |].
    apply fold_spawn_inv; [apply keeps_started |].
    destruct Hs as [Ha Hb]. split; assumption.
Qed.

Lemma mount_inv : Inv (mount toFixed6 ethereum).
Proof.
  unfold mount.
  assert (H0 : Inv (mkSys (mkMachine initialState 0 []) [] None None [])).
  { split; [discriminate | constructor]. }
  destruct (spawn_inv _ (init toFixed6 ethereum initialState) H0
              (keeps_init _ _)) as [[Ha Hb] _].
  split; assumption.
Qed.

(** X19: along every interleaving from the mount on, every render in which
    the contract handle is bound has the provider bound too. *)
Lemma session_invariant inputs :
  sessionInv (ui (machine (exec toFixed6 ethereum w
                                (mount toFixed6 ethereum) inputs))).
Proof.
  assert (H : forall s, Inv s -> Inv (exec toFixed6 ethereum w s inputs)).
  { induction inputs as [| i rest IH]; intros s Hs; [exact Hs |].
    cbn [exec fold_left]. apply IH, step_inv, Hs. }
  apply (H _ mount_inv).
Qed.

End SessionInvariant.

(** ** The statements at sample inputs *)

Lemma loadItems_success_witness :
  existsb caught
    (trace (run sampleLedger (loadItems initialState (Some 1%nat)) startMachine))
    = false /\
  exists (n : Z) (raws : list RawItem) (loaded : list Item),
    trace (run sampleLedger (loadItems initialState (Some 1%nat)) startMachine) =
      EDo (setLoading true) :: EAwait (call_itemCount 1%nat) (Resolved n)
      :: readEvents 1%nat 1 raws
      ++ [EDo (setItems (rev loaded)); EDo (setLoading false)] /\
    length raws = Z.to_nat n /\
    Forall2 (fun raw item =>
               toItem raw = Resolved item /\
               Ethers.formatEther (raw_price raw) = Resolved (price item))
            raws loaded /\
    items (ui (final (run sampleLedger (loadItems initialState (Some 1%nat))
                          startMachine))) = rev loaded /\
    length (items (ui (final (run sampleLedger
                                (loadItems initialState (Some 1%nat))
                                startMachine)))) = Z.to_nat n /\
    map id (items (ui (final (run sampleLedger
                                (loadItems initialState (Some 1%nat))
                                startMachine)))) =
      rev (map raw_id raws) /\
    ((forall k raw, nth_error raws k = Some raw ->
                    raw_id raw = Z.of_nat (1 + k)) ->
     map id (items (ui (final (run sampleLedger
                                 (loadItems initialState (Some 1%nat))
                                 startMachine)))) =
       rev (map Z.of_nat (seq 1 (Z.to_nat n)))).
Proof.
  split; [vm_compute; reflexivity |].
  apply (loadItems_success sampleLedger initialState 1%nat startMachine).
  vm_compute. reflexivity.
Defined.

Lemma loadItems_failure_keeps_cache_witness :
  existsb readFailed
    (trace (run strangeLedger (loadItems initialState (Some 1%nat)) stockedMachine))
    = true /\
  items (ui (final (run strangeLedger (loadItems initialState (Some 1%nat))
                        stockedMachine))) = items (ui stockedMachine) /\
  loading (ui (final (run strangeLedger (loadItems initialState (Some 1%nat))
                          stockedMachine))) = false.
Proof.
  split; [vm_compute; reflexivity |].
  apply (loadItems_failure_keeps_cache strangeLedger initialState (Some 1%nat)
           stockedMachine).
  vm_compute. reflexivity.
Defined.

Lemma connectWallet_failure_atomic_witness :
  (existsb connectFailed
     (trace (run strangeLedger (connectWallet plainText true initialState)
                 stockedMachine)) = true \/
   existsb zeroAccounts
     (trace (run strangeLedger (connectWallet plainText true initialState)
                 stockedMachine)) = true) /\
  ui (final (run strangeLedger (connectWallet plainText true initialState)
                 stockedMachine)) = ui stockedMachine.
Proof.
  assert (H : existsb zeroAccounts
                (trace (run strangeLedger
                            (connectWallet plainText true initialState)
                            stockedMachine)) = true)
    by (vm_compute; reflexivity).
  split; [right; exact H |].
  apply (connectWallet_failure_atomic plainText true strangeLedger initialState
           stockedMachine).
  right. exact H.
Defined.

Lemma mutation_settled_refreshes_witness :
  truthy (account zeroPriceRender) = true /\
  contract zeroPriceRender = Some 1%nat /\
  provider zeroPriceRender = Some 0%nat /\
  accepted sampleLedger zeroPriceRender startMachine 1%nat ListItem 0 7%nat /\
  accepted sampleLedger zeroPriceRender startMachine 1%nat (BuyItem 2 "0.2")
           200000000000000000 8%nat /\
  existsb settled
    (trace (run sampleLedger (mutate plainText zeroPriceRender ListItem)
                startMachine)) = true /\
  existsb settled
    (trace (run sampleLedger (mutate plainText zeroPriceRender (BuyItem 2 "0.2"))
                startMachine)) = true /\
  (exists value tx m1,
     trace (run sampleLedger (mutate plainText zeroPriceRender ListItem)
                startMachine) =
       untilRefresh zeroPriceRender 1%nat ListItem value tx
       ++ trace (run sampleLedger (loadItems zeroPriceRender (Some 1%nat)) m1)
       ++ trace (run sampleLedger
                     (fetchContractBalance plainText zeroPriceRender None)
                     (final (run sampleLedger
                                 (loadItems zeroPriceRender (Some 1%nat)) m1)))
       ++ [EDo (alert "Item listed successfully!"); EDo (setLoading false)] /\
     past m1 =
       past startMachine ++ untilRefresh zeroPriceRender 1%nat ListItem value tx) /\
  (exists value tx m1,
     trace (run sampleLedger (mutate plainText zeroPriceRender (BuyItem 2 "0.2"))
                startMachine) =
       untilRefresh zeroPriceRender 1%nat (BuyItem 2 "0.2") value tx
       ++ trace (run sampleLedger (loadItems zeroPriceRender (Some 1%nat)) m1)
       ++ trace (run sampleLedger
                     (fetchContractBalance plainText zeroPriceRender None)
                     (final (run sampleLedger
                                 (loadItems zeroPriceRender (Some 1%nat)) m1)))
       ++ [EDo (alert "Purchase completed!"); EDo (setLoading false)] /\
     past m1 =
       past startMachine
       ++ untilRefresh zeroPriceRender 1%nat (BuyItem 2 "0.2") value tx).
Proof.
  assert (Hlist : accepted sampleLedger zeroPriceRender startMachine 1%nat
                           ListItem 0 7%nat)
    by (repeat split; vm_compute; reflexivity).
  assert (Hbuy : accepted sampleLedger zeroPriceRender startMachine 1%nat
                          (BuyItem 2 "0.2") 200000000000000000 8%nat)
    by (repeat split; vm_compute; reflexivity).
  destruct (mutation_settled_refreshes plainText sampleLedger zeroPriceRender
              startMachine ListItem 1%nat 0%nat eq_refl eq_refl eq_refl)
    as [Hreach1 Hshape1].
  destruct (mutation_settled_refreshes plainText sampleLedger zeroPriceRender
              startMachine (BuyItem 2 "0.2") 1%nat 0%nat eq_refl eq_refl eq_refl)
    as [Hreach2 Hshape2].
  split; [reflexivity |]. split; [reflexivity |]. split; [reflexivity |].
  split; [exact Hlist |]. split; [exact Hbuy |].
  split; [exact (Hreach1 _ _ Hlist) |]. split; [exact (Hreach2 _ _ Hbuy) |].
  split.
  - destruct (Hshape1 (Hreach1 _ _ Hlist))
      as (value & tx & m1 & _ & Htrace & Hpast & _).
    exists value, tx, m1. split; [exact Htrace | exact Hpast].
  - destruct (Hshape2 (Hreach2 _ _ Hbuy))
      as (value & tx & m1 & _ & Htrace & Hpast & _).
    exists value, tx, m1. split; [exact Htrace | exact Hpast].
Defined.


Lemma price_round_trip_witness :
  0 <= raw_price sampleRaw /\
  toItem sampleRaw = Resolved sampleItem /\
  truthy (account zeroPriceRender) = true /\
  contract zeroPriceRender = Some 1%nat /\
  Ethers.parseEther (price sampleItem) = Resolved (raw_price sampleRaw) /\
  exists ans rest,
    trace (run sampleLedger
               (buyItem plainText zeroPriceRender (id sampleItem) (price sampleItem))
               startMachine) =
      EDo (setLoading true)
      :: EAwait (call_buyItem 1%nat (id sampleItem) (raw_price sampleRaw)) ans
      :: rest.
Proof.
  split; [vm_compute; discriminate |].
  split; [vm_compute; reflexivity |].
  split; [reflexivity |]. split; [reflexivity |].
  apply (price_round_trip plainText sampleLedger zeroPriceRender startMachine
           1%nat sampleRaw sampleItem).
  - vm_compute. discriminate.
  - vm_compute. reflexivity.
  - reflexivity.
  - reflexivity.
Defined.

Lemma disconnect_keeps_provider_and_poll_witness :
  listener connectedSys = Some initialState /\
  interval connectedSys = Some connectedPolling /\
  provider connectedPolling = Some 0%nat /\
  provider (ui (machine connectedSys)) = Some 0%nat /\
  0 <= 1500000000000000000 /\
  (forall h, sampleLedger Z h (getBalance 0%nat contractAddress) =
             Resolved 1500000000000000000) /\
  account (ui (machine connectedSys)) = Some "0xa11ce" /\
  let s1 := step plainText true sampleLedger connectedSys
                 (AccountsChanged (Some [])) in
  let s2 := exec plainText true sampleLedger s1
                 [PollTick; Settle (length (pending s1))] in
  account (ui (machine s1)) = None /\
  contractBalance (ui (machine s1)) = "0.0" /\
  account (ui (machine s2)) = None /\
  contractBalance (ui (machine s2)) = "1.5".
Proof.
  assert (H1 : listener connectedSys = Some initialState)
    by (vm_compute; reflexivity).
  assert (H2 : interval connectedSys = Some connectedPolling)
    by (vm_compute; reflexivity).
  assert (H3 : provider connectedPolling = Some 0%nat)
    by (vm_compute; reflexivity).
  assert (H4 : provider (ui (machine connectedSys)) = Some 0%nat)
    by (vm_compute; reflexivity).
  assert (H5 : 0 <= 1500000000000000000) by lia.
  assert (H6 : forall h, sampleLedger Z h (getBalance 0%nat contractAddress) =
                         Resolved 1500000000000000000)
    by (intros h; reflexivity).
  repeat (split; [assumption |]).
  split; [vm_compute; reflexivity |].
  destruct (disconnect_keeps_provider_and_poll plainText true sampleLedger
              connectedSys initialState connectedPolling 0%nat
              1500000000000000000 H1 H2 H3 H4 H5 H6)
    as ((Ha & _ & _ & Hb) & _ & (Ha' & _ & text & Hf & Hb')).
  cbv zeta. split; [exact Ha |]. split; [exact Hb |]. split; [exact Ha' |].
  rewrite Hb'. assert (E : Ethers.formatEther 1500000000000000000 = Resolved "1.5")
    by (vm_compute; reflexivity).
  rewrite E in Hf. injection Hf as <-. reflexivity.
Defined.

(** ** What the handlers never do *)
Section Always.

Variable P : Event -> Prop.

Lemma always_run {A : Type} (w : World) (t : Task A) : forall m,
  always P t -> Forall P (trace (run w t m)).
Proof.
  induction t as [a | e | a k IH | k IH | R c k IH]; intros m Ht;
    cbn [run always] in *.
  - constructor.
  - constructor.
  - destruct Ht as [Ha Hk]. specialize (IH (act a m) Hk).
    destruct (run w k (act a m)) as [[o m'] tr]. constructor; assumption.
  - apply IH, Ht.
  - destruct (Ht (w R (past m) c)) as [Hc Hk].
    specialize (IH _ (record (EAwait c (w R (past m) c)) m) Hk).
    destruct (run w (k (w R (past m) c)) _) as [[o m'] tr].
    constructor; assumption.
Qed.

Lemma always_bind {A B : Type} (t : Task A) (f : A -> Task B) :
  always P t -> (forall a, always P (f a)) -> always P (bind t f).
Proof.
  induction t as [a | e | a k IH | k IH | R c k IH]; intros Ht Hf;
    cbn [bind always] in *.
  - apply Hf.
  - exact I.
  - split; [apply Ht | apply IH; [apply Ht | exact Hf]].
  - intros n. apply IH; [apply Ht | exact Hf].
  - intros r. split; [apply Ht | apply IH; [apply Ht | exact Hf]].
Qed.

Lemma always_try_catch {A : Type} (t : Task A) (h : Err -> Task A) :
  always P t -> (forall e, always P (h e)) -> always P (try_catch t h).
Proof.
  induction t as [a | e | a k IH | k IH | R c k IH]; intros Ht Hh;
    cbn [try_catch always] in *.
  - exact I.
  - apply Hh.
  - split; [apply Ht | apply IH; [apply Ht | exact Hh]].
  - intros n. apply IH; [apply Ht | exact Hh].
  - intros r. split; [apply Ht | apply IH; [apply Ht | exact Hh]].
Qed.

Lemma always_finally {A : Type} (t : Task A) (cleanup : Task unit) :
  always P t -> always P cleanup -> always P (finally t cleanup).
Proof.
  induction t as [a | e | a k IH | k IH | R c k IH]; intros Ht Hc;
    cbn [finally always] in *.
  - apply always_bind; [exact Hc | intros _; exact I].
  - apply always_bind; [exact Hc | intros _; exact I].
  - split; [apply Ht | apply IH; [apply Ht | exact Hc]].
  - intros n. apply IH; [apply Ht | exact Hc].
  - intros r. split; [apply Ht | apply IH; [apply Ht | exact Hc]].
Qed.

Lemma always_await {R : Type} (c : Call R) :
  (forall r, P (EAwait c r)) -> always P (await c).
Proof. intros H [v | e]; (split; [apply H | exact I]). Qed.

Lemma always_lift {A : Type} (x : Result A) : always P (lift x).
Proof. destruct x; exact I. Qed.

Lemma always_do a : P (EDo a) -> always P (do a).
Proof. intros H. split; [exact H | exact I]. Qed.

End Always.

Ltac always_step :=
  first
    [ exact I
    | reflexivity
    | simple apply always_bind
    | simple apply always_try_catch
    | simple apply always_finally
    | simple apply always_lift
    | simple apply always_await
    | simple apply always_do
    | match goal with |- forall _, _ => intro end
    | match goal with |- _ /\ _ => split end
    | progress cbn [always do] ].

Ltac always_tac := repeat always_step.

Section Frames.

Variable toFixed6 : string -> string.
Variable w : World.

Lemma always_loadLoop c : forall remaining i loaded,
  always (loadEvent c) (loadLoop c remaining i loaded).
Proof.
  induction remaining as [| n IH]; intros i loaded; cbn [loadLoop];
    always_tac.
  apply IH.
Qed.

Lemma always_loadItems r c :
  always (loadEvent c) (loadItems r (Some c)).
Proof.
  unfold loadItems. cbn [orElse]. always_tac. apply always_loadLoop.
Qed.

Lemma always_fetchContractBalance r prov :
  always balanceEvent (fetchContractBalance toFixed6 r prov).
Proof.
  unfold fetchContractBalance. destruct (orElse prov (provider r));
    always_tac.
Qed.

End Frames.

(** X1: whatever the ledger answers, a refresh of the listings on a contract
    only reads: its requests are the item count and the listings of that
    contract, it writes no cell but the loading flag and the listing cache,
    and it logs nothing but its own error. The account, the handles, the form
    fields and the balance are what they were. *)
Theorem loadItems_only_reads
  (w : World) (r : State) (c : Contract) (m : Machine) :
  Forall (loadEvent c) (trace (run w (loadItems r (Some c)) m)) /\
  account (ui (final (run w (loadItems r (Some c)) m))) = account (ui m) /\
  provider (ui (final (run w (loadItems r (Some c)) m))) = provider (ui m) /\
  contract (ui (final (run w (loadItems r (Some c)) m))) = contract (ui m) /\
  itemName (ui (final (run w (loadItems r (Some c)) m))) = itemName (ui m) /\
  itemPrice (ui (final (run w (loadItems r (Some c)) m))) = itemPrice (ui m) /\
  contractBalance (ui (final (run w (loadItems r (Some c)) m))) =
    contractBalance (ui m).
Proof.
  split; [apply always_run, always_loadItems |].
  destruct (run_loadItems w r c m) as [(n & raws & loaded & _ & _ & _ & Hui)
                                      | (e & tr & _ & Hui)];
    rewrite Hui; repeat split.
Qed.

(** X2: whenever the [catch] block of a refresh of the listings ran, for any
    cause (a rejected read, a count or an id that does not fit a number), the
    listing cache is what it was and the loading flag ends up false. *)
Theorem loadItems_caught_keeps_cache
  (w : World) (r : State) (contractInstance : option Contract) (m : Machine) :
  existsb caught (trace (run w (loadItems r contractInstance) m)) = true ->
  items (ui (final (run w (loadItems r contractInstance) m))) = items (ui m) /\
  loading (ui (final (run w (loadItems r contractInstance) m))) = false.
Proof.
  intros Hcaught.
  assert (Cases : (exists c, loadItems r contractInstance = loadItems r (Some c)) \/
                  loadItems r contractInstance = Ret tt).
  { unfold loadItems.
    destruct (orElse contractInstance (contract r)) as [c |];
      [left; exists c; reflexivity | right; reflexivity]. }
  destruct Cases as [(c & E) | E]; rewrite E in *; [| discriminate].
  destruct (run_loadItems w r c m) as [(n & raws & loaded & Htr & _ & _ & _)
                                      | (e & tr & _ & Hui)].
  - exfalso. rewrite Htr in Hcaught. cbn [existsb caught orb] in Hcaught.
    rewrite existsb_app, readEvents_no_catch in Hcaught. discriminate.
  - rewrite Hui. split; reflexivity.
Qed.

(** X3: when the ledger reports an item count of 2^53 or more in magnitude,
    the refresh reads no listing at all: the conversion of the count throws,
    the error is logged, the cache is kept and the loading flag lowered. *)
Theorem loadItems_count_overflow
  (w : World) (r : State) (c : Contract) (m : Machine) (n : Z) :
  w Z (past (act (setLoading true) m)) (call_itemCount c) = Resolved n ->
  2 ^ 53 <= Z.abs n ->
  trace (run w (loadItems r (Some c)) m) =
    [EDo (setLoading true); EAwait (call_itemCount c) (Resolved n);
     EDo (console_error "loadItems error:" (mkErr None "overflow"));
     EDo (setLoading false)] /\
  items (ui (final (run w (loadItems r (Some c)) m))) = items (ui m) /\
  loading (ui (final (run w (loadItems r (Some c)) m))) = false.
Proof.
  intros Hn Hbig. unfold loadItems. cbn [orElse].
  rewrite run_Do, run_finally, run_try_catch, run_bind, run_await, Hn.
  rewrite run_bind, run_lift.
  unfold Ethers.toNumber. destruct (Z.ltb_spec (Z.abs n) (2 ^ 53)); [lia |].
  repeat split.
Qed.

(** X4: a ledger tuple with a non-negative price converts to an item exactly
    when the magnitude of its id is below 2^53; the item then carries the
    tuple's id, seller, name and sold flag, and the price as decimal text. *)
Theorem toItem_converts_iff_id_fits (raw : RawItem) :
  0 <= raw_price raw ->
  ((exists item, toItem raw = Resolved item) <-> Z.abs (raw_id raw) < 2 ^ 53) /\
  (forall item, toItem raw = Resolved item ->
     id item = raw_id raw /\ seller item = raw_seller raw /\
     name item = raw_name raw /\ sold item = raw_sold raw /\
     Ethers.formatEther (raw_price raw) = Resolved (price item)).
Proof.
  intros Hpos.
  destruct (EthersFacts.parseEther_formatEther (raw_price raw) Hpos)
    as (text & Hf & _).
  unfold toItem, Ethers.toNumber. rewrite Hf.
  destruct (Z.ltb_spec (Z.abs (raw_id raw)) (2 ^ 53)) as [Hlt | Hge]; split.
  - split; [intros _; exact Hlt | intros _; eexists; reflexivity].
  - intros item E. injection E as <-. repeat split.
  - split; [intros [item E]; discriminate | lia].
  - intros item E. discriminate.
Qed.

(** X5: a refresh of the balance never throws and touches the balance cell
    only. With no provider, neither passed nor in its render, it sends no
    request. With one it reads the balance of the contract address: a
    non-negative amount is shown as the rendering of its decimal text, a
    rejected read is logged and leaves the balance as it was. *)
Theorem fetchContractBalance_contained
  (toFixed6 : string -> string) (w : World) (r : State)
  (prov : option Provider) (m : Machine) :
  let x := run w (fetchContractBalance toFixed6 r prov) m in
  outcome x = Resolved tt /\
  Forall balanceEvent (trace x) /\
  perform (setContractBalance (contractBalance (ui m))) (ui (final x)) = ui m /\
  match orElse prov (provider r) with
  | None => trace x = [] /\ ui (final x) = ui m
  | Some p =>
      match w Z (past m) (getBalance p contractAddress) with
      | Resolved balance =>
          if balance <? 0 then True
          else
            exists text,
              Ethers.formatEther balance = Resolved text /\
              contractBalance (ui (final x)) = toFixed6 text
      | Rejected e =>
          trace x =
            [EAwait (getBalance p contractAddress) (Rejected e);
             EDo (console_error "fetchContractBalance error:" e)] /\
          ui (final x) = ui m
      end
  end.
Proof.
  cbv zeta. split; [| split; [apply always_run, always_fetchContractBalance |]].
  - unfold fetchContractBalance. destruct (orElse prov (provider r)) as [p |];
      [| reflexivity].
    rewrite run_try_catch, run_bind, run_await.
    destruct (w Z (past m) (getBalance p contractAddress)) as [b | e];
      [| reflexivity].
    rewrite run_bind, run_lift.
    destruct (Ethers.formatEther b); reflexivity.
  - unfold fetchContractBalance. destruct (orElse prov (provider r)) as [p |].
    + rewrite run_try_catch, run_bind, run_await.
      destruct (w Z (past m) (getBalance p contractAddress)) as [b | e].
      * rewrite run_bind, run_lift. split.
        -- destruct (Ethers.formatEther b); destruct m as [[] ? ?]; reflexivity.
        -- destruct (Z.ltb_spec b 0) as [_ | Hpos]; [exact I |].
           destruct (EthersFacts.parseEther_formatEther b Hpos) as (text & Hf & _).
           exists text. rewrite Hf. split; reflexivity.
      * destruct m as [[] ? ?]. repeat split.
    + destruct m as [[] ? ?]. repeat split.
Qed.

(** Reads an equation between two states cell by cell. *)
Ltac cells H :=
  let go f := (let E := fresh "Cell" in
               pose proof (f_equal f H) as E;
               cbn [perform account provider contract items loading
                    itemName itemPrice contractBalance] in E) in
  go account; go provider; go contract; go items; go loading;
  go itemName; go itemPrice; go contractBalance.

Section MutationOutcomes.

Variable toFixed6 : string -> string.
Variable w : World.

Ltac settle_all :=
  repeat match goal with
         | |- context [match run w ?t ?mm with _ => _ end] =>
             destruct (run w t mm) as [[[? | ?] ?] ?]
         end.

Lemma Forall_not_existsb (P : Event -> Prop) (f : Event -> bool) tr :
  (forall e, P e -> f e = false) -> Forall P tr -> existsb f tr = false.
Proof.
  intros H HP. induction HP as [| e tr He _ IH]; [reflexivity |].
  cbn [existsb]. rewrite (H e He), IH. reflexivity.
Qed.

Lemma loadEvent_no_report c e : loadEvent c e -> failureReport e = false.
Proof.
  destruct e as [a | R q | R q r0]; [| reflexivity ..].
  destruct a; try reflexivity. cbn. intros ->. reflexivity.
Qed.

Lemma balanceEvent_no_report e : balanceEvent e -> failureReport e = false.
Proof.
  destruct e as [a | R q | R q r0]; [| reflexivity ..].
  destruct a; try reflexivity. cbn. intros ->. reflexivity.
Qed.

Lemma fetchContractBalance_cells r prov m :
  exists m' tr,
    run w (fetchContractBalance toFixed6 r prov) m = (Resolved tt, m', tr) /\
    Forall balanceEvent tr /\
    perform (setContractBalance (contractBalance (ui m))) (ui m') = ui m.
Proof.
  pose proof (always_run balanceEvent w _ m
                (always_fetchContractBalance toFixed6 r prov)) as Hall.
  unfold fetchContractBalance in *.
  destruct (orElse prov (provider r)) as [p |].
  - rewrite run_try_catch, run_bind, run_await in *.
    destruct (w Z (past m) (getBalance p contractAddress)) as [b | e].
    + rewrite run_bind, run_lift in *.
      destruct (Ethers.formatEther b); do 2 eexists;
        (split; [reflexivity | split; [exact Hall |]]);
        destruct m as [[] ? ?]; reflexivity.
    + do 2 eexists. split; [reflexivity | split; [exact Hall |]].
      destruct m as [[] ? ?]; reflexivity.
  - do 2 eexists. split; [reflexivity | split; [exact Hall |]].
    destruct m as [[] ? ?]; reflexivity.
Qed.

Lemma loadItems_cells r c m :
  exists u m' tr,
    run w (loadItems r (Some c)) m = (Resolved u, m', tr) /\
    Forall (loadEvent c) tr /\
    loading (ui m') = false /\
    perform (setLoading (loading (ui m)))
      (perform (setItems (items (ui m))) (ui m')) = ui m.
Proof.
  pose proof (always_run (loadEvent c) w _ m (always_loadItems r c)) as Hall.
  destruct (loadItems_head w r c m) as (u & m' & rest & Hrun).
  destruct (run_loadItems w r c m) as [(n & raws & loaded & _ & _ & _ & Hui)
                                      | (e & tr & _ & Hui)];
    rewrite Hrun in *; cbn [final trace fst snd] in *;
    exists u, m'; eexists; (split; [reflexivity |]);
    (split; [exact Hall |]); rewrite Hui;
    destruct m as [[] ? ?]; split; reflexivity.
Qed.

(** The refresh after a settlement ends with the success dialog, reports no
    failure, and leaves the session and the form fields alone. *)
Lemma run_refresh_cells r c m msg :
  exists m' tr,
    run w (loadItems r (Some c) ;;;
           fetchContractBalance toFixed6 r None ;;; do (alert msg)) m =
      (Resolved tt, m', tr ++ [EDo (alert msg)]) /\
    existsb failureReport tr = false /\
    loading (ui m') = false /\
    account (ui m') = account (ui m) /\
    provider (ui m') = provider (ui m) /\
    contract (ui m') = contract (ui m) /\
    itemName (ui m') = itemName (ui m) /\
    itemPrice (ui m') = itemPrice (ui m).
Proof.
  rewrite run_bind.
  destruct (loadItems_cells r c m) as (u & m1 & tr1 & Hload & H1 & Hl & Hc1).
  rewrite Hload, run_bind.
  destruct (fetchContractBalance_cells r None m1)
    as (m2 & tr2 & Hbal & H2 & Hc2).
  rewrite Hbal, run_do. exists (act (alert msg) m2), (tr1 ++ tr2).
  split; [rewrite <- app_assoc; reflexivity |].
  split.
  { rewrite existsb_app,
      (Forall_not_existsb _ _ _ (loadEvent_no_report c) H1),
      (Forall_not_existsb _ _ _ balanceEvent_no_report H2). reflexivity. }
  cbn [act ui perform].
  cells Hc1. cells Hc2. repeat split; congruence.
Qed.

End MutationOutcomes.

(** X6: without a session (no account, an empty account text, or no contract
    handle) a listing or a purchase only raises the dialog that asks to
    connect: no request goes out and no state cell changes, the loading flag
    included. *)
Theorem mutation_needs_session
  (toFixed6 : string -> string) (w : World) (r : State) (m : Machine)
  (op : Mutation) :
  truthy (account r) = false \/ contract r = None ->
  trace (run w (mutate toFixed6 r op) m) =
    [EDo (alert "Connect your wallet first")] /\
  ui (final (run w (mutate toFixed6 r op) m)) = ui m.
Proof.
  intros H.
  assert (E : (if truthy (account r) then contract r else None) = None).
  { destruct H as [-> | ->]; [reflexivity | destruct (truthy _); reflexivity]. }
  destruct op; unfold mutate, listNewItem, buyItem; rewrite E;
    split; reflexivity.
Qed.

(** X7: a listing or a purchase that enters its [try] block and does not
    reach settlement (the price text does not parse, the price of a listing
    is refused by the ABI coder, the submission is rejected, or the wait for
    settlement is rejected) reports the failure,
    reads neither the listings nor the balance, and leaves every state cell
    as it was except the loading flag, which ends up false: the cache is
    untouched and the form keeps what was typed. *)
Theorem mutation_unsettled_keeps_state
  (toFixed6 : string -> string) (w : World) (r : State) (m : Machine)
  (op : Mutation) (c : Contract) :
  truthy (account r) = true -> contract r = Some c -> ready r op = true ->
  existsb settled (trace (run w (mutate toFixed6 r op) m)) = false ->
  ui (final (run w (mutate toFixed6 r op) m)) = perform (setLoading false) (ui m) /\
  existsb refreshRequest (trace (run w (mutate toFixed6 r op) m)) = false /\
  existsb failureReport (trace (run w (mutate toFixed6 r op) m)) = true.
Proof.
  intros Ha Hc Hready.
  destruct op as [| item itemPriceText]; unfold mutate.
  - unfold listNewItem. rewrite Ha, Hc.
    cbn [ready] in Hready. apply negb_true_iff in Hready. rewrite Hready.
    rewrite run_finally, run_try_catch, run_Do, run_bind, run_lift.
    destruct (Ethers.parseEther (itemPrice r)) as [wei | e];
      [| intros _; repeat split].
    rewrite run_bind, run_lift.
    destruct (Ethers.encodeUint256 wei) as [wei' | e];
      [| intros _; repeat split].
    rewrite run_bind, run_await.
    set (m0 := act (setLoading true) m).
    destruct (w Tx (past m0) (call_listItem c (itemName r) wei)) as [tx | e];
      [| intros _; repeat split].
    rewrite run_bind, run_await.
    set (m1 := record (EAwait (call_listItem c (itemName r) wei) (Resolved tx)) m0).
    destruct (w unit (past m1) (tx_wait tx)) as [u | e];
      [| intros _; repeat split].
    rewrite !run_Do.
    destruct (run_refresh_cells toFixed6 w r c
                (act (setItemPrice "") (act (setItemName "")
                   (record (EAwait (tx_wait tx) (Resolved u)) m1)))
                "Item listed successfully!") as (m' & tr & Hrun & _).
    rewrite Hrun. discriminate.
  - unfold buyItem. rewrite Ha, Hc.
    rewrite run_finally, run_try_catch, run_Do, run_bind, run_lift.
    destruct (Ethers.parseEther itemPriceText) as [value | e];
      [| intros _; repeat split].
    rewrite run_bind, run_await.
    set (m0 := act (setLoading true) m).
    destruct (w Tx (past m0) (call_buyItem c item value)) as [tx | e];
      [| intros _; repeat split].
    rewrite run_bind, run_await.
    set (m1 := record (EAwait (call_buyItem c item value) (Resolved tx)) m0).
    destruct (w unit (past m1) (tx_wait tx)) as [u | e];
      [| intros _; repeat split].
    destruct (run_refresh_cells toFixed6 w r c
                (record (EAwait (tx_wait tx) (Resolved u)) m1)
                "Purchase completed!") as (m' & tr & Hrun & _).
    rewrite Hrun. discriminate.
Qed.

(** X8: a listing or a purchase whose transaction was settled always ends
    with its success dialog and the loading flag lowered, and reports no
    failure, also when the refresh that follows could not read the ledger. The
    session cells are what they were; a listing has emptied the two form
    fields, a purchase has left them alone. *)
Theorem mutation_settled_reports_success
  (toFixed6 : string -> string) (w : World) (r : State) (m : Machine)
  (op : Mutation) (c : Contract) :
  truthy (account r) = true -> contract r = Some c ->
  existsb settled (trace (run w (mutate toFixed6 r op) m)) = true ->
  (exists before,
     trace (run w (mutate toFixed6 r op) m) =
       before ++ [EDo (alert (successText op)); EDo (setLoading false)] /\
     existsb failureReport before = false) /\
  loading (ui (final (run w (mutate toFixed6 r op) m))) = false /\
  account (ui (final (run w (mutate toFixed6 r op) m))) = account (ui m) /\
  provider (ui (final (run w (mutate toFixed6 r op) m))) = provider (ui m) /\
  contract (ui (final (run w (mutate toFixed6 r op) m))) = contract (ui m) /\
  match op with
  | ListItem =>
      itemName (ui (final (run w (mutate toFixed6 r op) m))) = "" /\
      itemPrice (ui (final (run w (mutate toFixed6 r op) m))) = ""
  | BuyItem _ _ =>
      itemName (ui (final (run w (mutate toFixed6 r op) m))) = itemName (ui m) /\
      itemPrice (ui (final (run w (mutate toFixed6 r op) m))) = itemPrice (ui m)
  end.
Proof.
  intros Ha Hc.
  destruct op as [| item itemPriceText]; unfold mutate.
  - unfold listNewItem. rewrite Ha, Hc.
    destruct ((itemName r =? "")%string || (itemPrice r =? "")%string);
      [discriminate |].
    rewrite run_finally, run_try_catch, run_Do, run_bind, run_lift.
    destruct (Ethers.parseEther (itemPrice r)) as [wei | e]; [| discriminate].
    rewrite run_bind, run_lift.
    destruct (Ethers.encodeUint256 wei) as [wei' | e]; [| discriminate].
    rewrite run_bind, run_await.
    set (m0 := act (setLoading true) m).
    destruct (w Tx (past m0) (call_listItem c (itemName r) wei)) as [tx | e];
      [| discriminate].
    rewrite run_bind, run_await.
    set (m1 := record (EAwait (call_listItem c (itemName r) wei) (Resolved tx)) m0).
    destruct (w unit (past m1) (tx_wait tx)) as [u | e]; [| discriminate].
    rewrite !run_Do.
    destruct (run_refresh_cells toFixed6 w r c
                (act (setItemPrice "") (act (setItemName "")
                   (record (EAwait (tx_wait tx) (Resolved u)) m1)))
                "Item listed successfully!")
      as (m' & tr & Hrun & Hrep & Hl & H1 & H2 & H3 & H4 & H5).
    rewrite Hrun. intros _. cbn [run do act trace final fst snd ui perform
                                  loading account provider contract itemName
                                  itemPrice successText].
    split.
    { exists (EDo (setLoading true)
              :: EAwait (call_listItem c (itemName r) wei) (Resolved tx)
              :: EAwait (tx_wait tx) (Resolved u)
              :: EDo (setItemName "") :: EDo (setItemPrice "") :: tr).
      split; [cbn [app]; rewrite <- app_assoc; reflexivity | exact Hrep]. }
    rewrite H1, H2, H3, H4, H5. repeat split.
  - unfold buyItem. rewrite Ha, Hc.
    rewrite run_finally, run_try_catch, run_Do, run_bind, run_lift.
    destruct (Ethers.parseEther itemPriceText) as [value | e]; [| discriminate].
    rewrite run_bind, run_await.
    set (m0 := act (setLoading true) m).
    destruct (w Tx (past m0) (call_buyItem c item value)) as [tx | e];
      [| discriminate].
    rewrite run_bind, run_await.
    set (m1 := record (EAwait (call_buyItem c item value) (Resolved tx)) m0).
    destruct (w unit (past m1) (tx_wait tx)) as [u | e]; [| discriminate].
    destruct (run_refresh_cells toFixed6 w r c
                (record (EAwait (tx_wait tx) (Resolved u)) m1)
                "Purchase completed!")
      as (m' & tr & Hrun & Hrep & Hl & H1 & H2 & H3 & H4 & H5).
    rewrite Hrun. intros _. cbn [run do act trace final fst snd ui perform
                                  loading account provider contract itemName
                                  itemPrice successText].
    split.
    { exists (EDo (setLoading true)
              :: EAwait (call_buyItem c item value) (Resolved tx)
              :: EAwait (tx_wait tx) (Resolved u) :: tr).
      split; [cbn [app]; rewrite <- app_assoc; reflexivity | exact Hrep]. }
    rewrite H1, H2, H3, H4, H5. repeat split.
Qed.

(** ** Binding a session *)
Section Binding.

Variable toFixed6 : string -> string.
Variable w : World.

Lemma always_weaken {A : Type} (P Q : Event -> Prop) (t : Task A) :
  (forall e, P e -> Q e) -> always P t -> always Q t.
Proof.
  intros HPQ. induction t as [a | e | a k IH | k IH | R c k IH];
    cbn [always]; try exact (fun H => H).
  - intros [Ha Hk]. split; [apply HPQ, Ha | apply IH, Hk].
  - intros H n. apply IH, H.
  - intros H r. destruct (H r) as [Hc Hk]. split; [apply HPQ, Hc | apply IH, Hk].
Qed.

Lemma balance_is_passive e : balanceEvent e -> passiveEvent e.
Proof.
  destruct e as [a | R q | R q r0]; [destruct a | | destruct q];
    cbn; trivial.
Qed.

Lemma always_setup (P : Event -> Prop) ethereum r selected :
  (forall e, passiveEvent e -> P e) ->
  always P (setupProviderAndContract toFixed6 ethereum r selected).
Proof.
  intros HP. apply (always_weaken passiveEvent P _ HP).
  unfold setupProviderAndContract. destruct ethereum; cbn [negb]; [| exact I].
  intros prov. split; [exact I |]. intros contractInstance. split; [exact I |].
  apply always_bind.
  - destruct (truthy selected); always_tac.
  - intros _. apply (always_weaken balanceEvent passiveEvent _ balance_is_passive).
    apply always_fetchContractBalance.
Qed.

(** What binding does to the state: two fresh handles, the account when one
    is given, one balance read, nothing else. *)
Lemma setup_cells r selected m :
  exists m' tr,
    run w (setupProviderAndContract toFixed6 true r selected) m =
      (Resolved tt, m', tr) /\
    forallb bindingEvent tr = true /\
    provider (ui m') = Some (fresh m) /\
    contract (ui m') = Some (S (fresh m)) /\
    account (ui m') = (if truthy selected then selected else account (ui m)) /\
    items (ui m') = items (ui m) /\
    loading (ui m') = loading (ui m) /\
    itemName (ui m') = itemName (ui m) /\
    itemPrice (ui m') = itemPrice (ui m).
Proof.
  destruct (run_setupProviderAndContract toFixed6 w r selected m)
    as (m0 & tr0 & Hrun0 & Hb).
  exists m0, tr0. split; [exact Hrun0 |]. split; [exact Hb |].
  revert Hrun0. unfold setupProviderAndContract. cbn [negb run]. rewrite run_bind.
  destruct (truthy selected); cbn [run do];
    match goal with
    | |- context [run w (fetchContractBalance toFixed6 r ?pv) ?mm] =>
        destruct (fetchContractBalance_cells toFixed6 w r pv mm)
          as (m2 & tr2 & Hbal & _ & Hc); rewrite Hbal
    end;
    intros E; injection E as <- _; cells Hc;
    cbn [act allocate ui fresh perform account provider contract items loading
         itemName itemPrice contractBalance] in *;
    repeat split; assumption.
Qed.

Lemma run_authorize_cells r m :
  match w _ (past m) eth_requestAccounts with
  | Resolved (first :: rest) =>
      exists m' tr,
        run w (authorize toFixed6 r) m =
          (Resolved tt, m',
           EAwait eth_requestAccounts (Resolved (first :: rest)) :: tr) /\
        forallb bindingEvent tr = true /\
        account (ui m') = Some first /\
        provider (ui m') = Some (fresh m) /\
        contract (ui m') = Some (S (fresh m)) /\
        items (ui m') = items (ui m) /\
        loading (ui m') = loading (ui m)
  | other =>
      exists o m',
        run w (authorize toFixed6 r) m =
          (o, m', [EAwait eth_requestAccounts other]) /\
        ui m' = ui m
  end.
Proof.
  unfold authorize. rewrite run_bind, run_await.
  destruct (w (list string) (past m) eth_requestAccounts) as [[| first rest] | e].
  - do 2 eexists. split; reflexivity.
  - rewrite run_bind.
    destruct (setup_cells r (Some first)
                (record (EAwait eth_requestAccounts (Resolved (first :: rest))) m))
      as (m' & tr & Hrun & Hb & Hp & Hc & _ & Hi & Hl & _).
    rewrite Hrun, run_do. do 2 eexists. split; [reflexivity |].
    cbn [act ui perform account provider contract items loading record fresh] in *.
    rewrite forallb_app, Hb. repeat split; assumption.
  - do 2 eexists. split; reflexivity.
Qed.

End Binding.

(** X9: whenever the wallet answers the authorization request of
    [connectWallet] with at least one account, the session is bound to the
    first of them with two fresh handles, no failure is reported (also when
    the balance read of the binding is rejected), and neither the listing
    cache nor the loading flag is written: the listings are loaded by the
    effect on the contract handle, not by [connectWallet]. *)
Theorem connectWallet_binds_first_account
  (toFixed6 : string -> string) (ethereum : bool) (w : World)
  (r : State) (m : Machine) (first : string) :
  firstGranted (trace (run w (connectWallet toFixed6 ethereum r) m)) = Some first ->
  account (ui (final (run w (connectWallet toFixed6 ethereum r) m))) = Some first /\
  provider (ui (final (run w (connectWallet toFixed6 ethereum r) m))) =
    Some (fresh m) /\
  contract (ui (final (run w (connectWallet toFixed6 ethereum r) m))) =
    Some (S (fresh m)) /\
  items (ui (final (run w (connectWallet toFixed6 ethereum r) m))) = items (ui m) /\
  loading (ui (final (run w (connectWallet toFixed6 ethereum r) m))) =
    loading (ui m) /\
  existsb connectFailed (trace (run w (connectWallet toFixed6 ethereum r) m)) =
    false.
Proof.
  destruct ethereum; [| discriminate].
  rewrite connectWallet_unfold, run_try_catch, run_bind, run_await.
  assert (Tail : forall m1 pre,
    ui m1 = ui m -> fresh m1 = fresh m ->
    (forall tl, firstGranted (pre ++ tl) = firstGranted tl) ->
    existsb connectFailed pre = false ->
    forall o m' tr,
      run w (authorize toFixed6 r) m1 = (o, m', tr) ->
      let x := match o with
               | Resolved a => (Resolved a, m', pre ++ tr)
               | Rejected e =>
                   match run w (Do (console_error "connectWallet error:" e)
                                   (do (alert "Connection rejected or failed."))) m'
                   with (o', m2, tr2) => (o', m2, (pre ++ tr) ++ tr2) end
               end in
      firstGranted (trace x) = Some first ->
      account (ui (final x)) = Some first /\
      provider (ui (final x)) = Some (fresh m) /\
      contract (ui (final x)) = Some (S (fresh m)) /\
      items (ui (final x)) = items (ui m) /\
      loading (ui (final x)) = loading (ui m) /\
      existsb connectFailed (trace x) = false).
  { intros m1 pre Hui Hfresh Hpre Hf o m' tr Hrun.
    pose proof (run_authorize_cells toFixed6 w r m1) as Hcells.
    destruct (w (list string) (past m1) eth_requestAccounts)
      as [[| a rest] | e].
    - destruct Hcells as (o' & m'' & Hrun' & _).
      rewrite Hrun in Hrun'. injection Hrun' as -> -> ->.
      cbv zeta. destruct o'; cbn [trace snd run do];
        rewrite <- ?app_assoc, ?Hpre; cbn [firstGranted grantedBy hd_error app];
        discriminate.
    - destruct Hcells as (m'' & tr' & Hrun' & Hb & Hacc & Hp & Hc & Hi & Hl).
      rewrite Hrun in Hrun'. injection Hrun' as -> -> ->.
      cbv zeta. cbn [trace final fst snd]. rewrite Hpre.
      cbn [firstGranted grantedBy hd_error]. intros E. injection E as <-.
      rewrite Hacc, Hp, Hc, Hi, Hl, Hfresh, Hui, existsb_app, Hf.
      cbn [existsb connectFailed orb].
      rewrite (existsb_binding _ tr' binding_not_failed Hb).
      repeat split.
    - destruct Hcells as (o' & m'' & Hrun' & _).
      rewrite Hrun in Hrun'. injection Hrun' as -> -> ->.
      cbv zeta. destruct o'; cbn [trace snd run do];
        rewrite <- ?app_assoc, ?Hpre; cbn [firstGranted grantedBy hd_error app];
        discriminate. }
  destruct (w string (past m) eth_chainId) as [cid | e]; cbv iota;
    [| discriminate].
  rewrite run_bind.
  destruct (cid =? libertyChainId)%string; cbn [negb].
  - cbn [run app].
    destruct (run w (authorize toFixed6 r) _) as [[o m'] tr] eqn:Hrun.
    apply (Tail (record (EAwait eth_chainId (Resolved cid)) m)
                [EAwait eth_chainId (Resolved cid)] eq_refl eq_refl
                (fun _ => eq_refl) eq_refl _ _ _ Hrun).
  - rewrite run_try_catch, run_await.
    set (m1 := record (EAwait eth_chainId (Resolved cid)) m).
    destruct (w unit (past m1) (wallet_switchEthereumChain libertyChainId))
      as [u | e]; cbv iota.
    + destruct (run w (authorize toFixed6 r) _) as [[o m'] tr] eqn:Hrun.
      apply (Tail (record (EAwait (wallet_switchEthereumChain libertyChainId)
                                  (Resolved u)) m1)
                  [EAwait eth_chainId (Resolved cid);
                   EAwait (wallet_switchEthereumChain libertyChainId) (Resolved u)]
                  eq_refl eq_refl (fun _ => eq_refl) eq_refl _ _ _ Hrun).
    + destruct (hasCode e 4902); [| discriminate].
      rewrite run_await.
      set (m2 := record (EAwait (wallet_switchEthereumChain libertyChainId)
                                (Rejected e)) m1).
      destruct (w unit (past m2) (wallet_addEthereumChain libertyParams))
        as [u | e']; cbv iota; [| discriminate].
      destruct (run w (authorize toFixed6 r) _) as [[o m'] tr] eqn:Hrun.
      apply (Tail (record (EAwait (wallet_addEthereumChain libertyParams)
                                  (Resolved u)) m2)
                  [EAwait eth_chainId (Resolved cid);
                   EAwait (wallet_switchEthereumChain libertyChainId) (Rejected e);
                   EAwait (wallet_addEthereumChain libertyParams) (Resolved u)]
                  eq_refl eq_refl (fun _ => eq_refl) eq_refl _ _ _ Hrun).
Qed.

(** X10: the initialisation on mount is passive whatever the wallet answers:
    its only requests are the non-prompting account read and the balance
    read of the binding; it never asks for authorization, never reads or
    switches the network, never raises a dialog, and writes no cell but the
    handles, the account and the balance. *)
Theorem init_never_prompts
  (toFixed6 : string -> string) (ethereum : bool) (w : World)
  (r : State) (m : Machine) :
  Forall passiveEvent (trace (run w (init toFixed6 ethereum r) m)).
Proof.
  apply always_run. unfold init. destruct ethereum; cbn [negb]; [| exact I].
  always_tac.
  destruct a as [| first rest]; [exact I |].
  apply always_bind; [apply always_setup; exact (fun e H => H) | always_tac].
Qed.

(** X11: with a wallet injected, the initialisation never throws. When the
    wallet already authorizes an account it binds the session to the first
    one with two fresh handles and keeps the listing cache; when the account
    read is rejected it logs the error, and then, or when no account is
    authorized, every state cell is what it was. *)
Theorem init_binds_authorized_account
  (toFixed6 : string -> string) (w : World) (r : State) (m : Machine) :
  let x := run w (init toFixed6 true r) m in
  outcome x = Resolved tt /\
  match w _ (past m) eth_accounts with
  | Resolved (first :: _) =>
      account (ui (final x)) = Some first /\
      provider (ui (final x)) = Some (fresh m) /\
      contract (ui (final x)) = Some (S (fresh m)) /\
      items (ui (final x)) = items (ui m) /\
      loading (ui (final x)) = loading (ui m)
  | Resolved [] =>
      trace x = [EAwait eth_accounts (Resolved [])] /\ ui (final x) = ui m
  | Rejected e =>
      trace x = [EAwait eth_accounts (Rejected e);
                 EDo (console_error "init eth_accounts error:" e)] /\
      ui (final x) = ui m
  end.
Proof.
  cbv zeta. unfold init. cbn [negb].
  rewrite run_try_catch, run_bind, run_await.
  destruct (w (list string) (past m) eth_accounts) as [[| first rest] | e].
  - repeat split.
  - rewrite run_bind.
    destruct (setup_cells toFixed6 w r (Some first)
                (record (EAwait eth_accounts (Resolved (first :: rest))) m))
      as (m' & tr & Hrun & _ & Hp & Hc & _ & Hi & Hl & _).
    rewrite Hrun, run_do.
    cbn [outcome final fst snd act ui perform account provider contract items
         loading record fresh] in *.
    repeat split; assumption.
  - repeat split.
Qed.

(** X12: when [accountsChanged] delivers accounts, the listener binds the
    session to the first one with two fresh handles, reads the balance once
    and schedules the deferred refresh, 500 ms later, with the closures of
    its own render. It reads no listing and writes neither the cache nor the
    loading flag nor the form: the listings of the previous account stay in
    the cache until the effect on the contract handle reloads them. *)
Theorem accountsChanged_rebinds
  (toFixed6 : string -> string) (w : World) (r : State) (m : Machine)
  (first : string) (rest : list string) :
  let x := run w (handleAccountsChanged toFixed6 true r (Some (first :: rest))) m in
  (exists before,
     trace x =
       before ++ [EDo (setAccount (Some first)); EDo (setTimeout_refresh r 500)] /\
     forallb bindingEvent before = true) /\
  account (ui (final x)) = Some first /\
  provider (ui (final x)) = Some (fresh m) /\
  contract (ui (final x)) = Some (S (fresh m)) /\
  items (ui (final x)) = items (ui m) /\
  loading (ui (final x)) = loading (ui m) /\
  itemName (ui (final x)) = itemName (ui m) /\
  itemPrice (ui (final x)) = itemPrice (ui m).
Proof.
  cbv zeta. unfold handleAccountsChanged. rewrite run_bind.
  destruct (setup_cells toFixed6 w r (Some first) m)
    as (m' & tr & Hrun & Hb & Hp & Hc & _ & Hi & Hl & Hn & Hpr).
  rewrite Hrun.
  cbn [run do trace final fst snd act ui perform account provider contract
       items loading itemName itemPrice] in *.
  split; [exists tr; split; [reflexivity | exact Hb] |].
  repeat split; assumption.
Qed.

(** ** The interval and the deferred refresh along every interleaving *)
Section Timers.

Variable toFixed6 : string -> string.
Variable ethereum : bool.
Variable w : World.

Lemma sameHandle_eq (a b : option nat) : sameHandle a b = true -> a = b.
Proof.
  destruct a as [x |], b as [y |]; cbn; try discriminate; [| reflexivity].
  intros H. apply Nat.eqb_eq in H. congruence.
Qed.

Lemma sysDo_fields a s :
  listener (sysDo a s) = listener s /\ interval (sysDo a s) = interval s /\
  pending (sysDo a s) = pending s.
Proof. destruct a; repeat split. Qed.

Lemma advance_fields (t : Task unit) : forall s,
  listener (fst (advance t s)) = listener s /\
  interval (fst (advance t s)) = interval s /\
  pending (fst (advance t s)) = pending s.
Proof.
  induction t as [a | e | a k IH | k IH | R c k IH]; intros s;
    cbn [advance fst]; try (repeat split; reflexivity).
  - destruct (IH (sysDo a s)) as (H1 & H2 & H3).
    destruct (sysDo_fields a s) as (G1 & G2 & G3).
    repeat split; congruence.
  - apply (IH (fresh (machine s)) (onMachine allocate s)).
Qed.

Lemma spawn_fields s t :
  listener (spawn s t) = listener s /\ interval (spawn s t) = interval s.
Proof.
  unfold spawn. destruct (advance_fields t s) as (H1 & H2 & _).
  destruct (advance t s) as [s' [p |]]; cbn [fst] in *; split; assumption.
Qed.

Lemma fold_spawn_fields ts : forall s,
  listener (fold_left spawn ts s) = listener s /\
  interval (fold_left spawn ts s) = interval s.
Proof.
  induction ts as [| t ts IH]; intros s; cbn [fold_left]; [split; reflexivity |].
  destruct (IH (spawn s t)) as [H1 H2]. destruct (spawn_fields s t) as [G1 G2].
  split; congruence.
Qed.

Lemma resume_fields n s :
  listener (resume w n s) = listener s /\ interval (resume w n s) = interval s.
Proof.
  unfold resume. destruct (nth_error (pending s) n) as [[R c k] |];
    [| split; reflexivity].
  match goal with
  | |- context [advance ?t ?s0] =>
      destruct (advance_fields t s0) as (H1 & H2 & _);
      destruct (advance t s0) as [s' p]
  end.
  cbn [fst listener interval onMachine] in *. split; assumption.
Qed.

(** What a user input or an external event does before the commit leaves
    the listener and the interval as they are. *)
Lemma input_fields s i :
  let s' :=
    match i with
    | Settle n => resume w n s
    | ClickConnect =>
        if truthy (account (ui (machine s))) then s
        else spawn s (connectWallet toFixed6 ethereum (ui (machine s)))
    | TypeItemName v => sysDo (setItemName v) s
    | TypeItemPrice v => sysDo (setItemPrice v) s
    | SubmitList =>
        if disabled (ui (machine s)) then s
        else spawn s (listNewItem toFixed6 (ui (machine s)))
    | ClickBuy n =>
        match nth_error (items (ui (machine s))) n with
        | Some item =>
            if buyOffered (ui (machine s)) item && negb (disabled (ui (machine s)))
            then spawn s (buyItem toFixed6 (ui (machine s)) (id item) (price item))
            else s
        | None => s
        end
    | AccountsChanged accounts =>
        match listener s with
        | Some closure =>
            spawn s (handleAccountsChanged toFixed6 ethereum closure accounts)
        | None => s
        end
    | PollTick =>
        match interval s with
        | Some closure => fold_left spawn (pollCallback toFixed6 closure) s
        | None => s
        end
    | TimerFire =>
        match timers s with
        | closure :: rest =>
            fold_left spawn (refreshCallback toFixed6 closure)
              (mkSys (machine s) (pending s) (listener s) (interval s) rest)
        | [] => s
        end
    end in
  step toFixed6 ethereum w s i = commit toFixed6 (ui (machine s)) s' /\
  listener s' = listener s /\ interval s' = interval s.
Proof.
  cbv zeta. split; [destruct i; reflexivity |].
  destruct i as [n | | v | v | | n | accounts | |].
  - apply resume_fields.
  - destruct (truthy _); [split; reflexivity | apply spawn_fields].
  - destruct (sysDo_fields (setItemName v) s) as (H1 & H2 & _). split; assumption.
  - destruct (sysDo_fields (setItemPrice v) s) as (H1 & H2 & _). split; assumption.
  - destruct (disabled _); [split; reflexivity | apply spawn_fields].
  - destruct (nth_error _ n) as [item |]; [| split; reflexivity].
    destruct (buyOffered _ item && negb (disabled _));
      [apply spawn_fields | split; reflexivity].
  - destruct (listener s) as [closure |] eqn:E; [| split; congruence].
    destruct (spawn_fields s (handleAccountsChanged toFixed6 ethereum closure
                                accounts)) as [H1 H2].
    split; congruence.
  - destruct (interval s) as [closure |] eqn:E; [| split; congruence].
    destruct (fold_spawn_fields (pollCallback toFixed6 closure) s) as [H1 H2].
    split; congruence.
  - destruct (timers s) as [| closure rest]; [split; reflexivity |].
    apply (fold_spawn_fields _ (mkSys _ _ _ _ rest)).
Qed.

Lemma advance_provider (t : Task unit) : forall s,
  always noProviderWrite t ->
  provider (ui (machine (fst (advance t s)))) = provider (ui (machine s)).
Proof.
  induction t as [a | e | a k IH | k IH | R c k IH]; intros s Ht;
    cbn [advance fst always] in *; try reflexivity.
  - destruct Ht as [Ha Hk]. rewrite (IH _ Hk).
    destruct a; try reflexivity. contradiction.
  - apply (IH (fresh (machine s)) (onMachine allocate s) (Ht _)).
Qed.

Lemma contractEffect_no_provider_write r :
  Forall (always noProviderWrite) (contractEffect toFixed6 r).
Proof.
  unfold contractEffect. destruct (contract r) as [c |]; [| constructor].
  constructor; [| constructor; [| constructor]].
  - apply (always_weaken (loadEvent c)); [| apply always_loadItems].
    intros [a | R q | R q ans]; try exact (fun _ => I).
    destruct a; cbn; trivial.
  - apply (always_weaken balanceEvent); [| apply always_fetchContractBalance].
    intros [a | R q | R q ans]; try exact (fun _ => I).
    destruct a; cbn; trivial.
Qed.

Lemma fold_spawn_provider ts : forall s,
  Forall (always noProviderWrite) ts ->
  provider (ui (machine (fold_left spawn ts s))) = provider (ui (machine s)).
Proof.
  induction ts as [| t ts IH]; intros s Hts; cbn [fold_left]; [reflexivity |].
  inversion Hts as [| ? ? Ht Hts']; subst. rewrite (IH _ Hts').
  unfold spawn. pose proof (advance_provider t s Ht) as H.
  destruct (advance t s) as [s' [p |]]; exact H.
Qed.

Lemma commit_poll old s :
  (exists closure, interval s = Some closure /\ provider closure = provider old) ->
  PollInv (commit toFixed6 old s).
Proof.
  intros (closure & Hint & Hprov). unfold commit, PollInv.
  set (s1 := if sameHandle (contract old) (contract (ui (machine s))) then s
             else fold_left spawn (contractEffect toFixed6 (ui (machine s))) s).
  assert (H1 : interval s1 = interval s /\
               provider (ui (machine s1)) = provider (ui (machine s))).
  { subst s1. destruct (sameHandle (contract old) _); [split; reflexivity |].
    split; [apply fold_spawn_fields |].
    apply fold_spawn_provider, contractEffect_no_provider_write. }
  destruct H1 as [Hi Hp].
  destruct (sameHandle (provider old) (provider (ui (machine s)))) eqn:Hsame.
  - apply sameHandle_eq in Hsame. exists closure. split; congruence.
  - exists (ui (machine s)). split; [reflexivity | symmetry; exact Hp].
Qed.

Lemma step_poll s i : PollInv s -> PollInv (step toFixed6 ethereum w s i).
Proof.
  intros (closure & Hint & Hprov).
  destruct (input_fields s i) as (Hstep & _ & Hi). cbv zeta in *.
  rewrite Hstep. apply commit_poll. exists closure. split; congruence.
Qed.

Lemma mount_poll : PollInv (mount toFixed6 ethereum).
Proof.
  exists initialState. split; [reflexivity |].
  unfold mount, init. destruct ethereum; reflexivity.
Qed.

End Timers.

(** X13: along every interleaving from the mount on, the interval is armed
    and the closure it calls holds the provider that is bound at that moment:
    the poll never reads the balance through a provider that was
    replaced. *)
Theorem poll_follows_provider
  (toFixed6 : string -> string) (ethereum : bool) (w : World)
  (inputs : list Input) :
  exists closure,
    interval (exec toFixed6 ethereum w (mount toFixed6 ethereum) inputs) =
      Some closure /\
    provider closure =
      provider (ui (machine (exec toFixed6 ethereum w
                                  (mount toFixed6 ethereum) inputs))).
Proof.
  assert (H : forall s, PollInv s -> PollInv (exec toFixed6 ethereum w s inputs)).
  { induction inputs as [| i rest IH]; intros s Hs; [exact Hs |].
    cbn [exec fold_left]. apply IH, step_poll, Hs. }
  apply (H _ (mount_poll toFixed6 ethereum)).
Qed.

Section DeferredRefresh.

Variable toFixed6 : string -> string.
Variable ethereum : bool.
Variable w : World.

Lemma passive_fromFirst e : passiveEvent e -> schedulesFrom initialState e.
Proof. destruct e as [a | R q | R q ans]; [destruct a | |]; cbn; tauto. Qed.

Lemma load_fromFirst c e : loadEvent c e -> schedulesFrom initialState e.
Proof. destruct e as [a | R q | R q ans]; [destruct a | |]; cbn; tauto. Qed.

Lemma balance_fromFirst e : balanceEvent e -> schedulesFrom initialState e.
Proof. destruct e as [a | R q | R q ans]; [destruct a | |]; cbn; tauto. Qed.

Lemma fromFirst_fetch r prov :
  always (schedulesFrom initialState) (fetchContractBalance toFixed6 r prov).
Proof.
  apply (always_weaken balanceEvent _ _ balance_fromFirst),
        always_fetchContractBalance.
Qed.

Lemma fromFirst_loadItems r contractInstance :
  always (schedulesFrom initialState) (loadItems r contractInstance).
Proof.
  assert (Cases : (exists c, loadItems r contractInstance = loadItems r (Some c)) \/
                  loadItems r contractInstance = Ret tt).
  { unfold loadItems.
    destruct (orElse contractInstance (contract r)) as [c |];
      [left; exists c; reflexivity | right; reflexivity]. }
  destruct Cases as [(c & ->) | ->]; [| exact I].
  apply (always_weaken (loadEvent c) _ _ (load_fromFirst c)), always_loadItems.
Qed.

Lemma fromFirst_setup r selected :
  always (schedulesFrom initialState) (setupProviderAndContract toFixed6 ethereum r selected).
Proof. apply always_setup, passive_fromFirst. Qed.

Ltac from_first :=
  repeat first
    [ simple apply fromFirst_loadItems
    | simple apply fromFirst_fetch
    | simple apply fromFirst_setup
    | always_step ].

Lemma fromFirst_bindAccount r (accounts : list string) :
  always (schedulesFrom initialState)
    match accounts with
    | first :: _ =>
        setupProviderAndContract toFixed6 ethereum r (Some first) ;;;
        do (setAccount (Some first))
    | [] => Ret tt
    end.
Proof. destruct accounts as [| first rest]; from_first. Qed.

Lemma fromFirst_connectWallet r :
  always (schedulesFrom initialState) (connectWallet toFixed6 ethereum r).
Proof.
  unfold connectWallet. destruct ethereum eqn:He; cbn [negb]; from_first.
  - destruct (negb (a =? libertyChainId)%string); from_first.
    destruct (hasCode e 4902); from_first.
  - rewrite <- He. apply fromFirst_bindAccount.
Qed.

Lemma fromFirst_init r : always (schedulesFrom initialState) (init toFixed6 ethereum r).
Proof.
  unfold init. destruct ethereum eqn:He; cbn [negb]; from_first.
  rewrite <- He. apply fromFirst_bindAccount.
Qed.

Lemma fromFirst_listNewItem r : always (schedulesFrom initialState) (listNewItem toFixed6 r).
Proof.
  unfold listNewItem.
  destruct (if truthy (account r) then contract r else None); [| from_first].
  destruct ((itemName r =? "")%string || (itemPrice r =? "")%string);
    from_first.
Qed.

Lemma fromFirst_buyItem r item itemPriceText :
  always (schedulesFrom initialState) (buyItem toFixed6 r item itemPriceText).
Proof.
  unfold buyItem.
  destruct (if truthy (account r) then contract r else None); from_first.
Qed.

(** The listener schedules with its own render, which is the first one. *)
Lemma fromFirst_handleAccountsChanged accounts :
  always (schedulesFrom initialState)
    (handleAccountsChanged toFixed6 ethereum initialState accounts).
Proof.
  unfold handleAccountsChanged. destruct accounts as [[| first rest] |];
    from_first.
Qed.

Lemma fromFirst_started r :
  Forall (always (schedulesFrom initialState)) (contractEffect toFixed6 r) /\
  Forall (always (schedulesFrom initialState)) (refreshCallback toFixed6 r) /\
  Forall (always (schedulesFrom initialState)) (pollCallback toFixed6 r).
Proof.
  unfold contractEffect, refreshCallback, pollCallback.
  split; [destruct (contract r) | split];
    repeat (constructor;
            try apply fromFirst_loadItems; try apply fromFirst_fetch).
Qed.

Lemma advance_timers (t : Task unit) : forall s,
  always (schedulesFrom initialState) t ->
  Forall (eq initialState) (timers s) ->
  Forall (eq initialState) (timers (fst (advance t s))) /\
  match snd (advance t s) with
  | Some p => timersSafe p
  | None => True
  end.
Proof.
  induction t as [a | e | a k IH | k IH | R c k IH]; intros s Ht Hs;
    cbn [advance fst snd always] in *.
  - split; [exact Hs | exact I].
  - split; [exact Hs | exact I].
  - destruct Ht as [Ha Hk]. apply (IH _ Hk).
    destruct a; try exact Hs.
    cbn [sysDo timers onMachine]. apply Forall_app. split; [exact Hs |].
    constructor; [symmetry; exact Ha | constructor].
  - apply (IH (fresh (machine s)) (onMachine allocate s) (Ht _) Hs).
  - split; [exact Hs |]. intros r. apply Ht.
Qed.

Lemma spawn_timers s t :
  TimerInv s -> always (schedulesFrom initialState) t -> TimerInv (spawn s t).
Proof.
  intros (Hl & Ht & Hp) Hsafe.
  destruct (advance_timers t s Hsafe Ht) as [H1 H2].
  destruct (advance_fields t s) as (G1 & _ & G3).
  unfold spawn. destruct (advance t s) as [s' [p |]]; cbn [fst snd] in *.
  - split; [cbn [listener]; rewrite G1; exact Hl |].
    split; [exact H1 |]. cbn [pending]. rewrite G3.
    apply Forall_app. split; [exact Hp | constructor; [exact H2 | constructor]].
  - split; [rewrite G1; exact Hl |]. split; [exact H1 | rewrite G3; exact Hp].
Qed.

Lemma fold_spawn_timers ts : forall s,
  Forall (always (schedulesFrom initialState)) ts -> TimerInv s -> TimerInv (fold_left spawn ts s).
Proof.
  induction ts as [| t ts IH]; intros s Hts Hs; cbn [fold_left]; [exact Hs |].
  inversion Hts as [| ? ? Ht Hts']; subst.
  apply (IH _ Hts'), spawn_timers; assumption.
Qed.

Lemma resume_timers n s : TimerInv s -> TimerInv (resume w n s).
Proof.
  intros (Hl & Ht & Hp). unfold resume.
  destruct (nth_error (pending s) n) as [[R c k] |] eqn:Hn;
    [| repeat split; assumption].
  pose proof (proj1 (Forall_forall _ _) Hp _ (nth_error_In _ _ Hn)) as Hk.
  cbn [timersSafe] in Hk.
  set (s0 := onMachine (record (EAwait c (w R (past (machine s)) c))) s).
  destruct (advance_timers (k (w R (past (machine s)) c)) s0 (Hk _) Ht)
    as [H1 H2].
  destruct (advance_fields (k (w R (past (machine s)) c)) s0) as (G1 & _ & G3).
  destruct (advance _ s0) as [s' p]; cbn [fst snd] in *.
  split; [cbn [listener]; rewrite G1; exact Hl |].
  split; [exact H1 |]. cbn [pending]. rewrite G3.
  apply Forall_replaceAt; [exact Hp | destruct p; [exact H2 | exact I]].
Qed.

Lemma commit_timers old s : TimerInv s -> TimerInv (commit toFixed6 old s).
Proof.
  intros Hs. unfold commit.
  assert (H1 : TimerInv (if sameHandle (contract old) (contract (ui (machine s)))
                         then s
                         else fold_left spawn
                                (contractEffect toFixed6 (ui (machine s))) s)).
  { destruct (sameHandle _ _); [exact Hs |].
    apply fold_spawn_timers; [apply fromFirst_started | exact Hs]. }
  destruct (sameHandle (provider old) _); [exact H1 |].
  destruct H1 as (Ha & Hb & Hc). repeat split; assumption.
Qed.

Lemma step_timers s i : TimerInv s -> TimerInv (step toFixed6 ethereum w s i).
Proof.
  intros Hs. unfold step. apply commit_timers.
  destruct i as [n | | v | v | | n | accounts | |].
  - apply resume_timers, Hs.
  - destruct (truthy _); [exact Hs |].
    apply spawn_timers; [exact Hs | apply fromFirst_connectWallet].
  - apply (spawn_timers s (do (setItemName v)) Hs). split; exact I.
  - apply (spawn_timers s (do (setItemPrice v)) Hs). split; exact I.
  - destruct (disabled _); [exact Hs |].
    apply spawn_timers; [exact Hs | apply fromFirst_listNewItem].
  - destruct (nth_error _ n) as [item |]; [| exact Hs].
    destruct (buyOffered _ item && negb (disabled _)); [| exact Hs].
    apply spawn_timers; [exact Hs | apply fromFirst_buyItem].
  - destruct (listener s) as [closure |] eqn:E; [| exact Hs].
    assert (Ec : closure = initialState).
    { destruct Hs as ([Hl | Hl] & _ & _); rewrite E in Hl;
        [discriminate | injection Hl as ->; reflexivity]. }
    subst closure.
    apply spawn_timers; [exact Hs | apply fromFirst_handleAccountsChanged].
  - destruct (interval s) as [closure |]; [| exact Hs].
    apply fold_spawn_timers; [apply fromFirst_started | exact Hs].
  - destruct (timers s) as [| closure rest] eqn:E; [exact Hs |].
    destruct Hs as (Hl & Ht & Hp). rewrite E in Ht.
    inversion Ht; subst.
    apply fold_spawn_timers; [apply fromFirst_started |].
    repeat split; assumption.
Qed.

Lemma mount_timers : TimerInv (mount toFixed6 ethereum).
Proof.
  unfold mount.
  assert (H0 : TimerInv (mkSys (mkMachine initialState 0 []) [] None None [])).
  { split; [left; reflexivity | split; constructor]. }
  destruct (spawn_timers _ (init toFixed6 ethereum initialState) H0
              (fromFirst_init _)) as (_ & Ht & Hp).
  split; [destruct ethereum; [right | left]; reflexivity |].
  split; assumption.
Qed.

Lemma exec_timers inputs : forall s,
  TimerInv s -> TimerInv (exec toFixed6 ethereum w s inputs).
Proof.
  induction inputs as [| i rest IH]; intros s Hs; [exact Hs |].
  cbn [exec fold_left]. apply IH, step_timers, Hs.
Qed.

End DeferredRefresh.

(** X14: along every interleaving from the mount on, a deferred refresh that
    fires does nothing: the listener that scheduled it belongs to the first
    render, in whose closures no contract and no provider is bound, so its
    [loadItems()] and [fetchContractBalance()] return at once. No request
    goes out, no state cell changes and nothing is logged; only the timer is
    consumed. *)
Theorem deferred_refresh_is_idle
  (toFixed6 : string -> string) (ethereum : bool) (w : World)
  (inputs : list Input) :
  let s := exec toFixed6 ethereum w (mount toFixed6 ethereum) inputs in
  machine (step toFixed6 ethereum w s TimerFire) = machine s /\
  pending (step toFixed6 ethereum w s TimerFire) = pending s /\
  timers (step toFixed6 ethereum w s TimerFire) = tl (timers s).
Proof.
  cbv zeta.
  destruct (exec_timers toFixed6 ethereum w inputs _
              (mount_timers toFixed6 ethereum)) as (_ & Ht & _).
  set (s := exec toFixed6 ethereum w (mount toFixed6 ethereum) inputs) in *.
  unfold step. destruct (timers s) as [| closure rest] eqn:E.
  - rewrite commit_unchanged. repeat split. exact E.
  - inversion Ht as [| ? ? Hc _]; subst closure.
    cbn [refreshCallback fold_left]. unfold commit, spawn. cbn.
    rewrite !sameHandle_refl. repeat split.
Qed.

(** ** What is rendered *)

Lemma string_of_list_ascii_app (l1 l2 : list ascii) :
  string_of_list_ascii (l1 ++ l2) =
  (string_of_list_ascii l1 ++ string_of_list_ascii l2)%string.
Proof.
  induction l1 as [| c l1 IH]; [reflexivity |].
  cbn [app string_of_list_ascii String.append]. rewrite IH. reflexivity.
Qed.

Lemma length_list_ascii (s : string) :
  List.length (list_ascii_of_string s) = String.length s.
Proof. induction s as [| c s IH]; [reflexivity | cbn; rewrite IH; reflexivity]. Qed.

Lemma length_string_of_list (l : list ascii) :
  String.length (string_of_list_ascii l) = List.length l.
Proof. induction l as [| c l IH]; [reflexivity | cbn; rewrite IH; reflexivity]. Qed.

Lemma shortenAddress_nonempty (addr : string) :
  addr <> "" ->
  shortenAddress addr =
  string_of_list_ascii
    (sliceFirst6 (list_ascii_of_string addr) ++ ellipsis
     ++ sliceLast4 (list_ascii_of_string addr)).
Proof.
  intros H. unfold shortenAddress.
  destruct (String.eqb_spec addr ""); [contradiction | reflexivity].
Qed.

Lemma shortenAddress_length (addr : string) :
  addr <> "" ->
  String.length (shortenAddress addr) =
  (Nat.min 6 (String.length addr) + 3 + Nat.min 4 (String.length addr))%nat.
Proof.
  intros H. rewrite (shortenAddress_nonempty addr H), length_string_of_list.
  unfold sliceFirst6, sliceLast4.
  rewrite !length_app, length_firstn, length_skipn, length_list_ascii.
  change (List.length ellipsis) with 3%nat. lia.
Qed.

(** X15: an address of ten characters or more is shown as its first six
    characters, three dots and its last four characters, thirteen characters
    in all; what lies between is hidden. *)
Theorem shortenAddress_keeps_ends (addr : string) :
  (10 <= String.length addr)%nat ->
  exists first6 hidden last4 : string,
    addr = (first6 ++ hidden ++ last4)%string /\
    shortenAddress addr = (first6 ++ "..." ++ last4)%string /\
    String.length first6 = 6%nat /\ String.length last4 = 4%nat /\
    String.length (shortenAddress addr) = 13%nat.
Proof.
  intros Hlen.
  assert (Hne : addr <> "") by (intros ->; cbn in Hlen; lia).
  set (l := list_ascii_of_string addr).
  assert (Hl : List.length l = String.length addr) by apply length_list_ascii.
  exists (string_of_list_ascii (firstn 6 l)),
         (string_of_list_ascii (firstn (List.length l - 10) (skipn 6 l))),
         (string_of_list_ascii (skipn (List.length l - 4) l)).
  repeat split.
  - rewrite <- !string_of_list_ascii_app.
    rewrite <- (string_of_list_ascii_of_string addr) at 1. fold l. f_equal.
    rewrite <- (firstn_skipn 6 l) at 1. f_equal.
    rewrite <- (firstn_skipn (List.length l - 10) (skipn 6 l)) at 1. f_equal.
    rewrite skipn_skipn. f_equal. lia.
  - rewrite (shortenAddress_nonempty addr Hne). fold l.
    rewrite !string_of_list_ascii_app. reflexivity.
  - rewrite length_string_of_list, length_firstn. lia.
  - rewrite length_string_of_list, length_skipn. lia.
  - rewrite (shortenAddress_length addr Hne). lia.
Qed.

(** X16: a text of one to four characters is not shortened but shown twice,
    around the three dots; the empty text is shown as the empty text. *)
Theorem shortenAddress_short_text (addr : string) :
  (String.length addr <= 4)%nat ->
  shortenAddress addr =
    (if (addr =? "")%string then "" else addr ++ "..." ++ addr)%string.
Proof.
  intros Hlen. unfold shortenAddress.
  destruct (addr =? "")%string; [reflexivity |].
  unfold sliceFirst6, sliceLast4.
  pose proof (length_list_ascii addr) as Hl.
  rewrite firstn_all2 by lia.
  replace (List.length (list_ascii_of_string addr) - 4)%nat with 0%nat by lia.
  cbn [skipn]. rewrite !string_of_list_ascii_app, string_of_list_ascii_of_string.
  reflexivity.
Qed.

(** X17: the button of a listing reads Buy, Sold or Your Item, never
    Unavailable: the branch with the disabled button is reached only for a
    sold listing or for one of the connected account. It reads Buy exactly
    when the Buy button is rendered and Sold exactly for a sold listing. *)
Theorem buttonLabel_cases (s : State) (item : Item) :
  (buttonLabel s item = "Buy" \/ buttonLabel s item = "Sold" \/
   buttonLabel s item = "Your Item") /\
  buttonLabel s item <> "Unavailable" /\
  (buttonLabel s item = "Buy" <-> buyOffered s item = true) /\
  (buttonLabel s item = "Sold" <-> sold item = true).
Proof.
  unfold buttonLabel, buyOffered.
  destruct (sold item);
    destruct (toLowerCase (seller item) =? normalizedAccount s)%string;
    cbn; repeat split; auto; try discriminate; intros H; discriminate.
Qed.

(** X18: the two places that recognise the user's own listing disagree on
    letter case. For a listing whose seller is the connected account but is
    stored with other letter case than the lower-cased account, the Buy
    button is withheld and the button reads Your Item, while the seller line
    does not read You: it shows the shortened address. *)
Theorem own_listing_labels_disagree (s : State) (item : Item) (a : string) :
  account s = Some a ->
  toLowerCase (seller item) = toLowerCase a ->
  seller item <> toLowerCase a ->
  sold item = false ->
  buyOffered s item = false /\
  buttonLabel s item = "Your Item" /\
  sellerLabel s item = shortenAddress (seller item) /\
  sellerLabel s item <> "You".
Proof.
  intros Ha Hsame Hcase Hsold.
  assert (Hnorm : normalizedAccount s = toLowerCase a)
    by (unfold normalizedAccount; rewrite Ha; reflexivity).
  assert (Hlabel : sellerLabel s item = shortenAddress (seller item)).
  { unfold sellerLabel. rewrite Hnorm.
    destruct (String.eqb_spec (seller item) (toLowerCase a));
      [contradiction | reflexivity]. }
  unfold buttonLabel, buyOffered. rewrite Hsold, Hnorm, Hsame, String.eqb_refl.
  cbn [negb andb]. repeat split; [exact Hlabel |].
  rewrite Hlabel. intros Hyou.
  assert (Hne : seller item <> "").
  { intros E. rewrite E in *. cbn in Hsame. congruence. }
  pose proof (shortenAddress_length (seller item) Hne) as Hlen.
  rewrite Hyou in Hlen. cbn [String.length] in Hlen.
  destruct (seller item) as [| c rest]; [congruence |].
  cbn [String.length] in Hlen. lia.
Qed.

(** ** Further statements at sample inputs *)

Lemma loadItems_caught_keeps_cache_witness :
  existsb caught
    (trace (run strangeLedger (loadItems initialState (Some 1%nat)) stockedMachine))
    = true /\
  items (ui (final (run strangeLedger (loadItems initialState (Some 1%nat))
                        stockedMachine))) = items (ui stockedMachine) /\
  loading (ui (final (run strangeLedger (loadItems initialState (Some 1%nat))
                          stockedMachine))) = false.
Proof.
  split; [vm_compute; reflexivity |].
  apply (loadItems_caught_keeps_cache strangeLedger initialState (Some 1%nat)
           stockedMachine).
  vm_compute. reflexivity.
Defined.

Lemma loadItems_count_overflow_witness :
  hugeLedger Z (past (act (setLoading true) stockedMachine)) (call_itemCount 1%nat)
    = Resolved (2 ^ 53) /\
  2 ^ 53 <= Z.abs (2 ^ 53) /\
  trace (run hugeLedger (loadItems initialState (Some 1%nat)) stockedMachine) =
    [EDo (setLoading true); EAwait (call_itemCount 1%nat) (Resolved (2 ^ 53));
     EDo (console_error "loadItems error:" (mkErr None "overflow"));
     EDo (setLoading false)] /\
  items (ui (final (run hugeLedger (loadItems initialState (Some 1%nat))
                        stockedMachine))) = items (ui stockedMachine) /\
  loading (ui (final (run hugeLedger (loadItems initialState (Some 1%nat))
                          stockedMachine))) = false.
Proof.
  split; [reflexivity |]. split; [vm_compute; discriminate |].
  apply (loadItems_count_overflow hugeLedger initialState 1%nat stockedMachine
           (2 ^ 53)).
  - reflexivity.
  - vm_compute. discriminate.
Defined.

Lemma toItem_converts_iff_id_fits_witness :
  0 <= raw_price sampleRaw /\
  ((exists item, toItem sampleRaw = Resolved item) <->
   Z.abs (raw_id sampleRaw) < 2 ^ 53) /\
  (forall item, toItem sampleRaw = Resolved item ->
     id item = raw_id sampleRaw /\ seller item = raw_seller sampleRaw /\
     name item = raw_name sampleRaw /\ sold item = raw_sold sampleRaw /\
     Ethers.formatEther (raw_price sampleRaw) = Resolved (price item)).
Proof.
  split; [vm_compute; discriminate |].
  apply (toItem_converts_iff_id_fits sampleRaw). vm_compute. discriminate.
Defined.

Lemma mutation_needs_session_witness :
  (truthy (account initialState) = false \/ contract initialState = None) /\
  trace (run sampleLedger (mutate plainText initialState (BuyItem 2 "0.2"))
             stockedMachine) =
    [EDo (alert "Connect your wallet first")] /\
  ui (final (run sampleLedger (mutate plainText initialState (BuyItem 2 "0.2"))
                 stockedMachine)) = ui stockedMachine.
Proof.
  split; [left; reflexivity |].
  apply (mutation_needs_session plainText sampleLedger initialState stockedMachine
           (BuyItem 2 "0.2")).
  left. reflexivity.
Defined.

Lemma mutation_unsettled_keeps_state_witness :
  truthy (account zeroPriceRender) = true /\
  contract zeroPriceRender = Some 1%nat /\
  ready zeroPriceRender ListItem = true /\
  existsb settled
    (trace (run strangeLedger (mutate plainText zeroPriceRender ListItem)
                stockedMachine)) = false /\
  ui (final (run strangeLedger (mutate plainText zeroPriceRender ListItem)
                 stockedMachine)) =
    perform (setLoading false) (ui stockedMachine) /\
  existsb refreshRequest
    (trace (run strangeLedger (mutate plainText zeroPriceRender ListItem)
                stockedMachine)) = false /\
  existsb failureReport
    (trace (run strangeLedger (mutate plainText zeroPriceRender ListItem)
                stockedMachine)) = true.
Proof.
  split; [reflexivity |]. split; [reflexivity |]. split; [reflexivity |].
  split; [vm_compute; reflexivity |].
  apply (mutation_unsettled_keeps_state plainText strangeLedger zeroPriceRender
           stockedMachine ListItem 1%nat);
    vm_compute; reflexivity.
Defined.

Lemma mutation_settled_reports_success_witness :
  truthy (account zeroPriceRender) = true /\
  contract zeroPriceRender = Some 1%nat /\
  existsb settled
    (trace (run sampleLedger (mutate plainText zeroPriceRender ListItem)
                stockedMachine)) = true /\
  (exists before,
     trace (run sampleLedger (mutate plainText zeroPriceRender ListItem)
                stockedMachine) =
       before ++ [EDo (alert "Item listed successfully!"); EDo (setLoading false)] /\
     existsb failureReport before = false) /\
  loading (ui (final (run sampleLedger (mutate plainText zeroPriceRender ListItem)
                          stockedMachine))) = false /\
  itemName (ui (final (run sampleLedger (mutate plainText zeroPriceRender ListItem)
                           stockedMachine))) = "" /\
  itemPrice (ui (final (run sampleLedger (mutate plainText zeroPriceRender ListItem)
                            stockedMachine))) = "".
Proof.
  split; [reflexivity |]. split; [reflexivity |].
  split; [vm_compute; reflexivity |].
  destruct (mutation_settled_reports_success plainText sampleLedger zeroPriceRender
              stockedMachine ListItem 1%nat eq_refl eq_refl)
    as (Hend & Hloading & _ & _ & _ & Hname & Hprice);
    [vm_compute; reflexivity |].
  split; [exact Hend |]. split; [exact Hloading |].
  split; [exact Hname | exact Hprice].
Defined.

Lemma connectWallet_binds_first_account_witness :
  firstGranted
    (trace (run sampleLedger (connectWallet plainText true initialState)
                stockedMachine)) = Some "0xa11ce" /\
  account (ui (final (run sampleLedger (connectWallet plainText true initialState)
                          stockedMachine))) = Some "0xa11ce" /\
  provider (ui (final (run sampleLedger (connectWallet plainText true initialState)
                           stockedMachine))) = Some 2%nat /\
  contract (ui (final (run sampleLedger (connectWallet plainText true initialState)
                           stockedMachine))) = Some 3%nat /\
  items (ui (final (run sampleLedger (connectWallet plainText true initialState)
                        stockedMachine))) = items (ui stockedMachine) /\
  loading (ui (final (run sampleLedger (connectWallet plainText true initialState)
                          stockedMachine))) = loading (ui stockedMachine) /\
  existsb connectFailed
    (trace (run sampleLedger (connectWallet plainText true initialState)
                stockedMachine)) = false.
Proof.
  split; [vm_compute; reflexivity |].
  apply (connectWallet_binds_first_account plainText true sampleLedger initialState
           stockedMachine "0xa11ce").
  vm_compute. reflexivity.
Defined.

Lemma loading_blocks_mutations_witness :
  loading (ui (machine purchasePending)) = true /\
  step plainText true sampleLedger purchasePending SubmitList = purchasePending /\
  forall n,
    step plainText true sampleLedger purchasePending (ClickBuy n) = purchasePending.
Proof.
  split; [vm_compute; reflexivity |].
  apply (loading_blocks_mutations plainText true sampleLedger purchasePending).
  vm_compute. reflexivity.
Defined.

Lemma shortenAddress_keeps_ends_witness :
  (10 <= String.length contractAddress)%nat /\
  exists first6 hidden last4 : string,
    contractAddress = (first6 ++ hidden ++ last4)%string /\
    shortenAddress contractAddress = (first6 ++ "..." ++ last4)%string /\
    String.length first6 = 6%nat /\ String.length last4 = 4%nat /\
    String.length (shortenAddress contractAddress) = 13%nat.
Proof.
  split; [cbn; lia |].
  apply (shortenAddress_keeps_ends contractAddress). cbn. lia.
Defined.

Lemma shortenAddress_short_text_witness :
  (String.length "0x1" <= 4)%nat /\ shortenAddress "0x1" = "0x1...0x1".
Proof.
  split; [cbn; lia |].
  apply (shortenAddress_short_text "0x1"). cbn. lia.
Defined.

Lemma own_listing_labels_disagree_witness :
  account zeroPriceRender = Some "0xa11ce" /\
  toLowerCase (seller ownListing) = toLowerCase "0xa11ce" /\
  seller ownListing <> toLowerCase "0xa11ce" /\
  sold ownListing = false /\
  buyOffered zeroPriceRender ownListing = false /\
  buttonLabel zeroPriceRender ownListing = "Your Item" /\
  sellerLabel zeroPriceRender ownListing = shortenAddress (seller ownListing) /\
  sellerLabel zeroPriceRender ownListing <> "You".
Proof.
  split; [reflexivity |]. split; [vm_compute; reflexivity |].
  split; [vm_compute; discriminate |]. split; [reflexivity |].
  apply (own_listing_labels_disagree zeroPriceRender ownListing "0xa11ce").
  - reflexivity.
  - vm_compute. reflexivity.
  - vm_compute. discriminate.
  - reflexivity.
Defined.
